(** * Florida housing Monte Carlo simulator: embedding and verified properties

    A shallow embedding of [src/monte_carlo_housing.py]: the scenario catalog,
    the renting and buying simulators, the timeline projector, the result
    aggregation and the scenario dispatch.  The two callers of [app.py]
    are embedded too: the batch over the sampled households and the three
    recommendations of the household page.

    Modelling choices.
    - Python and numpy floats are idealised as exact rationals ([Q]); the
      results of float division by zero (inf, nan) are kept as a small
      tagged type because the affordability tests compare them.
    - The process-wide numpy generator is an explicit state: a tape of
      variates and a cursor.  Every sampler call reads one tape cell and
      advances the cursor.  Seeding replaces the tape and resets the cursor.
      A normal variate can be any rational; uniform and triangular variates
      are in range when the tape is well formed ([tape_ok]).  Runs that are
      meant to be runs of the code keep the normal variates within the range
      of numpy's sampler as well.
    - Python dicts are [gmap]s; the catalog also keeps its insertion order,
      which [compare_scenarios] iterates over.
    - A raised [KeyError] is a constructor of the result type.
    - The level payment [(1+r)^360] is never evaluated in a proof: runs on
      concrete inputs are followed with the loop equations and the bounds
      [0 <= payment <= loan * (1 + r)] and
      [payment <= loan * (r + 1 / 360)]. *)

From Stdlib Require Import QArith Qminmax Qpower Qround Lqa Lia Sorted.
From stdpp Require Import base strings gmap list.

Local Open Scope Q_scope.

(** ** Numbers *)

Module Num.

Definition Qltb (x y : Q) : bool := negb (Qle_bool y x).

(** Python's built-in [min(a, b)] and [max(a, b)]: the first argument wins
    ties. *)
Definition py_min (a b : Q) : Q := if Qltb b a then b else a.
Definition py_max (a b : Q) : Q := if Qltb a b then b else a.

(** [np.clip(x, lo, hi)] is [minimum(maximum(x, lo), hi)]. *)
Definition np_clip (x lo hi : Q) : Q := py_min (py_max x lo) hi.

(** Outcome of a float division [a / b] on numpy scalars (the household
    fields are numpy scalars when the household is a row of the generator's
    DataFrame, as in the application and the tests): a zero divisor gives an
    infinity of the sign of [a], or nan for [0 / 0], and no exception. *)
Inductive ratio : Type :=
| Finite (q : Q)
| PosInf
| NegInf
| NaN.

Definition np_div (a b : Q) : ratio :=
  if Qeq_bool b 0 then
    (if Qltb 0 a then PosInf else if Qltb a 0 then NegInf else NaN)
  else Finite (a / b).

(** [r <= c] for a finite bound [c]; every comparison with nan is false. *)
Definition ratio_le (r : ratio) (c : Q) : bool :=
  match r with
  | Finite q => Qle_bool q c
  | PosInf => false
  | NegInf => true
  | NaN => false
  end.

Definition Qnat (n : nat) : Q := inject_Z (Z.of_nat n).

End Num.
Import Num.

(** ** The random generator *)

Module Rng.

(** One cell of the generator's tape.  A sampler reads the component that
    matches its distribution: [unit01] is a uniform variate of [0, 1),
    [gauss] a standard normal variate, and [tri] the signed position of a
    triangular variate relative to its mode, in [-1, 1] (negative: towards
    the left end, positive: towards the right end). *)
Record cell : Type := Cell { unit01 : Q; gauss : Q; tri : Q }.

Record rng : Type := Rng { tape : nat -> cell; cursor : nat }.

(** Computations that consume the generator. *)
Definition Rand (A : Type) : Type := rng -> A * rng.

Definition ret {A} (a : A) : Rand A := fun g => (a, g).

Definition bind {A B} (m : Rand A) (f : A -> Rand B) : Rand B :=
  fun g => let (a, g') := m g in f a g'.

Definition next : Rand cell :=
  fun g => (tape g (cursor g), Rng (tape g) (S (cursor g))).

(** [np.random.seed(s)]: the family [bitgen] gives the tape of each seed. *)
Definition np_random_seed (bitgen : Z -> nat -> cell) (s : Z) : Rand unit :=
  fun _ => (tt, Rng (bitgen s) 0).

(** The generator after [n] more sampler calls. *)
Definition advance (n : nat) (g : rng) : rng := Rng (tape g) (n + cursor g).

End Rng.
Import Rng.

Notation "'do' x <- m ; k" := (bind m (fun x => k))
  (at level 10, x name, m at level 100, k at level 200, only parsing).

Module Sampler.

(** [np.random.uniform(low, high)] *)
Definition uniform (low high : Q) : Rand Q :=
  do c <- next; ret (low + (high - low) * unit01 c).

(** [np.random.normal(loc, scale)] *)
Definition normal (loc scale : Q) : Rand Q :=
  do c <- next; ret (loc + scale * gauss c).

(** [np.random.triangular(left, mode, right)] *)
Definition triangular (left mode right : Q) : Rand Q :=
  do c <- next;
  ret (if Qle_bool (tri c) 0
       then mode + tri c * (mode - left)
       else mode + tri c * (right - mode)).

(** [np.random.random()] *)
Definition random : Rand Q :=
  do c <- next; ret (unit01 c).

End Sampler.

(** ** Data model *)

Record HousingScenarioParameters : Type := {
  scenario_name : string;
  home_price_min : Q;
  home_price_max : Q;
  down_payment_pct : Q;
  interest_rate_mean : Q;
  interest_rate_std : Q;
  property_tax_rate : Q;
  hurricane_insurance_annual : Q;
  hoa_monthly : Q;
  maintenance_annual_pct : Q;
  appreciation_mean : Q;
  appreciation_std : Q;
  closing_costs_pct : Q
}.

Record RegionAdjustment : Type := {
  price_multiplier : Q;
  insurance_multiplier : Q
}.

Record Household : Type := {
  household_id : string;
  annual_income : Q;
  savings : Q;
  credit_score : Q;
  current_monthly_rent : Q;
  debt_to_income_ratio : Q;
  region : string
}.

(** The fields that [__init__] stores on the simulator. *)
Record MonteCarloHousingSimulator : Type := {
  income_growth : Q;
  insurance_increase : Q;
  affordability_threshold : Q;
  appreciation_rate : option Q;
  interest_rate : option Q
}.

(** The entries of [self.scenarios]. *)
Definition keep_renting : HousingScenarioParameters :=
  {| scenario_name := "Keep Renting";
     home_price_min := 0; home_price_max := 0; down_payment_pct := 0;
     interest_rate_mean := 0; interest_rate_std := 0;
     property_tax_rate := 0; hurricane_insurance_annual := 0;
     hoa_monthly := 0; maintenance_annual_pct := 0;
     appreciation_mean := 0; appreciation_std := 0;
     closing_costs_pct := 0 |}.

Definition buy_starter_home : HousingScenarioParameters :=
  {| scenario_name := "Buy Starter Home";
     home_price_min := 200000; home_price_max := 300000;
     down_payment_pct := 0.05;
     interest_rate_mean := 0.065; interest_rate_std := 0.01;
     property_tax_rate := 0.009; hurricane_insurance_annual := 3500;
     hoa_monthly := 150; maintenance_annual_pct := 0.015;
     appreciation_mean := 0.04; appreciation_std := 0.08;
     closing_costs_pct := 0.03 |}.

Definition buy_standard_home : HousingScenarioParameters :=
  {| scenario_name := "Buy Standard Home";
     home_price_min := 300000; home_price_max := 500000;
     down_payment_pct := 0.10;
     interest_rate_mean := 0.0625; interest_rate_std := 0.01;
     property_tax_rate := 0.009; hurricane_insurance_annual := 5500;
     hoa_monthly := 250; maintenance_annual_pct := 0.015;
     appreciation_mean := 0.045; appreciation_std := 0.10;
     closing_costs_pct := 0.03 |}.

Definition buy_premium_home : HousingScenarioParameters :=
  {| scenario_name := "Buy Premium Home";
     home_price_min := 500000; home_price_max := 800000;
     down_payment_pct := 0.20;
     interest_rate_mean := 0.06; interest_rate_std := 0.008;
     property_tax_rate := 0.009; hurricane_insurance_annual := 8500;
     hoa_monthly := 400; maintenance_annual_pct := 0.02;
     appreciation_mean := 0.05; appreciation_std := 0.12;
     closing_costs_pct := 0.03 |}.

(** [self.scenarios], in insertion order. *)
Definition scenario_catalog : list (string * HousingScenarioParameters) :=
  [ ("Keep Renting", keep_renting);
    ("Buy Starter Home", buy_starter_home);
    ("Buy Standard Home", buy_standard_home);
    ("Buy Premium Home", buy_premium_home) ].

Definition scenarios : gmap string HousingScenarioParameters :=
  list_to_map scenario_catalog.

(** [self.region_adjustments] *)
Definition region_adjustments : gmap string RegionAdjustment :=
  list_to_map
    [ ("Miami-Dade", {| price_multiplier := 1.35; insurance_multiplier := 1.40 |});
      ("Tampa Bay", {| price_multiplier := 1.10; insurance_multiplier := 1.20 |});
      ("Orlando", {| price_multiplier := 1.05; insurance_multiplier := 1.15 |});
      ("Jacksonville", {| price_multiplier := 0.95; insurance_multiplier := 1.10 |});
      ("Southwest FL", {| price_multiplier := 1.20; insurance_multiplier := 1.35 |});
      ("Panhandle", {| price_multiplier := 0.85; insurance_multiplier := 1.25 |}) ].

(** [self.region_adjustments.get(region, {1.0, 1.0})] *)
Definition region_adj_of (r : string) : RegionAdjustment :=
  default {| price_multiplier := 1.0; insurance_multiplier := 1.0 |}
          (region_adjustments !! r).

(** A failed dict lookup raises [KeyError]. *)
Inductive pyresult (A : Type) : Type :=
| Ok (a : A)
| KeyError (key : string).
Arguments Ok {A} a.
Arguments KeyError {A} key.

(** [MonteCarloHousingSimulator(random_seed, ...)]: seeds the process-wide
    generator and stores the settings. *)
Definition init (bitgen : Z -> nat -> cell) (random_seed : Z)
    (income_growth insurance_increase affordability_threshold : Q)
    (appreciation_rate interest_rate : option Q)
  : Rand MonteCarloHousingSimulator :=
  do _ <- np_random_seed bitgen random_seed;
  ret {| income_growth := income_growth;
         insurance_increase := insurance_increase;
         affordability_threshold := affordability_threshold;
         appreciation_rate := appreciation_rate;
         interest_rate := interest_rate |}.

(** ** Array statistics *)

Module Stats.

Definition np_sum (l : list Q) : Q := foldr Qplus 0 l.

Definition np_mean (l : list Q) : Q := np_sum l / Qnat (length l).

Fixpoint insert_sorted (x : Q) (l : list Q) : list Q :=
  match l with
  | [] => [x]
  | y :: l' => if Qle_bool x y then x :: l else y :: insert_sorted x l'
  end.

Definition np_sort (l : list Q) : list Q := foldr insert_sorted [] l.

(** [np.median]: the middle element, or the mean of the two middle ones. *)
Definition np_median (l : list Q) : Q :=
  let s := np_sort l in
  let n := length l in
  if Nat.even n
  then (nth (n / 2 - 1) s 0 + nth (n / 2) s 0) / 2
  else nth (n / 2) s 0.

(** [np.percentile(l, q)] with the default linear interpolation.  On an
    empty sample numpy raises [IndexError]; the model returns 0 there, and
    the statements about the statistics of a run take a positive trial
    count. *)
Definition np_percentile (l : list Q) (q : Q) : Q :=
  let s := np_sort l in
  let n := length l in
  let idx := q / 100 * (Qnat n - 1) in
  let lo := Z.to_nat (Qfloor idx) in
  let hi := Nat.min (lo + 1) (n - 1) in
  let g := idx - Qnat lo in
  nth lo s 0 + (nth hi s 0 - nth lo s 0) * g.

(** [(mask).sum()] and boolean-mask selection [a[mask]]. *)
Definition count_true (mask : list bool) : nat :=
  length (filter (fun b => b = true) mask).

Fixpoint select {A} (a : list A) (mask : list bool) : list A :=
  match a, mask with
  | x :: a', b :: mask' => if b then x :: select a' mask' else select a' mask'
  | _, _ => []
  end.

End Stats.
Import Stats.

(** ** Renting simulator *)

(** Distribution summary of a result record. *)
Record Summary : Type := {
  mean : Q;
  median : Q;
  percentile_5 : Q;
  percentile_95 : Q
}.

Definition summarize (a : list Q) : Summary :=
  {| mean := np_mean a;
     median := np_median a;
     percentile_5 := np_percentile a 5;
     percentile_95 := np_percentile a 95 |}.

(** [for _ in range(n)]: run [m] [n] times and collect the outcomes in
    order. *)
Fixpoint replicate_rand {A} (n : nat) (m : Rand A) : Rand (list A) :=
  match n with
  | O => ret []
  | S k => do x <- m; do xs <- replicate_rand k m; ret (x :: xs)
  end.

Module Renting.

(** Locals of one renting trial. *)
Record trial : Type := {
  rent : Q;
  total_cost : Q;
  months_affordable : nat;
  income : Q
}.

(** The inner [for month in range(12)] of the unaffordable branch; returns
    [affordable_months_this_year] and [total_cost]. *)
Fixpoint month_loop (months : nat) (rent monthly_income : Q)
    (affordable_months_this_year : nat) (total_cost : Q) : nat * Q :=
  match months with
  | O => (affordable_months_this_year, total_cost)
  | S k =>
      if ratio_le (np_div rent monthly_income) 0.35
      then month_loop k rent monthly_income
             (S affordable_months_this_year) (total_cost + rent)
      else (affordable_months_this_year, total_cost)
  end.

(** [for year in range(time_horizon_years)], with its [break]. *)
Fixpoint year_loop (self : MonteCarloHousingSimulator) (years : nat)
    (t : trial) : Rand trial :=
  match years with
  | O => ret t
  | S k =>
      do rent_increase <- Sampler.triangular 0.03 0.05 0.10;
      let rent := rent t * (1 + rent_increase) in
      do income_change <- Sampler.normal (income_growth self) 0.08;
      let income := income t * (1 + income_change) in
      let monthly_income := income / 12 in
      let is_affordable := ratio_le (np_div rent monthly_income) 0.35 in
      if is_affordable then
        year_loop self k
          {| rent := rent;
             total_cost := total_cost t + rent * 12;
             months_affordable := months_affordable t + 12;
             income := income |}
      else
        let '(affordable_months_this_year, total_cost) :=
          month_loop 12 rent monthly_income 0 (total_cost t) in
        ret {| rent := rent;
               total_cost := total_cost;
               months_affordable :=
                 months_affordable t + affordable_months_this_year;
               income := income |}
  end.

Definition run_trial (self : MonteCarloHousingSimulator) (household : Household)
    (time_horizon_years : nat) : Rand trial :=
  year_loop self time_horizon_years
    {| rent := current_monthly_rent household;
       total_cost := 0;
       months_affordable := 0;
       income := annual_income household |}.

Record result : Type := {
  r_household_id : string;
  r_scenario : string;
  r_simulations : nat;
  r_time_horizon_years : nat;
  r_initial_monthly_cost : Q;
  r_final_monthly_cost : Summary;
  r_total_cost_paid : Summary;
  r_equity_built : Summary;
  r_probability_affordable : Q;
  r_probability_unaffordable : Q;
  r_mean_affordable_months : Q
}.

Definition aggregate (household : Household)
    (num_simulations time_horizon_years : nat) (trials : list trial) : result :=
  let final_rent := map rent trials in
  let total_paid := map total_cost trials in
  let affordability_months := map months_affordable trials in
  {| r_household_id := household_id household;
     r_scenario := "Keep Renting";
     r_simulations := num_simulations;
     r_time_horizon_years := time_horizon_years;
     r_initial_monthly_cost := current_monthly_rent household;
     r_final_monthly_cost := summarize final_rent;
     r_total_cost_paid := summarize total_paid;
     r_equity_built :=
       {| mean := 0; median := 0; percentile_5 := 0; percentile_95 := 0 |};
     r_probability_affordable :=
       Qnat (count_true
               (map (fun m => Nat.eqb m (time_horizon_years * 12))
                    affordability_months))
       / Qnat num_simulations;
     r_probability_unaffordable :=
       Qnat (count_true
               (map (fun m => Nat.ltb m (time_horizon_years * 12))
                    affordability_months))
       / Qnat num_simulations;
     r_mean_affordable_months := np_mean (map Qnat affordability_months) |}.

(** *** Vocabulary of the statements about renting trials *)

(** The rent and the income of the year that starts on generator [g]. *)
Definition next_rent (t : trial) (g : rng) : Q :=
  rent t * (1 + fst (Sampler.triangular 0.03 0.05 0.10 g)).

Definition next_income (self : MonteCarloHousingSimulator) (t : trial)
    (g : rng) : Q :=
  income t * (1 + (income_growth self + 0.08 * gauss (tape g (S (cursor g))))).

End Renting.

Definition simulate_renting (self : MonteCarloHousingSimulator)
    (household : Household) (num_simulations time_horizon_years : nat)
  : Rand Renting.result :=
  do trials <- replicate_rand num_simulations
                 (Renting.run_trial self household time_horizon_years);
  ret (Renting.aggregate household num_simulations time_horizon_years trials).

(** ** Buying simulator *)

(** Level payment of a 30-year mortgage, with the linear fallback of the
    source for a non-positive monthly rate. *)
Definition num_payments : Z := 30 * 12.

Definition amortized_payment (loan_amount monthly_rate : Q) : Q :=
  loan_amount * (monthly_rate * (1 + monthly_rate) ^ num_payments)
  / ((1 + monthly_rate) ^ num_payments - 1).

Definition monthly_mortgage_payment (loan_amount monthly_rate : Q) : Q :=
  if Qltb 0 monthly_rate
  then amortized_payment loan_amount monthly_rate
  else loan_amount / inject_Z num_payments.

(** The mortgage rate of a trial: a normal draw shifted by the credit
    adjustment, clipped to [0.03, 0.10]. *)
Definition draw_interest_rate (params : HousingScenarioParameters)
    (credit_score : Q) : Rand Q :=
  let credit_adjustment := (750 - credit_score) * 0.0001 in
  do interest_rate <- Sampler.normal
       (interest_rate_mean params + credit_adjustment)
       (interest_rate_std params);
  ret (np_clip interest_rate 0.03 0.10).

Module Buying.

(** Locals of one trial that passed the savings gate. *)
Record locals : Type := {
  interest_rate : Q;
  monthly_mortgage : Q;
  monthly_insurance : Q;
  current_home_value : Q;
  current_loan_balance : Q;
  income : Q;
  total_costs : Q;
  months_affordable : nat;
  total_monthly : Q;
  defaulted : bool
}.

(** What one trial writes into the five result arrays. *)
Record cells : Type := {
  final_equity : Q;
  monthly_costs : Q;
  total_paid : Q;
  default_occurred : bool;
  months_solvent : nat
}.

(** An affordable month: count it, pay, amortize. *)
Definition pay_month (l : locals) : locals :=
  let interest_payment := current_loan_balance l * (interest_rate l / 12) in
  let principal_payment := monthly_mortgage l - interest_payment in
  {| interest_rate := interest_rate l;
     monthly_mortgage := monthly_mortgage l;
     monthly_insurance := monthly_insurance l;
     current_home_value := current_home_value l;
     current_loan_balance := current_loan_balance l - principal_payment;
     income := income l;
     total_costs := total_costs l + total_monthly l;
     months_affordable := months_affordable l + 1;
     total_monthly := total_monthly l;
     defaulted := defaulted l |}.

Definition mark_default (l : locals) : locals :=
  {| interest_rate := interest_rate l;
     monthly_mortgage := monthly_mortgage l;
     monthly_insurance := monthly_insurance l;
     current_home_value := current_home_value l;
     current_loan_balance := current_loan_balance l;
     income := income l;
     total_costs := total_costs l;
     months_affordable := months_affordable l;
     total_monthly := total_monthly l;
     defaulted := true |}.

(** [for month in range(12)] *)
Fixpoint month_loop (self : MonteCarloHousingSimulator) (months : nat)
    (housing_ratio : ratio) (l : locals) : Rand locals :=
  match months with
  | O => ret l
  | S k =>
      if ratio_le housing_ratio (affordability_threshold self) then
        month_loop self k housing_ratio (pay_month l)
      else
        do u <- Sampler.random;
        if Qltb u 0.3 then ret (mark_default l)
        else month_loop self k housing_ratio l
  end.

(** The yearly shocks, up to the recomputed total monthly cost. *)
Definition year_shocks (self : MonteCarloHousingSimulator)
    (params : HousingScenarioParameters) (l : locals) : Rand (ratio * locals) :=
  do income_change <- Sampler.normal (income_growth self) 0.08;
  let income := income l * (1 + income_change) in
  do appreciation <-
    Sampler.normal (appreciation_mean params) (appreciation_std params);
  let current_home_value := current_home_value l * (1 + appreciation) in
  let insurance_mode := np_clip (insurance_increase self) 0.03 0.12 in
  do insurance_increase <- Sampler.triangular 0.03 insurance_mode 0.12;
  let monthly_insurance := monthly_insurance l * (1 + insurance_increase) in
  let monthly_property_tax :=
    current_home_value * property_tax_rate params / 12 in
  do noise <- Sampler.uniform 0.8 1.5;
  let monthly_maintenance :=
    current_home_value * maintenance_annual_pct params / 12 * noise in
  let total_monthly :=
    monthly_mortgage l + monthly_property_tax + monthly_insurance
    + hoa_monthly params + monthly_maintenance in
  let monthly_income := income / 12 in
  let housing_ratio := np_div total_monthly monthly_income in
  ret (housing_ratio,
       {| interest_rate := interest_rate l;
          monthly_mortgage := monthly_mortgage l;
          monthly_insurance := monthly_insurance;
          current_home_value := current_home_value;
          current_loan_balance := current_loan_balance l;
          income := income;
          total_costs := total_costs l;
          months_affordable := months_affordable l;
          total_monthly := total_monthly;
          defaulted := defaulted l |}).

(** [for year in range(time_horizon_years)], left as soon as a month
    defaults. *)
Fixpoint year_loop (self : MonteCarloHousingSimulator)
    (params : HousingScenarioParameters) (years : nat) (l : locals)
  : Rand locals :=
  match years with
  | O => ret l
  | S k =>
      do rl <- year_shocks self params l;
      do l' <- month_loop self 12 (fst rl) (snd rl);
      if defaulted l' then ret l' else year_loop self params k l'
  end.

(** The entry of a trial: price, down payment and closing costs. *)
Record entry : Type := {
  home_price : Q;
  down_payment : Q;
  closing_costs : Q
}.

Definition draw_entry (params : HousingScenarioParameters)
    (region_adj : RegionAdjustment) : Rand entry :=
  do home_price <-
    Sampler.uniform (home_price_min params) (home_price_max params);
  let home_price := home_price * price_multiplier region_adj in
  ret {| home_price := home_price;
         down_payment := home_price * down_payment_pct params;
         closing_costs := home_price * closing_costs_pct params |}.

(** [savings < down_payment + closing_costs], in exact arithmetic: the
    binary64 sum of the code can differ from it in the last digit, which
    decides the test only for savings within rounding distance of the
    sum. *)
Definition fails_entry (household : Household) (e : entry) : bool :=
  Qltb (savings household) (down_payment e + closing_costs e).

(** The locals just before the year loop. *)
Definition initial_locals (household : Household)
    (params : HousingScenarioParameters) (region_adj : RegionAdjustment)
    (e : entry) (interest_rate : Q) : locals :=
  let loan_amount := home_price e - down_payment e in
  let monthly_rate := interest_rate / 12 in
  let monthly_mortgage := monthly_mortgage_payment loan_amount monthly_rate in
  let monthly_property_tax := home_price e * property_tax_rate params / 12 in
  let monthly_insurance :=
    hurricane_insurance_annual params * insurance_multiplier region_adj / 12 in
  let monthly_hoa := hoa_monthly params in
  let monthly_maintenance :=
    home_price e * maintenance_annual_pct params / 12 in
  {| interest_rate := interest_rate;
     monthly_mortgage := monthly_mortgage;
     monthly_insurance := monthly_insurance;
     current_home_value := home_price e;
     current_loan_balance := loan_amount;
     income := annual_income household;
     total_costs := down_payment e + closing_costs e;
     months_affordable := 0;
     total_monthly :=
       monthly_mortgage + monthly_property_tax + monthly_insurance
       + monthly_hoa + monthly_maintenance;
     defaulted := false |}.

(** One trial up to the end of its year loop: [None] when the savings gate
    fails (the trial then leaves by [continue]). *)
Definition play (self : MonteCarloHousingSimulator) (household : Household)
    (params : HousingScenarioParameters) (time_horizon_years : nat)
  : Rand (entry * option locals) :=
  let region_adj := region_adj_of (region household) in
  do e <- draw_entry params region_adj;
  if fails_entry household e then ret (e, None)
  else
    do interest_rate <- draw_interest_rate params (credit_score household);
    do l <- year_loop self params time_horizon_years
              (initial_locals household params region_adj e interest_rate);
    ret (e, Some l).

(** Cells written by a trial that fails the savings gate; [monthly_costs]
    keeps the zero of [np.zeros]. *)
Definition failed_entry_cells (household : Household) (e : entry) : cells :=
  {| final_equity :=
       if Qle_bool (closing_costs e) (savings household)
       then - closing_costs e else - savings household;
     monthly_costs := 0;
     total_paid := py_min (savings household) (closing_costs e);
     default_occurred := true;
     months_solvent := 0 |}.

(** Final accounting of a trial that entered. *)
Definition settle (e : entry) (l : locals) : cells :=
  {| final_equity :=
       if defaulted l
       then - (down_payment e + closing_costs e + total_costs l * 0.2)
       else current_home_value l - py_max 0 (current_loan_balance l);
     monthly_costs := total_monthly l;
     total_paid := total_costs l;
     default_occurred := defaulted l;
     months_solvent := months_affordable l |}.

Definition record_cells (household : Household) (x : entry * option locals)
  : cells :=
  match snd x with
  | None => failed_entry_cells household (fst x)
  | Some l => settle (fst x) l
  end.

Definition run_trial (self : MonteCarloHousingSimulator) (household : Household)
    (params : HousingScenarioParameters) (time_horizon_years : nat)
  : Rand cells :=
  do x <- play self household params time_horizon_years;
  ret (record_cells household x).

Record MeanMedian : Type := { mm_mean : Q; mm_median : Q }.

Record result : Type := {
  r_household_id : string;
  r_scenario : string;
  r_simulations : nat;
  r_time_horizon_years : nat;
  r_initial_monthly_cost : MeanMedian;
  r_final_monthly_cost : Summary;
  r_total_cost_paid : Summary;
  r_equity_built : Summary;
  r_probability_affordable : Q;
  r_probability_default : Q;
  r_probability_negative_equity : Q;
  r_mean_affordable_months : Q
}.

Definition aggregate (household : Household) (scenario_name : string)
    (num_simulations time_horizon_years : nat) (trials : list cells) : result :=
  let final_equity := map final_equity trials in
  let monthly_costs := map monthly_costs trials in
  let total_paid := map total_paid trials in
  let default_occurred := map default_occurred trials in
  let months_solvent := map months_solvent trials in
  let not_default := map negb default_occurred in
  let some_survivor := Nat.ltb 0 (count_true not_default) in
  {| r_household_id := household_id household;
     r_scenario := scenario_name;
     r_simulations := num_simulations;
     r_time_horizon_years := time_horizon_years;
     r_initial_monthly_cost :=
       {| mm_mean :=
            if some_survivor then np_mean (select monthly_costs not_default)
            else 0;
          mm_median :=
            if some_survivor then np_median (select monthly_costs not_default)
            else 0 |};
     r_final_monthly_cost :=
       {| mean :=
            if some_survivor then np_mean (select monthly_costs not_default)
            else 0;
          median :=
            if some_survivor then np_median (select monthly_costs not_default)
            else 0;
          percentile_5 :=
            if some_survivor
            then np_percentile (select monthly_costs not_default) 5 else 0;
          percentile_95 :=
            if some_survivor
            then np_percentile (select monthly_costs not_default) 95 else 0 |};
     r_total_cost_paid := summarize total_paid;
     r_equity_built :=
       {| mean :=
            if some_survivor then np_mean (select final_equity not_default)
            else np_mean final_equity;
          median :=
            if some_survivor then np_median (select final_equity not_default)
            else np_median final_equity;
          percentile_5 := np_percentile final_equity 5;
          percentile_95 := np_percentile final_equity 95 |};
     r_probability_affordable :=
       Qnat (count_true
               (map (fun m => Nat.eqb m (time_horizon_years * 12))
                    months_solvent))
       / Qnat num_simulations;
     r_probability_default :=
       Qnat (count_true default_occurred) / Qnat num_simulations;
     r_probability_negative_equity :=
       Qnat (count_true (map (fun e => Qltb e 0) final_equity))
       / Qnat num_simulations;
     r_mean_affordable_months := np_mean (map Qnat months_solvent) |}.

(** *** Vocabulary of the statements about buying trials *)

(** The fields that only [__init__] of the trial sets. *)
Definition same_loan (l l' : locals) : Prop :=
  interest_rate l' = interest_rate l
  /\ monthly_mortgage l' = monthly_mortgage l.

(** [n] affordable months in a row. *)
Fixpoint pay_months (n : nat) (l : locals) : locals :=
  match n with
  | O => l
  | S k => pay_months k (pay_month l)
  end.

(** The entry drawn by a trial that starts on generator [g], and the
    mortgage rate it would draw next. *)
Definition drawn_entry (params : HousingScenarioParameters)
    (household : Household) (g : rng) : entry :=
  fst (draw_entry params (region_adj_of (region household)) g).

Definition drawn_rate (params : HousingScenarioParameters)
    (household : Household) (g : rng) : Q :=
  fst (draw_interest_rate params (credit_score household) (advance 1 g)).

Definition start_locals (household : Household)
    (params : HousingScenarioParameters) (g : rng) : locals :=
  initial_locals household params (region_adj_of (region household))
    (drawn_entry params household g) (drawn_rate params household g).

Definition costs_ok (l : locals) : Prop :=
  0 <= monthly_mortgage l /\ 0 <= monthly_insurance l
  /\ 0 <= current_home_value l.

(** The shocked quantities as functions of the values they update. *)
Definition shocked_income (self : MonteCarloHousingSimulator) (income : Q)
    (g : rng) : Q :=
  income * (1 + (income_growth self + 0.08 * gauss (tape g (cursor g)))).

Definition shocked_value (params : HousingScenarioParameters) (value : Q)
    (g : rng) : Q :=
  value * (1 + (appreciation_mean params
                + appreciation_std params * gauss (tape g (S (cursor g))))).

Definition shocked_insurance (self : MonteCarloHousingSimulator)
    (insurance : Q) (g : rng) : Q :=
  insurance
  * (1 + fst (Sampler.triangular 0.03
                (np_clip (insurance_increase self) 0.03 0.12) 0.12
                (advance 2 g))).

(** The total monthly cost of the year without the mortgage payment. *)
Definition shocked_extras (self : MonteCarloHousingSimulator)
    (params : HousingScenarioParameters) (value insurance : Q) (g : rng)
  : Q :=
  shocked_value params value g * property_tax_rate params / 12
  + shocked_insurance self insurance g
  + hoa_monthly params
  + shocked_value params value g * maintenance_annual_pct params / 12
    * (0.8 + (1.5 - 0.8) * unit01 (tape g (S (S (S (cursor g)))))).

(** The body of the year loop: shocks, then twelve months. *)
Definition year_body (self : MonteCarloHousingSimulator)
    (params : HousingScenarioParameters) (l : locals) (g : rng)
  : locals * rng :=
  month_loop self 12 (fst (fst (year_shocks self params l g)))
    (snd (fst (year_shocks self params l g))) (advance 4 g).

(** The home value, the insurance premium and the income after [k] years
    in which every month is paid (such a year reads four variates), as
    functions of the values they start from. *)
Fixpoint value_after (params : HousingScenarioParameters) (k : nat)
    (value : Q) (g : rng) : Q :=
  match k with
  | O => value
  | S k' => value_after params k' (shocked_value params value g) (advance 4 g)
  end.

Fixpoint insurance_after (self : MonteCarloHousingSimulator) (k : nat)
    (insurance : Q) (g : rng) : Q :=
  match k with
  | O => insurance
  | S k' =>
      insurance_after self k' (shocked_insurance self insurance g)
        (advance 4 g)
  end.

Fixpoint income_after (self : MonteCarloHousingSimulator) (k : nat)
    (income : Q) (g : rng) : Q :=
  match k with
  | O => income
  | S k' => income_after self k' (shocked_income self income g) (advance 4 g)
  end.

(** The sum over these [k] years of the total monthly cost without the
    mortgage payment. *)
Fixpoint extras_paid (self : MonteCarloHousingSimulator)
    (params : HousingScenarioParameters) (k : nat) (value insurance : Q)
    (g : rng) : Q :=
  match k with
  | O => 0
  | S k' =>
      shocked_extras self params value insurance g
      + extras_paid self params k' (shocked_value params value g)
          (shocked_insurance self insurance g) (advance 4 g)
  end.

(** A test that is sufficient for [k] years in a row to be affordable
    whatever the mortgage payment is, as long as it is at most [bound]. *)
Fixpoint affordable_within (self : MonteCarloHousingSimulator)
    (params : HousingScenarioParameters) (bound : Q) (k : nat)
    (value insurance income : Q) (g : rng) : bool :=
  match k with
  | O => true
  | S k' =>
      Qltb 0 (shocked_income self income g / 12)
      && Qle_bool (bound + shocked_extras self params value insurance g)
           (affordability_threshold self * (shocked_income self income g / 12))
      && affordable_within self params bound k'
           (shocked_value params value g) (shocked_insurance self insurance g)
           (shocked_income self income g) (advance 4 g)
  end.

(** The trials that did not default. *)
Definition survivors (trials : list cells) : list cells :=
  List.filter (fun c => negb (default_occurred c)) trials.

(** The summary as the specification words it: mean and median over the
    non-defaulted trials, or over all trials when none survives; percentile
    bands over all trials. *)
Definition claimed_summary (f : cells -> Q) (trials : list cells) : Summary :=
  let core :=
    match survivors trials with
    | [] => map f trials
    | _ => map f (survivors trials)
    end in
  {| mean := np_mean core;
     median := np_median core;
     percentile_5 := np_percentile (map f trials) 5;
     percentile_95 := np_percentile (map f trials) 95 |}.

(** The summary of the monthly cost as the code computes it: every statistic
    over the non-defaulted trials, and zero when none survives. *)
Definition survivor_summary (f : cells -> Q) (trials : list cells) : Summary :=
  match survivors trials with
  | [] => {| mean := 0; median := 0; percentile_5 := 0; percentile_95 := 0 |}
  | _ => summarize (map f (survivors trials))
  end.

End Buying.

Definition simulate_buying (self : MonteCarloHousingSimulator)
    (household : Household) (scenario_name : string)
    (num_simulations time_horizon_years : nat)
  : Rand (pyresult Buying.result) :=
  match scenarios !! scenario_name with
  | None => ret (KeyError scenario_name)
  | Some params =>
      do trials <- replicate_rand num_simulations
                     (Buying.run_trial self household params time_horizon_years);
      ret (Ok (Buying.aggregate household scenario_name
                 num_simulations time_horizon_years trials))
  end.

(** ** Dispatch and comparison *)

Inductive ResultRecord : Type :=
| RentingRecord (r : Renting.result)
| BuyingRecord (r : Buying.result).

Definition simulate_household (self : MonteCarloHousingSimulator)
    (household : Household) (scenario : string)
    (num_simulations time_horizon_years : nat)
  : Rand (pyresult ResultRecord) :=
  if String.eqb scenario "Keep Renting" then
    do r <- simulate_renting self household num_simulations time_horizon_years;
    ret (Ok (RentingRecord r))
  else
    do r <- simulate_buying self household scenario
              num_simulations time_horizon_years;
    ret (match r with
         | Ok b => Ok (BuyingRecord b)
         | KeyError k => KeyError k
         end).

(** [for scenario_name in self.scenarios.keys()]: the comparison dict, in
    insertion order; the first [KeyError] would abort the loop. *)
Fixpoint compare_loop (self : MonteCarloHousingSimulator)
    (household : Household) (names : list string)
    (num_simulations time_horizon_years : nat)
  : Rand (pyresult (list (string * ResultRecord))) :=
  match names with
  | [] => ret (Ok [])
  | scenario_name :: rest =>
      do r <- simulate_household self household scenario_name
                num_simulations time_horizon_years;
      match r with
      | KeyError k => ret (KeyError k)
      | Ok result =>
          do rs <- compare_loop self household rest
                     num_simulations time_horizon_years;
          ret (match rs with
               | Ok comparison => Ok ((scenario_name, result) :: comparison)
               | KeyError k => KeyError k
               end)
      end
  end.

Definition compare_scenarios (self : MonteCarloHousingSimulator)
    (household : Household) (num_simulations time_horizon_years : nat)
  : Rand (pyresult (list (string * ResultRecord))) :=
  compare_loop self household (map fst scenario_catalog)
    num_simulations time_horizon_years.

(** ** Timeline projector *)

Module Timeline.

(** The three values a trial stores for one year. *)
Record point : Type := {
  equity : Q;
  cost : Q;
  paid : Q
}.

(** Renting branch, years [1 .. time_horizon_years]. *)
Fixpoint rent_years (self : MonteCarloHousingSimulator) (years : nat)
    (rent income cumulative_cost : Q) : Rand (list point) :=
  match years with
  | O => ret []
  | S k =>
      do rent_increase <- Sampler.triangular 0.03 0.05 0.10;
      let rent := rent * (1 + rent_increase) in
      do income_change <- Sampler.normal (income_growth self) 0.08;
      let income := income * (1 + income_change) in
      let cumulative_cost := cumulative_cost + rent * 12 in
      do rest <- rent_years self k rent income cumulative_cost;
      ret ({| equity := 0; cost := rent; paid := cumulative_cost |} :: rest)
  end.

Definition rent_trial (self : MonteCarloHousingSimulator)
    (household : Household) (time_horizon_years : nat) : Rand (list point) :=
  let rent := current_monthly_rent household in
  do rest <- rent_years self time_horizon_years rent
               (annual_income household) 0;
  ret ({| equity := 0; cost := rent; paid := 0 |} :: rest).

(** [for month in range(12)]: amortize and accumulate; returns the loan
    balance and the cumulative cost. *)
Fixpoint pay_months (months : nat) (interest_rate monthly_mortgage
    total_monthly current_loan_balance cumulative_cost : Q) : Q * Q :=
  match months with
  | O => (current_loan_balance, cumulative_cost)
  | S k =>
      let interest_payment := current_loan_balance * (interest_rate / 12) in
      let principal_payment := monthly_mortgage - interest_payment in
      pay_months k interest_rate monthly_mortgage total_monthly
        (current_loan_balance - principal_payment)
        (cumulative_cost + total_monthly)
  end.

(** Buying branch, years [1 .. time_horizon_years]. *)
Fixpoint buy_years (self : MonteCarloHousingSimulator)
    (params : HousingScenarioParameters) (years : nat)
    (interest_rate monthly_mortgage monthly_insurance : Q)
    (current_home_value current_loan_balance income cumulative_cost : Q)
  : Rand (list point) :=
  match years with
  | O => ret []
  | S k =>
      do income_change <- Sampler.normal (income_growth self) 0.08;
      let income := income * (1 + income_change) in
      do appreciation <-
        Sampler.normal (appreciation_mean params) (appreciation_std params);
      let current_home_value := current_home_value * (1 + appreciation) in
      let insurance_mode := np_clip (insurance_increase self) 0.03 0.12 in
      do insurance_increase <- Sampler.triangular 0.03 insurance_mode 0.12;
      let monthly_insurance := monthly_insurance * (1 + insurance_increase) in
      let monthly_property_tax :=
        current_home_value * property_tax_rate params / 12 in
      let monthly_maintenance :=
        current_home_value * maintenance_annual_pct params / 12 in
      let total_monthly :=
        monthly_mortgage + monthly_property_tax + monthly_insurance
        + hoa_monthly params + monthly_maintenance in
      let '(current_loan_balance, cumulative_cost) :=
        pay_months 12 interest_rate monthly_mortgage total_monthly
          current_loan_balance cumulative_cost in
      let equity := current_home_value - py_max 0 current_loan_balance in
      do rest <- buy_years self params k interest_rate monthly_mortgage
                   monthly_insurance current_home_value current_loan_balance
                   income cumulative_cost;
      ret ({| equity := equity; cost := total_monthly;
              paid := cumulative_cost |} :: rest)
  end.

Definition buy_trial (self : MonteCarloHousingSimulator)
    (household : Household) (params : HousingScenarioParameters)
    (time_horizon_years : nat) : Rand (list point) :=
  let region_adj := region_adj_of (region household) in
  do e <- Buying.draw_entry params region_adj;
  let down_payment := Buying.down_payment e in
  let closing_costs := Buying.closing_costs e in
  if Buying.fails_entry household e then
    ret (repeat {| equity := - py_min (savings household) closing_costs;
                   cost := 0;
                   paid := py_min (savings household) closing_costs |}
                (time_horizon_years + 1))
  else
    let loan_amount := Buying.home_price e - down_payment in
    do interest_rate <- draw_interest_rate params (credit_score household);
    let monthly_rate := interest_rate / 12 in
    let monthly_mortgage := monthly_mortgage_payment loan_amount monthly_rate in
    let monthly_insurance :=
      hurricane_insurance_annual params * insurance_multiplier region_adj / 12 in
    let monthly_hoa := hoa_monthly params in
    let cumulative_cost := down_payment + closing_costs in
    do rest <- buy_years self params time_horizon_years interest_rate
                 monthly_mortgage monthly_insurance (Buying.home_price e)
                 loan_amount (annual_income household) cumulative_cost;
    ret ({| equity := down_payment;
            cost := monthly_mortgage
                    + Buying.home_price e * property_tax_rate params / 12
                    + monthly_insurance + monthly_hoa;
            paid := cumulative_cost |} :: rest).

(** One pass of [for sim in range(num_simulations)]: the row of the trial,
    indexed by year [0 .. time_horizon_years]. *)
Definition run_trial (self : MonteCarloHousingSimulator)
    (household : Household) (scenario_name : string)
    (params : HousingScenarioParameters) (time_horizon_years : nat)
  : Rand (list point) :=
  if String.eqb scenario_name "Keep Renting"
  then rent_trial self household time_horizon_years
  else buy_trial self household params time_horizon_years.

Record Band : Type := {
  pessimistic : list Q;
  expected : list Q;
  optimistic : list Q
}.

Record result : Type := {
  t_scenario : string;
  t_years : list nat;
  t_equity : Band;
  t_monthly_costs : Band;
  t_cumulative_costs : Band
}.

(** Column [y] of a per-trial array. *)
Definition column (f : point -> Q) (rows : list (list point)) (y : nat)
  : list Q :=
  map (fun row => match row !! y with Some p => f p | None => 0 end) rows.

Definition aggregate (scenario_name : string) (time_horizon_years : nat)
    (rows : list (list point)) : result :=
  let years := seq 0 (time_horizon_years + 1) in
  let pct f q := map (fun y => np_percentile (column f rows y) q) years in
  {| t_scenario := scenario_name;
     t_years := years;
     t_equity :=
       {| pessimistic := pct equity 5;
          expected := pct equity 50;
          optimistic := pct equity 95 |};
     t_monthly_costs :=
       {| pessimistic := pct cost 95;
          expected := pct cost 50;
          optimistic := pct cost 5 |};
     t_cumulative_costs :=
       {| pessimistic := pct paid 95;
          expected := pct paid 50;
          optimistic := pct paid 5 |} |}.

(** *** Vocabulary of the statements about timeline trials *)

(** The year-0 point of a trial that passes the savings gate. *)
Definition year0_point (household : Household)
    (params : HousingScenarioParameters) (g : rng) : point :=
  let e := Buying.drawn_entry params household g in
  {| equity := Buying.down_payment e;
     cost :=
       monthly_mortgage_payment
         (Buying.home_price e - Buying.down_payment e)
         (Buying.drawn_rate params household g / 12)
       + Buying.home_price e * property_tax_rate params / 12
       + hurricane_insurance_annual params
         * insurance_multiplier (region_adj_of (region household)) / 12
       + hoa_monthly params;
     paid := Buying.down_payment e + Buying.closing_costs e |}.

(** The flat point of a trial that fails the savings gate. *)
Definition failed_point (household : Household)
    (params : HousingScenarioParameters) (g : rng) : point :=
  let e := Buying.drawn_entry params household g in
  {| equity := - py_min (savings household) (Buying.closing_costs e);
     cost := 0;
     paid := py_min (savings household) (Buying.closing_costs e) |}.

(** The years [1 ..] of a trial that passes the savings gate. *)
Definition later_years (self : MonteCarloHousingSimulator)
    (household : Household) (params : HousingScenarioParameters)
    (years : nat) (g : rng) : list point * rng :=
  let e := Buying.drawn_entry params household g in
  buy_years self params years (Buying.drawn_rate params household g)
    (monthly_mortgage_payment
       (Buying.home_price e - Buying.down_payment e)
       (Buying.drawn_rate params household g / 12))
    (hurricane_insurance_annual params
     * insurance_multiplier (region_adj_of (region household)) / 12)
    (Buying.home_price e)
    (Buying.home_price e - Buying.down_payment e)
    (annual_income household)
    (Buying.down_payment e + Buying.closing_costs e)
    (advance 2 g).

(** The appreciation that a buying trial draws in year [k + 1] when it
    starts on [g]: the trial reads the price at the cursor and the rate
    next, then three variates a year (income change, appreciation,
    insurance increase). *)
Definition drawn_appreciation (params : HousingScenarioParameters) (g : rng)
    (k : nat) : Q :=
  appreciation_mean params
  + appreciation_std params * gauss (tape g (S (3 * k + (2 + cursor g)))).

(** No appreciation draw of the trial is below -100 %: its home values stay
    non-negative. *)
Definition appreciation_draws_ok (params : HousingScenarioParameters)
    (years : nat) (g : rng) : Prop :=
  forall k : nat, (k < years)%nat -> -1 <= drawn_appreciation params g k.

End Timeline.

Definition simulate_timeline (self : MonteCarloHousingSimulator)
    (household : Household) (scenario_name : string)
    (num_simulations time_horizon_years : nat)
  : Rand (pyresult Timeline.result) :=
  match scenarios !! scenario_name with
  | None => ret (KeyError scenario_name)
  | Some params =>
      do rows <- replicate_rand num_simulations
                   (Timeline.run_trial self household scenario_name params
                      time_horizon_years);
      ret (Ok (Timeline.aggregate scenario_name time_horizon_years rows))
  end.

(** ** The recommendations of the application

    [single_household_analysis_page] of [app.py] compares all scenarios for
    one household and names three of them. *)

Module App.

(** Python's [max(iterable, key=...)] and [min(iterable, key=...)]: the
    first item with the largest (smallest) key; [None] stands for the
    [ValueError] of an empty iterable. *)
Fixpoint max_from {A} (key : A -> Q) (best : A) (l : list A) : A :=
  match l with
  | [] => best
  | x :: l' => max_from key (if Qltb (key best) (key x) then x else best) l'
  end.

Definition py_max_key {A} (key : A -> Q) (l : list A) : option A :=
  match l with
  | [] => None
  | x :: l' => Some (max_from key x l')
  end.

Fixpoint min_from {A} (key : A -> Q) (best : A) (l : list A) : A :=
  match l with
  | [] => best
  | x :: l' => min_from key (if Qltb (key x) (key best) then x else best) l'
  end.

Definition py_min_key {A} (key : A -> Q) (l : list A) : option A :=
  match l with
  | [] => None
  | x :: l' => Some (min_from key x l')
  end.

(** [result['probability_affordable']] *)
Definition probability_affordable (r : ResultRecord) : Q :=
  match r with
  | RentingRecord r => Renting.r_probability_affordable r
  | BuyingRecord b => Buying.r_probability_affordable b
  end.

(** [result.get('probability_default', d)]: the renting record has no such
    key. *)
Definition probability_default_or (d : Q) (r : ResultRecord) : Q :=
  match r with
  | RentingRecord _ => d
  | BuyingRecord b => Buying.r_probability_default b
  end.

(** [result['equity_built']['mean']] *)
Definition equity_mean (r : ResultRecord) : Q :=
  match r with
  | RentingRecord r => mean (Renting.r_equity_built r)
  | BuyingRecord b => mean (Buying.r_equity_built b)
  end.

Record Recommendations : Type := {
  best_afford : string * ResultRecord;
  safest : string * ResultRecord;
  best_equity : string * ResultRecord
}.

(** The three picks over [comparison.items()]. *)
Definition recommend (comparison : list (string * ResultRecord))
  : option Recommendations :=
  match py_max_key (fun x => probability_affordable (snd x)) comparison,
        py_min_key (fun x => probability_default_or 1 (snd x)) comparison,
        py_max_key (fun x => equity_mean (snd x)) comparison with
  | Some a, Some s, Some e =>
      Some {| best_afford := a; safest := s; best_equity := e |}
  | _, _, _ => None
  end.

(** The default risk that the page prints for the safest scenario. *)
Definition displayed_default_risk (rec : Recommendations) : Q :=
  probability_default_or 0 (snd (safest rec)).

(** The button of the page: a simulator seeded with 42, the comparison, the
    picks. *)
Definition compare_all (bitgen : Z -> nat -> cell)
    (income_growth insurance_increase affordability_threshold : Q)
    (household : Household) (num_simulations time_horizon : nat)
  : Rand (pyresult (option Recommendations)) :=
  do simulator <- init bitgen 42 income_growth insurance_increase
                    affordability_threshold None None;
  do comparison <- compare_scenarios simulator household num_simulations
                     time_horizon;
  ret (match comparison with
       | Ok c => Ok (recommend c)
       | KeyError k => KeyError k
       end).

(** [run_simulation_page]: the loop over the sampled households.  With
    'All Scenarios' the four scenarios are run for each household in turn,
    otherwise the selected one; every result is appended to
    [results_list]. *)
Definition all_scenarios : list string :=
  ["Keep Renting"; "Buy Starter Home"; "Buy Standard Home";
   "Buy Premium Home"].

Fixpoint simulate_names (simulator : MonteCarloHousingSimulator)
    (household : Household) (names : list string)
    (num_simulations time_horizon : nat)
  : Rand (pyresult (list ResultRecord)) :=
  match names with
  | [] => ret (Ok [])
  | scen_name :: rest =>
      do r <- simulate_household simulator household scen_name
                num_simulations time_horizon;
      match r with
      | KeyError k => ret (KeyError k)
      | Ok result =>
          do rs <- simulate_names simulator household rest
                     num_simulations time_horizon;
          ret (match rs with
               | Ok results => Ok (result :: results)
               | KeyError k => KeyError k
               end)
      end
  end.

Fixpoint run_simulations (simulator : MonteCarloHousingSimulator)
    (sample : list Household) (scenario : string)
    (num_simulations time_horizon : nat)
  : Rand (pyresult (list ResultRecord)) :=
  match sample with
  | [] => ret (Ok [])
  | household :: rest =>
      do rs <- simulate_names simulator household
                 (if String.eqb scenario "All Scenarios"
                  then all_scenarios else [scenario])
                 num_simulations time_horizon;
      match rs with
      | KeyError k => ret (KeyError k)
      | Ok results =>
          do more <- run_simulations simulator rest scenario
                       num_simulations time_horizon;
          ret (match more with
               | Ok results_list => Ok (results ++ results_list)
               | KeyError k => KeyError k
               end)
      end
  end.

(** The columns [household_id] and [scenario] of the results frame. *)
Definition result_key (r : ResultRecord) : string * string :=
  match r with
  | RentingRecord r => (Renting.r_household_id r, Renting.r_scenario r)
  | BuyingRecord b => (Buying.r_household_id b, Buying.r_scenario b)
  end.

End App.

(** ** Well-formed inputs and repeated calls *)

(** Every catalog entry has non-negative prices, rates and fees, and a
    down-payment fraction of at most one. *)
Definition params_ok (p : HousingScenarioParameters) : Prop :=
  0 <= home_price_min p /\ home_price_min p <= home_price_max p
  /\ 0 <= down_payment_pct p /\ down_payment_pct p <= 1
  /\ 0 <= closing_costs_pct p /\ 0 <= property_tax_rate p
  /\ 0 <= hurricane_insurance_annual p /\ 0 <= hoa_monthly p
  /\ 0 <= maintenance_annual_pct p.

(** The variates of a cell lie in the range of their distribution. *)
Definition cell_ok (c : cell) : Prop :=
  0 <= unit01 c /\ unit01 c < 1 /\ -1 <= tri c /\ tri c <= 1.

Definition tape_ok (g : rng) : Prop := forall n : nat, cell_ok (tape g n).

(** No appreciation draw of the tape is below -100 %: home values stay
    non-negative. *)
Definition appreciation_ok (p : HousingScenarioParameters) (g : rng) : Prop :=
  forall n : nat,
    0 <= 1 + (appreciation_mean p + appreciation_std p * gauss (tape g n)).

(** Two simulators that differ at most in [appreciation_rate] and
    [interest_rate]. *)
Definition same_settings (s1 s2 : MonteCarloHousingSimulator) : Prop :=
  income_growth s1 = income_growth s2
  /\ insurance_increase s1 = insurance_increase s2
  /\ affordability_threshold s1 = affordability_threshold s2.

(** Constructing a simulator and calling it once. *)
Definition fresh_call (bitgen : Z -> nat -> cell) (random_seed : Z)
    (income_growth insurance_increase affordability_threshold : Q)
    (appreciation_rate interest_rate : option Q)
    (household : Household) (scenario : string)
    (num_simulations time_horizon_years : nat)
  : Rand (pyresult ResultRecord) :=
  do self <- init bitgen random_seed income_growth insurance_increase
               affordability_threshold appreciation_rate interest_rate;
  simulate_household self household scenario num_simulations
    time_horizon_years.

(** The same call made twice on one simulator. *)
Definition repeated_call (bitgen : Z -> nat -> cell) (random_seed : Z)
    (income_growth insurance_increase affordability_threshold : Q)
    (appreciation_rate interest_rate : option Q)
    (household : Household) (scenario : string)
    (num_simulations time_horizon_years : nat)
  : Rand (pyresult ResultRecord * pyresult ResultRecord) :=
  do self <- init bitgen random_seed income_growth insurance_increase
               affordability_threshold appreciation_rate interest_rate;
  do first <- simulate_household self household scenario num_simulations
                time_horizon_years;
  do second <- simulate_household self household scenario num_simulations
                 time_horizon_years;
  ret (first, second).

(** ** Vocabulary of the further properties *)

Module Loan.

(** The balance that the amortization schedule leaves of [loan] after
    [months] level payments at the annual rate [rate]. *)
Definition scheduled_balance (loan rate : Q) (months : nat) : Q :=
  let q := 1 + rate / 12 in
  loan * (q ^ num_payments - q ^ Z.of_nat months) / (q ^ num_payments - 1).

(** The locals of a trial follow the schedule of [loan]. *)
Definition on_schedule (loan : Q) (l : Buying.locals) : Prop :=
  Buying.monthly_mortgage l
  = amortized_payment loan (Buying.interest_rate l / 12)
  /\ Buying.current_loan_balance l
     == scheduled_balance loan (Buying.interest_rate l)
          (Buying.months_affordable l).

End Loan.

(** Every statistic of a summary is at least [c] (at most [c]). *)
Definition summary_at_least (c : Q) (s : Summary) : Prop :=
  c <= mean s /\ c <= median s /\ c <= percentile_5 s /\ c <= percentile_95 s.

Definition summary_at_most (c : Q) (s : Summary) : Prop :=
  mean s <= c /\ median s <= c /\ percentile_5 s <= c /\ percentile_95 s <= c.

(** The least and the largest savings that the gate of a scenario can ask
    for in a region: down payment plus closing costs at the ends of the
    price range. *)
Definition entry_cost_min (params : HousingScenarioParameters)
    (household : Household) : Q :=
  home_price_min params * price_multiplier (region_adj_of (region household))
  * (down_payment_pct params + closing_costs_pct params).

Definition entry_cost_max (params : HousingScenarioParameters)
    (household : Household) : Q :=
  home_price_max params * price_multiplier (region_adj_of (region household))
  * (down_payment_pct params + closing_costs_pct params).

(** The code adds the down payment and the closing costs in binary64, so at
    a savings amount within rounding distance of that sum the comparison of
    the gate can fall on either side.  The thresholds are stated with a
    margin of one cent, far above the rounding error of amounts of this
    size. *)
Definition gate_margin : Q := 0.01.

(** ** Sample inputs *)

(** The default settings of [__init__]. *)
Definition default_simulator : MonteCarloHousingSimulator :=
  {| income_growth := 0.04;
     insurance_increase := 0.08;
     affordability_threshold := 0.50;
     appreciation_rate := None;
     interest_rate := None |}.

(** A simulator configured with both overrides. *)
Definition overridden_simulator : MonteCarloHousingSimulator :=
  {| income_growth := 0.04;
     insurance_increase := 0.08;
     affordability_threshold := 0.50;
     appreciation_rate := Some 0.10;
     interest_rate := Some 0.045 |}.

Definition sample_household : Household :=
  {| household_id := "HH-0001";
     annual_income := 60000;
     savings := 5000;
     credit_score := 700;
     current_monthly_rent := 1500;
     debt_to_income_ratio := 0.30;
     region := "Orlando" |}.

Definition comfortable_household : Household :=
  {| household_id := "HH-0002";
     annual_income := 150000;
     savings := 100000;
     credit_score := 780;
     current_monthly_rent := 2000;
     debt_to_income_ratio := 0.20;
     region := "Tampa Bay" |}.

(** A household without income: every year is unaffordable. *)
Definition zero_income_household : Household :=
  {| household_id := "HH-0004";
     annual_income := 0;
     savings := 20000;
     credit_score := 750;
     current_monthly_rent := 900;
     debt_to_income_ratio := 0;
     region := "Gainesville" |}.

(** A generator whose variates are all at the centre of their range. *)
Definition flat_rng : rng := Rng (fun _ => Cell 0 0 0) 0.

(** Generators of a housing slump followed by a boom.  A standard normal
    variate of -10 makes the appreciation of 'Buy Premium Home'
    [0.05 - 0.12 * 10 = -1.15], a factor of -0.15 on the home value; a
    variate of 10 makes it a factor of 2.25.  Every other variate is central.  All
    variates are inside the range of numpy's samplers: the polar method
    behind [np.random.normal] returns standard variates of up to 12 in
    absolute value.

    [slump_tape] is read by a trial of the buying simulator whose years are
    all paid: cell 3 is the appreciation draw of year 1 and cell [3 + 4 * k]
    the one of year [k + 1].  [timeline_slump_tape] is read by a trial of
    the projector: cell [3 + 3 * k] is the appreciation draw of year
    [k + 1]. *)
Definition slump_tape (n : nat) : cell :=
  match n with
  | 3%nat => Cell 0 (-10) 0
  | 7%nat | 11%nat | 15%nat | 19%nat | 23%nat | 27%nat | 31%nat | 35%nat =>
      Cell 0 10 0
  | 39%nat => Cell 0 (-10) 0
  | _ => Cell 0 0 0
  end.

Definition slump_rng : rng := Rng slump_tape 0.

Definition timeline_slump_tape (n : nat) : cell :=
  match n with
  | 3%nat => Cell 0 (-10) 0
  | 6%nat | 9%nat | 12%nat | 15%nat => Cell 0 10 0
  | _ => Cell 0 0 0
  end.

Definition timeline_slump_rng : rng := Rng timeline_slump_tape 0.

(** A generator whose variates change from draw to draw; the seed shifts
    the sequence. *)
Definition harmonic_bitgen (seed : Z) (n : nat) : cell :=
  Cell (Qnat n / Qnat (n + 1)) 0 (1 / Qnat (Z.to_nat seed + n + 1)).

(** The sample household with other values in the fields that the buying
    simulator does not read: rent, debt-to-income ratio. *)
Definition indebted_household : Household :=
  {| household_id := "HH-0001";
     annual_income := 60000;
     savings := 5000;
     credit_score := 700;
     current_monthly_rent := 2500;
     debt_to_income_ratio := 0.60;
     region := "Orlando" |}.

(** The comfortable household with twice the savings. *)
Definition wealthy_household : Household :=
  {| household_id := "HH-0002";
     annual_income := 150000;
     savings := 200000;
     credit_score := 780;
     current_monthly_rent := 2000;
     debt_to_income_ratio := 0.20;
     region := "Tampa Bay" |}.

(** Two simulators whose insurance setting is at and beyond the upper end
    of the range of the insurance draw. *)
Definition capped_simulator : MonteCarloHousingSimulator :=
  {| income_growth := 0.04;
     insurance_increase := 0.12;
     affordability_threshold := 0.50;
     appreciation_rate := None;
     interest_rate := None |}.

Definition overshooting_simulator : MonteCarloHousingSimulator :=
  {| income_growth := 0.04;
     insurance_increase := 0.20;
     affordability_threshold := 0.43;
     appreciation_rate := None;
     interest_rate := None |}.

(** A household whose income dwarfs every housing cost. *)
Definition tycoon_household : Household :=
  {| household_id := "HH-0005";
     annual_income := 100000000;
     savings := 1000000;
     credit_score := 750;
     current_monthly_rent := 2000;
     debt_to_income_ratio := 0;
     region := "Gainesville" |}.

(** The default settings with a stricter and with a laxer threshold. *)
Definition strict_simulator : MonteCarloHousingSimulator :=
  {| income_growth := 0.04;
     insurance_increase := 0.08;
     affordability_threshold := 0.43;
     appreciation_rate := None;
     interest_rate := None |}.

(** * Properties *)

(** ** Sanity checks of the embedding *)

Example percentile_interpolates :
  np_percentile [3; 1; 2; 10] 5 == 1.15
  /\ np_percentile [3; 1; 2; 10] 95 == 8.95
  /\ np_median [3; 1; 2; 10] == 2.5.
Proof. repeat split; vm_compute; reflexivity. Qed.

Example unmapped_region_is_neutral :
  price_multiplier (region_adj_of "Gainesville") == 1
  /\ insurance_multiplier (region_adj_of "Miami-Dade") == 1.4.
Proof. split; vm_compute; reflexivity. Qed.

Example clip_examples :
  np_clip 0.20 0.03 0.12 == 0.12 /\ np_clip 0.01 0.03 0.12 == 0.03
  /\ np_clip 0.08 0.03 0.12 == 0.08.
Proof. repeat split; vm_compute; reflexivity. Qed.

(** With central variates rent grows by 5 % and income by 4 % a year: the
    sample household stays below the 35 % limit for two years and ends at a
    rent of 1500 * 1.05^2. *)
Example renting_two_years :
  Renting.months_affordable
    (fst (Renting.run_trial default_simulator sample_household 2 flat_rng))
  = 24%nat
  /\ Renting.rent
       (fst (Renting.run_trial default_simulator sample_household 2 flat_rng))
     == 1653.75
  /\ cursor
       (snd (Renting.run_trial default_simulator sample_household 2 flat_rng))
     = 4%nat.
Proof. repeat split; vm_compute; reflexivity. Qed.

(** A division by a zero income is an infinity, which is not affordable. *)
Example zero_income_is_unaffordable :
  ratio_le (np_div 1500 0) 0.35 = false /\ ratio_le (np_div 0 0) 0.35 = false.
Proof. split; reflexivity. Qed.

(** ** Arithmetic helpers *)

Lemma Qltb_true (x y : Q) : Qltb x y = true <-> x < y.
Proof.
  unfold Qltb. rewrite negb_true_iff.
  split.
  - intros E. apply Qnot_le_lt. intros L.
    apply Qle_bool_iff in L. congruence.
  - intros L. destruct (Qle_bool y x) eqn:E; [|reflexivity].
    apply Qle_bool_iff in E. exfalso. apply (Qlt_not_le _ _ L E).
Qed.

Lemma Qltb_false (x y : Q) : Qltb x y = false <-> y <= x.
Proof.
  unfold Qltb. rewrite negb_false_iff. apply Qle_bool_iff.
Qed.

Lemma Qle_bool_false (x y : Q) : Qle_bool x y = false <-> y < x.
Proof.
  rewrite <- Qltb_true. unfold Qltb.
  destruct (Qle_bool x y); simpl; split; congruence.
Qed.

Lemma py_min_Qmin (a b : Q) : py_min a b == Qmin a b.
Proof.
  unfold py_min. destruct (Qltb b a) eqn:E.
  - apply Qltb_true in E. symmetry. apply Q.min_r. lra.
  - apply Qltb_false in E. symmetry. apply Q.min_l. exact E.
Qed.

Lemma py_max_Qmax (a b : Q) : py_max a b == Qmax a b.
Proof.
  unfold py_max. destruct (Qltb a b) eqn:E.
  - apply Qltb_true in E. symmetry. apply Q.max_r. lra.
  - apply Qltb_false in E. symmetry. apply Q.max_l. exact E.
Qed.

Lemma py_min_cases (a b : Q) :
  (b < a /\ py_min a b = b) \/ (a <= b /\ py_min a b = a).
Proof.
  unfold py_min. destruct (Qltb b a) eqn:E.
  - left. split; [apply Qltb_true, E | reflexivity].
  - right. split; [apply Qltb_false, E | reflexivity].
Qed.

Lemma py_max_cases (a b : Q) :
  (a < b /\ py_max a b = b) \/ (b <= a /\ py_max a b = a).
Proof.
  unfold py_max. destruct (Qltb a b) eqn:E.
  - left. split; [apply Qltb_true, E | reflexivity].
  - right. split; [apply Qltb_false, E | reflexivity].
Qed.

Lemma np_clip_bounds (x lo hi : Q) :
  lo <= hi -> lo <= np_clip x lo hi /\ np_clip x lo hi <= hi.
Proof.
  intros Hlh. unfold np_clip.
  destruct (py_max_cases x lo) as [[H1 ->] | [H1 ->]];
    destruct (py_min_cases lo hi) as [[H2 E2] | [H2 E2]];
    destruct (py_min_cases x hi) as [[H3 E3] | [H3 E3]];
    rewrite ?E2, ?E3; split; lra.
Qed.

(** Closed goals that are settled by evaluation. *)
Ltac by_computation := vm_compute; reflexivity.
Ltac le_by_computation := apply Qle_bool_iff; vm_compute; reflexivity.
Ltac lt_by_computation := apply Qltb_true; vm_compute; reflexivity.

(** ** Running the generator *)

Lemma next_run (g : rng) : next g = (tape g (cursor g), advance 1 g).
Proof. reflexivity. Qed.

Lemma bind_run {A B} (m : Rand A) (f : A -> Rand B) (g : rng) :
  bind m f g = f (fst (m g)) (snd (m g)).
Proof. unfold bind. destruct (m g); reflexivity. Qed.

Lemma uniform_run (low high : Q) (g : rng) :
  Sampler.uniform low high g
  = (low + (high - low) * unit01 (tape g (cursor g)), advance 1 g).
Proof. reflexivity. Qed.

Lemma normal_run (loc scale : Q) (g : rng) :
  Sampler.normal loc scale g
  = (loc + scale * gauss (tape g (cursor g)), advance 1 g).
Proof. reflexivity. Qed.

Lemma random_run (g : rng) :
  Sampler.random g = (unit01 (tape g (cursor g)), advance 1 g).
Proof. reflexivity. Qed.

Lemma triangular_run (left mode right : Q) (g : rng) :
  Sampler.triangular left mode right g
  = ((if Qle_bool (tri (tape g (cursor g))) 0
      then mode + tri (tape g (cursor g)) * (mode - left)
      else mode + tri (tape g (cursor g)) * (right - mode)),
     advance 1 g).
Proof. reflexivity. Qed.

Lemma advance_advance (n m : nat) (g : rng) :
  advance n (advance m g) = advance (n + m) g.
Proof. unfold advance. simpl. f_equal. lia. Qed.

Lemma tape_advance (n : nat) (g : rng) : tape (advance n g) = tape g.
Proof. reflexivity. Qed.

(** ** The mortgage payment *)

Lemma num_payments_pos : (0 < num_payments)%Z.
Proof. reflexivity. Qed.

Lemma growth_gt_1 (r : Q) : 0 < r -> 1 < (1 + r) ^ num_payments.
Proof.
  intros Hr. apply Qpower_1_lt; [lra | apply num_payments_pos].
Qed.

(** One factor is split off the power: [(1+r)^360 = (1+r) * (1+r)^359]. *)
Lemma growth_ge_rate (r : Q) : 0 < r -> 1 + r <= (1 + r) ^ num_payments.
Proof.
  intros Hr.
  assert (E : (1 + r) ^ num_payments == (1 + r) ^ 1 * (1 + r) ^ 359).
  { rewrite <- Qpower_plus; [reflexivity | lra]. }
  assert (H1 : 1 <= (1 + r) ^ 359) by (apply Qpower_1_le; [lra | lia]).
  change ((1 + r) ^ 1) with (1 + r) in E.
  revert E H1. generalize ((1 + r) ^ 359). generalize ((1 + r) ^ num_payments).
  intros p q E H1. rewrite E.
  assert (H2 : 0 <= (1 + r) * (q - 1)) by (apply Qmult_le_0_compat; lra).
  lra.
Qed.

Lemma draw_interest_rate_run (params : HousingScenarioParameters)
    (credit : Q) (g : rng) :
  draw_interest_rate params credit g
  = (np_clip (interest_rate_mean params + (750 - credit) * 0.0001
              + interest_rate_std params * gauss (tape g (cursor g)))
       0.03 0.10,
     advance 1 g).
Proof. reflexivity. Qed.

Lemma drawn_rate_bounds (params : HousingScenarioParameters)
    (credit : Q) (g : rng) :
  0.03 <= fst (draw_interest_rate params credit g)
  /\ fst (draw_interest_rate params credit g) <= 0.10.
Proof.
  rewrite draw_interest_rate_run. simpl fst.
  apply np_clip_bounds. lra.
Qed.

Lemma monthly_rate_pos (rate : Q) : 0.03 <= rate -> 0 < rate / 12.
Proof.
  intros H. apply Qlt_shift_div_l; lra.
Qed.

Lemma payment_is_amortized (loan r : Q) :
  0 < r -> monthly_mortgage_payment loan r = amortized_payment loan r.
Proof.
  intros Hr. unfold monthly_mortgage_payment.
  apply Qltb_true in Hr. rewrite Hr. reflexivity.
Qed.

(** Bounds on the level payment that hold without evaluating the power. *)
Lemma amortized_payment_bounds (loan r : Q) :
  0 <= loan -> 0 < r ->
  0 <= amortized_payment loan r /\ amortized_payment loan r <= loan * (1 + r).
Proof.
  intros Hl Hr. unfold amortized_payment.
  pose proof (growth_ge_rate r Hr) as Hg.
  set (p := (1 + r) ^ num_payments) in *.
  assert (Hd : 0 < p - 1) by lra.
  split.
  - apply Qle_shift_div_l; [exact Hd|].
    assert (H0 : 0 <= r * p) by (apply Qmult_le_0_compat; lra).
    assert (H1 : 0 <= loan * (r * p)) by (apply Qmult_le_0_compat; lra).
    lra.
  - apply Qle_shift_div_r; [exact Hd|].
    assert (H0 : 0 <= loan * (p - 1 - r))
      by (apply Qmult_le_0_compat; lra).
    nra.
Qed.

(** Bernoulli's inequality for the growth factor of the loan. *)
Lemma growth_ge_linear (r : Q) (n : nat) :
  0 <= r -> 1 + Qnat n * r <= (1 + r) ^ Z.of_nat n.
Proof.
  intros Hr. induction n as [|n IH].
  - change (Qnat 0) with 0. change ((1 + r) ^ Z.of_nat 0) with 1. lra.
  - replace (S n) with (n + 1)%nat by lia.
    assert (E : (1 + r) ^ Z.of_nat (n + 1) == (1 + r) ^ Z.of_nat n * (1 + r)).
    { rewrite Nat2Z.inj_add, Qpower_plus; [|lra].
      change ((1 + r) ^ Z.of_nat 1) with (1 + r). reflexivity. }
    rewrite E.
    assert (Q1 : Qnat (n + 1) == Qnat n + 1).
    { unfold Qnat. rewrite Nat2Z.inj_add, inject_Z_plus. reflexivity. }
    rewrite Q1.
    assert (Hn : 0 <= Qnat n).
    { unfold Qnat. change 0 with (inject_Z 0). rewrite <- Zle_Qle. lia. }
    set (p := (1 + r) ^ Z.of_nat n) in *.
    assert (H1 : 0 <= (p - (1 + Qnat n * r)) * (1 + r))
      by (apply Qmult_le_0_compat; lra).
    assert (H2 : 0 <= Qnat n * r * r)
      by (apply Qmult_le_0_compat; [apply Qmult_le_0_compat|]; lra).
    lra.
Qed.

(** The level payment is at most the interest of the first month plus the
    loan spread evenly over the 360 payments. *)
Lemma amortized_payment_upper (loan r : Q) :
  0 <= loan -> 0 < r ->
  amortized_payment loan r <= loan * (r + 1 / 360).
Proof.
  intros Hl Hr. unfold amortized_payment.
  pose proof (growth_gt_1 r Hr) as Hg.
  assert (Hb : 1 + 360 * r <= (1 + r) ^ num_payments).
  { pose proof (growth_ge_linear r 360) as B.
    change (Z.of_nat 360) with num_payments in B.
    change (Qnat 360) with 360 in B. apply B. lra. }
  set (p := (1 + r) ^ num_payments) in *.
  assert (K : 1 / 360 == 1 # 360) by reflexivity.
  rewrite K.
  apply Qle_shift_div_r; [lra|].
  assert (H0 : 0 <= loan * (p - 1 - 360 * r))
    by (apply Qmult_le_0_compat; lra).
  assert (E : loan * (r + (1 # 360)) * (p - 1) - loan * (r * p)
              == loan * (p - 1 - 360 * r) * (1 # 360)) by ring.
  assert (H1 : 0 <= loan * (p - 1 - 360 * r) * (1 # 360))
    by (apply Qmult_le_0_compat; [exact H0 | lra]).
  lra.
Qed.

(** ** Loops of the buying simulator *)

Module BuyingFacts.
Import Buying.

Lemma same_loan_refl (l : locals) : same_loan l l.
Proof. split; reflexivity. Qed.

Lemma same_loan_trans (l1 l2 l3 : locals) :
  same_loan l1 l2 -> same_loan l2 l3 -> same_loan l1 l3.
Proof. intros [A B] [C D]. split; congruence. Qed.

Lemma pay_months_fields (n : nat) (l : locals) :
  interest_rate (pay_months n l) = interest_rate l
  /\ monthly_mortgage (pay_months n l) = monthly_mortgage l
  /\ monthly_insurance (pay_months n l) = monthly_insurance l
  /\ current_home_value (pay_months n l) = current_home_value l
  /\ income (pay_months n l) = income l
  /\ total_monthly (pay_months n l) = total_monthly l
  /\ defaulted (pay_months n l) = defaulted l
  /\ months_affordable (pay_months n l) = (months_affordable l + n)%nat
  /\ total_costs (pay_months n l) == total_costs l + Qnat n * total_monthly l.
Proof.
  revert l. induction n as [|n IH]; intros l.
  - simpl. repeat split; try reflexivity; try lia.
    unfold Qnat. simpl. ring.
  - simpl pay_months.
    destruct (IH (pay_month l)) as (A & B & C & D & E & F & G & H & I).
    repeat split; try assumption.
    + rewrite H. simpl. lia.
    + rewrite I. simpl total_costs. simpl total_monthly.
      unfold Qnat. rewrite Nat2Z.inj_succ, <- Z.add_1_r, inject_Z_plus.
      ring.
Qed.

(** What a month loop can do: pay every month, or pay none and possibly
    default.  The tape is never changed. *)
Lemma month_loop_cases (self : MonteCarloHousingSimulator) (n : nat)
    (r : ratio) (l : locals) (g : rng) :
  tape (snd (month_loop self n r l g)) = tape g
  /\ ((ratio_le r (affordability_threshold self) = true
       /\ month_loop self n r l g = (pay_months n l, g))
      \/ (ratio_le r (affordability_threshold self) = false
          /\ (fst (month_loop self n r l g) = l
              \/ fst (month_loop self n r l g) = mark_default l))).
Proof.
  revert l g. induction n as [|n IH]; intros l g.
  - simpl. split; [reflexivity|].
    destruct (ratio_le r (affordability_threshold self)) eqn:E.
    + left. split; reflexivity.
    + right. split; [reflexivity|]. left. reflexivity.
  - simpl month_loop.
    destruct (ratio_le r (affordability_threshold self)) eqn:E.
    + destruct (IH (pay_month l) g) as [T [[_ R] | [F _]]]; [|congruence].
      split; [exact T|]. left. split; [reflexivity | exact R].
    + rewrite bind_run, random_run. simpl fst. simpl snd.
      destruct (Qltb (unit01 (tape g (cursor g))) 0.3).
      * split; [reflexivity|]. right. split; [reflexivity|].
        right. reflexivity.
      * destruct (IH l (advance 1 g)) as [T [[A _] | [_ R]]]; [congruence|].
        split; [exact T|]. right. split; [reflexivity | exact R].
Qed.

(** The yearly shocks, written out on the tape. *)
Lemma year_shocks_run (self : MonteCarloHousingSimulator)
    (params : HousingScenarioParameters) (l : locals) (g : rng) :
  let c := cursor g in
  let income' :=
    income l * (1 + (income_growth self + 0.08 * gauss (tape g c))) in
  let value' :=
    current_home_value l
    * (1 + (appreciation_mean params
            + appreciation_std params * gauss (tape g (S c)))) in
  let insurance' :=
    monthly_insurance l
    * (1 + fst (Sampler.triangular 0.03
                  (np_clip (insurance_increase self) 0.03 0.12) 0.12
                  (advance 2 g))) in
  let total' :=
    monthly_mortgage l + value' * property_tax_rate params / 12
    + insurance' + hoa_monthly params
    + value' * maintenance_annual_pct params / 12
      * (0.8 + (1.5 - 0.8) * unit01 (tape g (S (S (S c))))) in
  year_shocks self params l g
  = ((np_div total' (income' / 12),
      {| interest_rate := interest_rate l;
         monthly_mortgage := monthly_mortgage l;
         monthly_insurance := insurance';
         current_home_value := value';
         current_loan_balance := current_loan_balance l;
         income := income';
         total_costs := total_costs l;
         months_affordable := months_affordable l;
         total_monthly := total';
         defaulted := defaulted l |}),
     advance 4 g).
Proof. reflexivity. Qed.

Lemma buy_year_loop_step (self : MonteCarloHousingSimulator)
    (params : HousingScenarioParameters) (k : nat) (l : locals) (g : rng) :
  year_loop self params (S k) l g
  = let rl := fst (year_shocks self params l g) in
    let res := month_loop self 12 (fst rl) (snd rl) (advance 4 g) in
    if defaulted (fst res) then res
    else year_loop self params k (fst res) (snd res).
Proof.
  cbn [year_loop]. unfold bind at 1.
  rewrite year_shocks_run. cbv zeta. cbn [fst snd]. unfold bind at 1.
  match goal with |- context [month_loop ?a ?b ?c ?d ?e] =>
    destruct (month_loop a b c d e) as [l' g'] end.
  cbn [fst snd]. destruct (defaulted l'); reflexivity.
Qed.

(** A year either pays twelve months or pays none. *)
Lemma year_months (self : MonteCarloHousingSimulator)
    (params : HousingScenarioParameters) (l : locals) (g : rng) :
  let rl := fst (year_shocks self params l g) in
  let res := month_loop self 12 (fst rl) (snd rl) (advance 4 g) in
  tape (snd res) = tape g
  /\ same_loan l (fst res)
  /\ (months_affordable (fst res) = (months_affordable l + 12)%nat
      \/ months_affordable (fst res) = months_affordable l).
Proof.
  cbv zeta. rewrite year_shocks_run. cbv zeta. cbn [fst snd].
  match goal with |- context [month_loop ?a ?b ?c ?d ?e] =>
    destruct (month_loop_cases a b c d e) as [T [[_ R] | [_ [R | R]]]]
  end.
  - rewrite R. cbn [fst snd]. split; [reflexivity|].
    match goal with |- context [pay_months 12 ?x] =>
      destruct (pay_months_fields 12 x) as (A & B & _ & _ & _ & _ & _ & H & _)
    end.
    split; [split; [rewrite A | rewrite B]; reflexivity|].
    left. rewrite H. reflexivity.
  - rewrite T, R. split; [reflexivity|].
    split; [split; reflexivity|]. right. reflexivity.
  - rewrite T, R. split; [reflexivity|].
    split; [split; reflexivity|]. right. reflexivity.
Qed.

Lemma buy_year_loop_months (self : MonteCarloHousingSimulator)
    (params : HousingScenarioParameters) (k : nat) (l : locals) (g : rng) :
  tape (snd (year_loop self params k l g)) = tape g
  /\ same_loan l (fst (year_loop self params k l g))
  /\ exists j : nat,
       (j <= k)%nat
       /\ months_affordable (fst (year_loop self params k l g))
          = (months_affordable l + 12 * j)%nat.
Proof.
  revert l g. induction k as [|k IH]; intros l g.
  - cbn. split; [reflexivity|]. split; [apply same_loan_refl|].
    exists 0%nat. split; lia.
  - rewrite buy_year_loop_step. cbv zeta.
    destruct (year_months self params l g) as (T & L & M).
    cbv zeta in T, L, M.
    set (res := month_loop self 12 _ _ _) in *.
    destruct (defaulted (fst res)).
    + split; [exact T|]. split; [exact L|].
      destruct M as [M | M]; [exists 1%nat | exists 0%nat];
        rewrite M; split; lia.
    + destruct (IH (fst res) (snd res)) as (T' & L' & j & Hj & M').
      split; [congruence|].
      split; [exact (same_loan_trans _ _ _ L L')|].
      destruct M as [M | M]; [exists (S j) | exists j];
        rewrite M', M; split; lia.
Qed.

End BuyingFacts.

(** ** Running one buying trial *)

Module TrialFacts.
Import Buying BuyingFacts.

Lemma draw_entry_run (params : HousingScenarioParameters)
    (adj : RegionAdjustment) (g : rng) :
  draw_entry params adj g
  = (let home_price :=
       (home_price_min params
        + (home_price_max params - home_price_min params)
          * unit01 (tape g (cursor g))) * price_multiplier adj in
     {| home_price := home_price;
        down_payment := home_price * down_payment_pct params;
        closing_costs := home_price * closing_costs_pct params |},
     advance 1 g).
Proof. reflexivity. Qed.

Lemma play_run (self : MonteCarloHousingSimulator) (household : Household)
    (params : HousingScenarioParameters) (years : nat) (g : rng) :
  play self household params years g
  = if fails_entry household (drawn_entry params household g)
    then ((drawn_entry params household g, None), advance 1 g)
    else
      let res := year_loop self params years
                   (start_locals household params g) (advance 2 g) in
      ((drawn_entry params household g, Some (fst res)), snd res).
Proof.
  unfold play. rewrite bind_run.
  change (fst (draw_entry params (region_adj_of (region household)) g))
    with (drawn_entry params household g).
  change (snd (draw_entry params (region_adj_of (region household)) g))
    with (advance 1 g).
  destruct (fails_entry household (drawn_entry params household g));
    [reflexivity|].
  rewrite bind_run.
  change (fst (draw_interest_rate params (credit_score household)
                 (advance 1 g)))
    with (drawn_rate params household g).
  change (snd (draw_interest_rate params (credit_score household)
                 (advance 1 g)))
    with (advance 2 g).
  rewrite bind_run. reflexivity.
Qed.

Lemma run_trial_run (self : MonteCarloHousingSimulator)
    (household : Household) (params : HousingScenarioParameters)
    (years : nat) (g : rng) :
  run_trial self household params years g
  = if fails_entry household (drawn_entry params household g)
    then (failed_entry_cells household (drawn_entry params household g),
          advance 1 g)
    else
      let res := year_loop self params years
                   (start_locals household params g) (advance 2 g) in
      (settle (drawn_entry params household g) (fst res), snd res).
Proof.
  unfold run_trial. rewrite bind_run, play_run.
  destruct (fails_entry household (drawn_entry params household g));
    reflexivity.
Qed.

End TrialFacts.

(** ** Loops of the renting simulator *)

Module RentingFacts.
Import Renting.

(** The month loop of the unaffordable branch repeats the test that has
    just failed, so it leaves at once. *)
Lemma month_loop_unaffordable (n : nat) (rent monthly_income : Q)
    (am : nat) (tc : Q) :
  ratio_le (np_div rent monthly_income) 0.35 = false ->
  month_loop n rent monthly_income am tc = (am, tc).
Proof.
  intros E. destruct n as [|n]; [reflexivity|].
  cbn [month_loop]. rewrite E. reflexivity.
Qed.

Lemma rent_year_loop_step (self : MonteCarloHousingSimulator) (k : nat)
    (t : trial) (g : rng) :
  year_loop self (S k) t g
  = if ratio_le (np_div (next_rent t g) (next_income self t g / 12)) 0.35
    then year_loop self k
           {| rent := next_rent t g;
              total_cost := total_cost t + next_rent t g * 12;
              months_affordable := months_affordable t + 12;
              income := next_income self t g |}
           (advance 2 g)
    else ({| rent := next_rent t g;
             total_cost := total_cost t;
             months_affordable := months_affordable t + 0;
             income := next_income self t g |},
          advance 2 g).
Proof.
  cbn [year_loop]. rewrite bind_run, triangular_run. cbn [fst snd].
  rewrite bind_run, normal_run. cbn [fst snd].
  unfold next_rent, next_income. rewrite triangular_run. cbn [fst snd].
  unfold advance. cbn [tape cursor Nat.add].
  match goal with |- context [ratio_le ?r 0.35] =>
    destruct (ratio_le r 0.35) eqn:E end.
  - reflexivity.
  - rewrite (month_loop_unaffordable _ _ _ _ _ E). reflexivity.
Qed.

Lemma rent_year_loop_months (self : MonteCarloHousingSimulator) (k : nat)
    (t : trial) (g : rng) :
  tape (snd (year_loop self k t g)) = tape g
  /\ exists j : nat,
       (j <= k)%nat
       /\ months_affordable (fst (year_loop self k t g))
          = (months_affordable t + 12 * j)%nat.
Proof.
  revert t g. induction k as [|k IH]; intros t g.
  - cbn. split; [reflexivity|]. exists 0%nat. split; lia.
  - rewrite rent_year_loop_step.
    destruct (ratio_le _ 0.35).
    + match goal with |- context [year_loop self k ?t' ?g'] =>
        destruct (IH t' g') as (T & j & Hj & M) end.
      split; [exact T|]. exists (S j). rewrite M. cbn [months_affordable].
      split; lia.
    + cbn [fst snd]. split; [reflexivity|]. exists 0%nat.
      cbn [months_affordable]. split; lia.
Qed.

End RentingFacts.

(** ** Trial lists and counting *)

Lemma replicate_rand_S {A} (n : nat) (m : Rand A) (g : rng) :
  replicate_rand (S n) m g
  = (fst (m g) :: fst (replicate_rand n m (snd (m g))),
     snd (replicate_rand n m (snd (m g)))).
Proof.
  cbn [replicate_rand]. unfold bind. destruct (m g) as [x g1].
  cbn [fst snd]. destruct (replicate_rand n m g1) as [xs g2]. reflexivity.
Qed.

Lemma replicate_rand_length {A} (n : nat) (m : Rand A) (g : rng) :
  length (fst (replicate_rand n m g)) = n.
Proof.
  revert g. induction n as [|n IH]; intros g; [reflexivity|].
  rewrite replicate_rand_S. cbn [fst length]. rewrite IH. reflexivity.
Qed.

Lemma replicate_rand_Forall {A} (P : A -> Prop) (n : nat) (m : Rand A)
    (g : rng) :
  (forall g', P (fst (m g'))) -> Forall P (fst (replicate_rand n m g)).
Proof.
  intros HP. revert g. induction n as [|n IH]; intros g.
  - constructor.
  - rewrite replicate_rand_S. cbn [fst].
    constructor; [apply HP | apply IH].
Qed.

Lemma count_true_cons (b : bool) (mask : list bool) :
  count_true (b :: mask)
  = ((if b then 1 else 0) + count_true mask)%nat.
Proof.
  unfold count_true. rewrite filter_cons.
  destruct b; destruct (decide _) as [E | E]; try reflexivity;
    try discriminate E. exfalso. apply E. reflexivity.
Qed.

(** Months that do not exceed the horizon are either equal to it or below
    it: the two masks of the renting result partition the trials. *)
Lemma count_partition (bound : nat) (ms : list nat) :
  Forall (fun m => (m <= bound)%nat) ms ->
  (count_true (map (fun m => Nat.eqb m bound) ms)
   + count_true (map (fun m => Nat.ltb m bound) ms))%nat
  = length ms.
Proof.
  induction 1 as [|m ms Hm _ IH]; [reflexivity|].
  cbn [map length]. rewrite !count_true_cons.
  destruct (Nat.eqb_spec m bound) as [E | E];
    destruct (Nat.ltb_spec m bound) as [L | L]; cbn [Nat.add]; lia.
Qed.

Lemma Qnat_split (a b n : nat) :
  (0 < n)%nat -> (a + b)%nat = n -> Qnat a / Qnat n + Qnat b / Qnat n == 1.
Proof.
  intros Hn E. unfold Qnat.
  assert (Hz : ~ inject_Z (Z.of_nat n) == 0).
  { intros C. unfold Qeq in C. cbn in C. lia. }
  rewrite <- E at 1 2. rewrite <- E in Hz.
  rewrite Nat2Z.inj_add, inject_Z_plus in *.
  field. exact Hz.
Qed.

(** ** Months solvent of a renting run (C6) *)

Lemma renting_months_bounded (self : MonteCarloHousingSimulator)
    (household : Household) (years : nat) (g : rng) :
  (Renting.months_affordable (fst (Renting.run_trial self household years g))
   <= years * 12)%nat.
Proof.
  unfold Renting.run_trial.
  match goal with |- context [Renting.year_loop self years ?t g] =>
    destruct (RentingFacts.rent_year_loop_months self years t g)
      as (_ & j & Hj & M) end.
  rewrite M. cbn [Renting.months_affordable]. lia.
Qed.

(** C6: for a renting run with a positive trial count the reported
    probabilities of staying affordable and of becoming unaffordable sum to
    one (in exact arithmetic): no trial counts more than [H * 12] solvent
    months, so the two masks partition the trials. *)
Theorem renting_probabilities_sum_to_one
    (self : MonteCarloHousingSimulator) (household : Household)
    (num_simulations time_horizon_years : nat) (g : rng) :
  (0 < num_simulations)%nat ->
  Forall (fun t => (Renting.months_affordable t
                    <= time_horizon_years * 12)%nat)
    (fst (replicate_rand num_simulations
            (Renting.run_trial self household time_horizon_years) g))
  /\ Renting.r_probability_affordable
       (fst (simulate_renting self household num_simulations
               time_horizon_years g))
     + Renting.r_probability_unaffordable
         (fst (simulate_renting self household num_simulations
                 time_horizon_years g))
     == 1.
Proof.
  intros HN.
  assert (HF : Forall (fun t => (Renting.months_affordable t
                                 <= time_horizon_years * 12)%nat)
                 (fst (replicate_rand num_simulations
                         (Renting.run_trial self household
                            time_horizon_years) g))).
  { apply replicate_rand_Forall. intros g'.
    apply renting_months_bounded. }
  split; [exact HF|].
  unfold simulate_renting. rewrite bind_run.
  cbn [fst ret Renting.aggregate Renting.r_probability_affordable
       Renting.r_probability_unaffordable].
  apply Qnat_split; [exact HN|].
  rewrite count_partition.
  - rewrite length_map. apply replicate_rand_length.
  - apply Forall_map. exact HF.
Qed.

Lemma renting_probabilities_sum_to_one_witness :
  Renting.r_probability_affordable
    (fst (simulate_renting default_simulator sample_household 3 2 flat_rng))
  + Renting.r_probability_unaffordable
      (fst (simulate_renting default_simulator sample_household 3 2 flat_rng))
  == 1.
Proof.
  assert (H : (0 < 3)%nat) by lia.
  exact (proj2 (renting_probabilities_sum_to_one default_simulator
                  sample_household 3 2 flat_rng H)).
Defined.

(** ** Running one timeline trial *)

Module TimelineFacts.
Import Timeline TrialFacts.

Lemma buy_trial_run (self : MonteCarloHousingSimulator)
    (household : Household) (params : HousingScenarioParameters)
    (years : nat) (g : rng) :
  buy_trial self household params years g
  = if Buying.fails_entry household (Buying.drawn_entry params household g)
    then (repeat (failed_point household params g) (years + 1), advance 1 g)
    else (year0_point household params g
            :: fst (later_years self household params years g),
          snd (later_years self household params years g)).
Proof.
  unfold buy_trial. rewrite bind_run.
  change (fst (Buying.draw_entry params (region_adj_of (region household)) g))
    with (Buying.drawn_entry params household g).
  change (snd (Buying.draw_entry params (region_adj_of (region household)) g))
    with (advance 1 g).
  destruct (Buying.fails_entry household (Buying.drawn_entry params household g));
    [reflexivity|].
  rewrite bind_run.
  change (fst (draw_interest_rate params (credit_score household)
                 (advance 1 g)))
    with (Buying.drawn_rate params household g).
  change (snd (draw_interest_rate params (credit_score household)
                 (advance 1 g)))
    with (advance 2 g).
  rewrite bind_run. reflexivity.
Qed.

End TimelineFacts.

(** ** The savings gate (C2) *)

(** C2: a buying trial whose drawn, region-scaled price needs more than the
    household's savings for down payment and closing costs ends at once:
    default flag set, equity [-min(savings, closing costs)], no solvent
    month, total cost [min(savings, closing costs)].  Only the price was
    drawn, and the outcome does not depend on the horizon: no year or month
    is stepped. *)
Theorem failed_entry_terminates
    (self : MonteCarloHousingSimulator) (household : Household)
    (params : HousingScenarioParameters) (years : nat) (g : rng) :
  savings household
  < Buying.down_payment (Buying.drawn_entry params household g)
    + Buying.closing_costs (Buying.drawn_entry params household g) ->
  Buying.default_occurred
    (fst (Buying.run_trial self household params years g)) = true
  /\ Buying.final_equity
       (fst (Buying.run_trial self household params years g))
     == - Qmin (savings household)
            (Buying.closing_costs (Buying.drawn_entry params household g))
  /\ Buying.months_solvent
       (fst (Buying.run_trial self household params years g)) = 0%nat
  /\ Buying.total_paid
       (fst (Buying.run_trial self household params years g))
     == Qmin (savings household)
          (Buying.closing_costs (Buying.drawn_entry params household g))
  /\ snd (Buying.run_trial self household params years g) = advance 1 g
  /\ Buying.run_trial self household params years g
     = Buying.run_trial self household params 0 g.
Proof.
  intros Hgate.
  assert (F : Buying.fails_entry household
                (Buying.drawn_entry params household g) = true).
  { unfold Buying.fails_entry. apply Qltb_true. exact Hgate. }
  rewrite !TrialFacts.run_trial_run, F.
  cbn [fst snd Buying.failed_entry_cells Buying.default_occurred
       Buying.final_equity Buying.months_solvent Buying.total_paid].
  repeat split.
  - destruct (Qle_bool _ _) eqn:E.
    + apply Qle_bool_iff in E. rewrite Q.min_r; [reflexivity | exact E].
    + apply Qle_bool_false in E. rewrite Q.min_l; [reflexivity | lra].
  - apply py_min_Qmin.
Qed.

Lemma failed_entry_terminates_witness :
  Buying.default_occurred
    (fst (Buying.run_trial default_simulator sample_household
            buy_starter_home 10 flat_rng)) = true
  /\ Buying.months_solvent
       (fst (Buying.run_trial default_simulator sample_household
               buy_starter_home 10 flat_rng)) = 0%nat
  /\ snd (Buying.run_trial default_simulator sample_household
            buy_starter_home 10 flat_rng) = advance 1 flat_rng.
Proof.
  destruct (failed_entry_terminates default_simulator sample_household
              buy_starter_home 10 flat_rng) as (A & _ & B & _ & C & _).
  - vm_compute. reflexivity.
  - split; [exact A|]. split; [exact B | exact C].
Defined.

(** ** The mortgage rate (C10) *)

(** C10: the drawn mortgage rate is clipped into [0.03, 0.10] before it is
    used, so the monthly rate is positive, the denominator of the
    amortization formula is not zero, and the payment is the amortized one,
    never the linear fallback.  This is the rate and the payment of every
    buying trial that enters, and of the year-0 cost of every timeline trial
    that enters. *)
Theorem mortgage_rate_clipped
    (self : MonteCarloHousingSimulator) (household : Household)
    (params : HousingScenarioParameters) (years : nat) (g : rng) (loan : Q) :
  (0.03 <= Buying.drawn_rate params household g
   /\ Buying.drawn_rate params household g <= 0.10
   /\ 0 < Buying.drawn_rate params household g / 12
   /\ ~ (1 + Buying.drawn_rate params household g / 12) ^ num_payments - 1
        == 0
   /\ monthly_mortgage_payment loan
        (Buying.drawn_rate params household g / 12)
      = amortized_payment loan
          (Buying.drawn_rate params household g / 12))
  /\ match snd (fst (Buying.play self household params years g)) with
     | Some l =>
         Buying.interest_rate l = Buying.drawn_rate params household g
         /\ Buying.monthly_mortgage l
            = amortized_payment
                (Buying.home_price (Buying.drawn_entry params household g)
                 - Buying.down_payment
                     (Buying.drawn_entry params household g))
                (Buying.interest_rate l / 12)
     | None =>
         Buying.fails_entry household
           (Buying.drawn_entry params household g) = true
     end
  /\ (Buying.fails_entry household
        (Buying.drawn_entry params household g) = false ->
      exists rest : list Timeline.point,
        fst (Timeline.buy_trial self household params years g)
        = {| Timeline.equity :=
               Buying.down_payment (Buying.drawn_entry params household g);
             Timeline.cost :=
               amortized_payment
                 (Buying.home_price
                    (Buying.drawn_entry params household g)
                  - Buying.down_payment
                      (Buying.drawn_entry params household g))
                 (Buying.drawn_rate params household g / 12)
               + Buying.home_price (Buying.drawn_entry params household g)
                 * property_tax_rate params / 12
               + hurricane_insurance_annual params
                 * insurance_multiplier (region_adj_of (region household))
                 / 12
               + hoa_monthly params;
             Timeline.paid :=
               Buying.down_payment (Buying.drawn_entry params household g)
               + Buying.closing_costs
                   (Buying.drawn_entry params household g) |}
          :: rest).
Proof.
  destruct (drawn_rate_bounds params (credit_score household) (advance 1 g))
    as [Hlo Hhi].
  fold (Buying.drawn_rate params household g) in Hlo, Hhi.
  pose proof (monthly_rate_pos _ Hlo) as Hr.
  split; [|split].
  - repeat split; try assumption.
    + pose proof (growth_gt_1 _ Hr). lra.
    + apply payment_is_amortized. exact Hr.
  - rewrite TrialFacts.play_run.
    destruct (Buying.fails_entry _ _); [reflexivity|].
    cbv zeta. cbn [fst snd].
    destruct (BuyingFacts.buy_year_loop_months self params years
                (Buying.start_locals household params g) (advance 2 g))
      as (_ & [A B] & _).
    rewrite A, B. cbn. split; [reflexivity|].
    apply payment_is_amortized. exact Hr.
  - intros F. rewrite TimelineFacts.buy_trial_run, F. cbn [fst].
    eexists. unfold Timeline.year0_point.
    rewrite (payment_is_amortized _ _ Hr). reflexivity.
Qed.

Lemma mortgage_rate_clipped_witness :
  exists (p : Timeline.point) (rest : list Timeline.point),
    fst (Timeline.buy_trial default_simulator comfortable_household
           buy_starter_home 10 flat_rng) = p :: rest
    /\ Timeline.equity p == 11000.
Proof.
  destruct (mortgage_rate_clipped default_simulator comfortable_household
              buy_starter_home 10 flat_rng 0) as (_ & _ & T).
  destruct T as [rest E]; [vm_compute; reflexivity|].
  eexists. exists rest. split; [exact E|].
  cbn [Timeline.equity]. vm_compute. reflexivity.
Defined.

(** ** Scenario lookup and dispatch (C7) *)

Lemma scenarios_lookup (name : string) :
  scenarios !! name
  = if decide ("Keep Renting" = name) then Some keep_renting
    else if decide ("Buy Starter Home" = name) then Some buy_starter_home
    else if decide ("Buy Standard Home" = name) then Some buy_standard_home
    else if decide ("Buy Premium Home" = name) then Some buy_premium_home
    else None.
Proof.
  unfold scenarios, scenario_catalog.
  rewrite !list_to_map_cons, list_to_map_nil.
  rewrite !lookup_insert, lookup_empty. reflexivity.
Qed.

Lemma scenarios_lookup_unknown (name : string) :
  ~ In name (map fst scenario_catalog) -> scenarios !! name = None.
Proof.
  intros H. rewrite scenarios_lookup.
  repeat (destruct (decide _) as [<- | ?];
          [exfalso; apply H; cbn; auto 10|]).
  reflexivity.
Qed.

Lemma scenarios_lookup_known (name : string) :
  In name (map fst scenario_catalog) ->
  exists params, scenarios !! name = Some params.
Proof.
  intros H. rewrite scenarios_lookup.
  repeat (destruct (decide _) as [<- | ?]; [eexists; reflexivity|]).
  exfalso. cbn in H. intuition congruence.
Qed.

(** C7: a scenario name outside the catalog makes [simulate_household] fail
    with the [KeyError] of the catalog lookup, no record is produced and no
    variate is drawn; for a catalog key the call is the renting simulator
    exactly when the name is 'Keep Renting' and the buying simulator
    otherwise. *)
Theorem scenario_dispatch
    (self : MonteCarloHousingSimulator) (household : Household)
    (scenario : string) (num_simulations time_horizon_years : nat) (g : rng) :
  (~ In scenario (map fst scenario_catalog) ->
   simulate_household self household scenario num_simulations
     time_horizon_years g
   = (KeyError scenario, g))
  /\ (scenario = "Keep Renting" ->
      simulate_household self household scenario num_simulations
        time_horizon_years g
      = (Ok (RentingRecord
               (fst (simulate_renting self household num_simulations
                       time_horizon_years g))),
         snd (simulate_renting self household num_simulations
                time_horizon_years g)))
  /\ (In scenario (map fst scenario_catalog) ->
      scenario <> "Keep Renting" ->
      exists (r : Buying.result) (g' : rng),
        simulate_buying self household scenario num_simulations
          time_horizon_years g = (Ok r, g')
        /\ simulate_household self household scenario num_simulations
             time_horizon_years g = (Ok (BuyingRecord r), g')).
Proof.
  split; [|split].
  - intros Hnot. unfold simulate_household.
    destruct (String.eqb_spec scenario "Keep Renting") as [-> | Hne].
    + exfalso. apply Hnot. cbn. tauto.
    + rewrite bind_run. unfold simulate_buying.
      rewrite (scenarios_lookup_unknown _ Hnot). reflexivity.
  - intros ->. unfold simulate_household.
    rewrite String.eqb_refl, bind_run. reflexivity.
  - intros Hin Hne. unfold simulate_household.
    destruct (String.eqb_spec scenario "Keep Renting") as [E | _];
      [contradiction|].
    rewrite bind_run. unfold simulate_buying.
    destruct (scenarios_lookup_known _ Hin) as [params ->].
    rewrite !bind_run. cbn [fst snd ret]. eexists. eexists.
    split; reflexivity.
Qed.

Lemma scenario_dispatch_witness :
  simulate_household default_simulator sample_household "Buy Castle" 1000 10
    flat_rng
  = (KeyError "Buy Castle", flat_rng)
  /\ exists (r : Buying.result) (g' : rng),
       simulate_household default_simulator sample_household
         "Buy Premium Home" 2 0 flat_rng
       = (Ok (BuyingRecord r), g').
Proof.
  destruct (scenario_dispatch default_simulator sample_household "Buy Castle"
              1000 10 flat_rng) as (A & _ & _).
  destruct (scenario_dispatch default_simulator sample_household
              "Buy Premium Home" 2 0 flat_rng) as (_ & _ & B).
  assert (H1 : ~ In "Buy Castle" (map fst scenario_catalog))
    by (cbn; intuition discriminate).
  assert (H2 : In "Buy Premium Home" (map fst scenario_catalog))
    by (cbn; auto 10).
  assert (H3 : "Buy Premium Home" <> "Keep Renting") by discriminate.
  destruct (B H2 H3) as (r & g' & _ & E).
  split; [exact (A H1)|]. exists r, g'. exact E.
Defined.

(** ** The rate overrides (C8) *)

Lemma replicate_rand_ext {A} (n : nat) (m1 m2 : Rand A) :
  (forall g, m1 g = m2 g) ->
  forall g, replicate_rand n m1 g = replicate_rand n m2 g.
Proof.
  intros E. induction n as [|n IH]; intros g; [reflexivity|].
  rewrite !replicate_rand_S, E, !IH. reflexivity.
Qed.

Section Overrides.

Variables s1 s2 : MonteCarloHousingSimulator.
Hypothesis Hsame : same_settings s1 s2.

Lemma renting_trial_ext (household : Household) (years : nat) (g : rng) :
  Renting.run_trial s1 household years g
  = Renting.run_trial s2 household years g.
Proof.
  destruct Hsame as (Hi & _ & _).
  unfold Renting.run_trial. generalize
    {| Renting.rent := current_monthly_rent household;
       Renting.total_cost := 0;
       Renting.months_affordable := 0;
       Renting.income := annual_income household |}.
  revert g. induction years as [|k IH]; intros g t; [reflexivity|].
  rewrite !RentingFacts.rent_year_loop_step.
  unfold Renting.next_income. rewrite Hi.
  destruct (ratio_le _ 0.35); [apply IH | reflexivity].
Qed.

Lemma buying_month_loop_ext (n : nat) (r : ratio) (l : Buying.locals)
    (g : rng) :
  Buying.month_loop s1 n r l g = Buying.month_loop s2 n r l g.
Proof.
  destruct Hsame as (_ & _ & Ht).
  revert l g. induction n as [|n IH]; intros l g; [reflexivity|].
  cbn [Buying.month_loop]. rewrite Ht.
  destruct (ratio_le r (affordability_threshold s2)); [apply IH|].
  rewrite !bind_run, random_run. cbn [fst snd].
  destruct (Qltb _ 0.3); [reflexivity | apply IH].
Qed.

Lemma buying_year_shocks_ext (params : HousingScenarioParameters)
    (l : Buying.locals) (g : rng) :
  Buying.year_shocks s1 params l g = Buying.year_shocks s2 params l g.
Proof.
  destruct Hsame as (Hi & Hn & _).
  rewrite !BuyingFacts.year_shocks_run. cbv zeta. rewrite Hi, Hn.
  reflexivity.
Qed.

Lemma buying_year_loop_ext (params : HousingScenarioParameters) (k : nat)
    (l : Buying.locals) (g : rng) :
  Buying.year_loop s1 params k l g = Buying.year_loop s2 params k l g.
Proof.
  revert l g. induction k as [|k IH]; intros l g; [reflexivity|].
  rewrite !BuyingFacts.buy_year_loop_step. cbv zeta.
  rewrite buying_year_shocks_ext, buying_month_loop_ext.
  destruct (Buying.defaulted _); [reflexivity | apply IH].
Qed.

Lemma buying_trial_ext (household : Household)
    (params : HousingScenarioParameters) (years : nat) (g : rng) :
  Buying.run_trial s1 household params years g
  = Buying.run_trial s2 household params years g.
Proof.
  rewrite !TrialFacts.run_trial_run. cbv zeta.
  rewrite buying_year_loop_ext. reflexivity.
Qed.

Lemma timeline_rent_years_ext (k : nat) (rent income cumulative : Q)
    (g : rng) :
  Timeline.rent_years s1 k rent income cumulative g
  = Timeline.rent_years s2 k rent income cumulative g.
Proof.
  destruct Hsame as (Hi & _ & _).
  revert rent income cumulative g.
  induction k as [|k IH]; intros rent income cumulative g; [reflexivity|].
  cbn [Timeline.rent_years]. rewrite Hi.
  unfold bind.
  destruct (Sampler.triangular _ _ _ g) as [x1 g1].
  destruct (Sampler.normal _ _ g1) as [x2 g2].
  rewrite IH. reflexivity.
Qed.

Lemma timeline_buy_years_ext (params : HousingScenarioParameters) (k : nat)
    (rate mortgage insurance value balance income cumulative : Q) (g : rng) :
  Timeline.buy_years s1 params k rate mortgage insurance value balance
    income cumulative g
  = Timeline.buy_years s2 params k rate mortgage insurance value balance
      income cumulative g.
Proof.
  destruct Hsame as (Hi & Hn & _).
  revert insurance value balance income cumulative g.
  induction k as [|k IH];
    intros insurance value balance income cumulative g; [reflexivity|].
  cbn [Timeline.buy_years]. rewrite Hi, Hn.
  unfold bind.
  destruct (Sampler.normal _ _ g) as [x1 g1].
  destruct (Sampler.normal _ _ g1) as [x2 g2].
  destruct (Sampler.triangular _ _ _ g2) as [x3 g3].
  destruct (Timeline.pay_months _ _ _ _ _ _) as [b c].
  rewrite IH. reflexivity.
Qed.

Lemma timeline_trial_ext (household : Household) (scenario_name : string)
    (params : HousingScenarioParameters) (years : nat) (g : rng) :
  Timeline.run_trial s1 household scenario_name params years g
  = Timeline.run_trial s2 household scenario_name params years g.
Proof.
  unfold Timeline.run_trial. destruct (String.eqb _ _).
  - unfold Timeline.rent_trial. rewrite !bind_run, timeline_rent_years_ext.
    reflexivity.
  - rewrite !TimelineFacts.buy_trial_run.
    unfold Timeline.later_years. cbv zeta.
    rewrite timeline_buy_years_ext. reflexivity.
Qed.

Lemma simulate_renting_ext (household : Household) (n years : nat) (g : rng) :
  simulate_renting s1 household n years g
  = simulate_renting s2 household n years g.
Proof.
  unfold simulate_renting. rewrite !bind_run.
  rewrite (replicate_rand_ext n _ _ (renting_trial_ext household years)).
  reflexivity.
Qed.

Lemma simulate_buying_ext (household : Household) (scenario_name : string)
    (n years : nat) (g : rng) :
  simulate_buying s1 household scenario_name n years g
  = simulate_buying s2 household scenario_name n years g.
Proof.
  unfold simulate_buying. destruct (scenarios !! scenario_name);
    [|reflexivity].
  rewrite !bind_run.
  rewrite (replicate_rand_ext n _ _ (buying_trial_ext household h years)).
  reflexivity.
Qed.

Lemma simulate_household_ext (household : Household) (scenario : string)
    (n years : nat) (g : rng) :
  simulate_household s1 household scenario n years g
  = simulate_household s2 household scenario n years g.
Proof.
  unfold simulate_household. destruct (String.eqb _ _); rewrite !bind_run.
  - rewrite simulate_renting_ext. reflexivity.
  - rewrite simulate_buying_ext. reflexivity.
Qed.

Lemma compare_loop_ext (household : Household) (names : list string)
    (n years : nat) (g : rng) :
  compare_loop s1 household names n years g
  = compare_loop s2 household names n years g.
Proof.
  revert g. induction names as [|name names IH]; intros g; [reflexivity|].
  cbn [compare_loop]. rewrite !bind_run, simulate_household_ext.
  destruct (fst (simulate_household s2 household name n years g));
    [|reflexivity].
  rewrite !bind_run, IH. reflexivity.
Qed.

Lemma simulate_timeline_ext (household : Household) (scenario_name : string)
    (n years : nat) (g : rng) :
  simulate_timeline s1 household scenario_name n years g
  = simulate_timeline s2 household scenario_name n years g.
Proof.
  unfold simulate_timeline. destruct (scenarios !! scenario_name);
    [|reflexivity].
  rewrite !bind_run.
  rewrite (replicate_rand_ext n _ _
             (timeline_trial_ext household scenario_name h years)).
  reflexivity.
Qed.

End Overrides.

(** C8: the trial logic never reads the configured [appreciation_rate] and
    [interest_rate].  Two simulators that agree on the three other settings
    return the same result and leave the generator in the same state, for
    every simulation method and every input. *)
Theorem overrides_never_consulted
    (s1 s2 : MonteCarloHousingSimulator) (household : Household)
    (scenario : string) (num_simulations time_horizon_years : nat) (g : rng) :
  income_growth s1 = income_growth s2 ->
  insurance_increase s1 = insurance_increase s2 ->
  affordability_threshold s1 = affordability_threshold s2 ->
  simulate_renting s1 household num_simulations time_horizon_years g
  = simulate_renting s2 household num_simulations time_horizon_years g
  /\ simulate_buying s1 household scenario num_simulations
       time_horizon_years g
     = simulate_buying s2 household scenario num_simulations
         time_horizon_years g
  /\ simulate_household s1 household scenario num_simulations
       time_horizon_years g
     = simulate_household s2 household scenario num_simulations
         time_horizon_years g
  /\ compare_scenarios s1 household num_simulations time_horizon_years g
     = compare_scenarios s2 household num_simulations time_horizon_years g
  /\ simulate_timeline s1 household scenario num_simulations
       time_horizon_years g
     = simulate_timeline s2 household scenario num_simulations
         time_horizon_years g.
Proof.
  intros Hi Hn Ht.
  assert (Hsame : same_settings s1 s2) by (repeat split; assumption).
  split; [apply simulate_renting_ext; exact Hsame|].
  split; [apply simulate_buying_ext; exact Hsame|].
  split; [apply simulate_household_ext; exact Hsame|].
  split; [apply compare_loop_ext; exact Hsame|].
  apply simulate_timeline_ext; exact Hsame.
Qed.

Lemma overrides_never_consulted_witness :
  simulate_household default_simulator comfortable_household
    "Buy Standard Home" 1000 10 flat_rng
  = simulate_household overridden_simulator comfortable_household
      "Buy Standard Home" 1000 10 flat_rng.
Proof.
  destruct (overrides_never_consulted default_simulator overridden_simulator
              comfortable_household "Buy Standard Home" 1000 10 flat_rng)
    as (_ & _ & E & _); [reflexivity | reflexivity | reflexivity |].
  exact E.
Defined.

(** ** Facts about well-formed inputs *)

Lemma catalog_params_ok (name : string) (p : HousingScenarioParameters) :
  scenarios !! name = Some p -> params_ok p.
Proof.
  rewrite scenarios_lookup.
  repeat (destruct (decide _) as [_ | _];
          [intros [= <-]; unfold params_ok; cbn; repeat split; lra|]).
  discriminate.
Qed.

Lemma region_adj_ok (r : string) :
  0 <= price_multiplier (region_adj_of r)
  /\ 0 <= insurance_multiplier (region_adj_of r).
Proof.
  unfold region_adj_of, region_adjustments.
  rewrite !list_to_map_cons, list_to_map_nil.
  rewrite !lookup_insert, lookup_empty.
  repeat (destruct (decide _) as [_ | _]; [cbn; split; lra|]).
  cbn. split; lra.
Qed.

Lemma tape_ok_advance (n : nat) (g : rng) : tape_ok g -> tape_ok (advance n g).
Proof. intros H m. apply H. Qed.

Lemma triangular_bounds (left mode right : Q) (g : rng) :
  left <= mode -> mode <= right -> cell_ok (tape g (cursor g)) ->
  left <= fst (Sampler.triangular left mode right g)
  /\ fst (Sampler.triangular left mode right g) <= right.
Proof.
  intros H1 H2 (_ & _ & Hlo & Hhi).
  rewrite triangular_run. cbn [fst].
  set (t := tri (tape g (cursor g))) in *.
  destruct (Qle_bool t 0) eqn:E.
  - apply Qle_bool_iff in E. split; nra.
  - apply Qle_bool_false in E. split; nra.
Qed.

(** ** Signs of the costs of a buying trial *)

Lemma Qdiv12 (x : Q) : x / 12 == x * (1 # 12).
Proof. unfold Qdiv. reflexivity. Qed.

Module CostFacts.
Import Buying BuyingFacts TrialFacts.

Lemma entry_ok (params : HousingScenarioParameters) (household : Household)
    (g : rng) :
  params_ok params -> cell_ok (tape g (cursor g)) ->
  0 <= home_price (drawn_entry params household g)
  /\ 0 <= down_payment (drawn_entry params household g)
  /\ down_payment (drawn_entry params household g)
     <= home_price (drawn_entry params household g)
  /\ 0 <= closing_costs (drawn_entry params household g).
Proof.
  intros (P1 & P2 & P3 & P4 & P5 & _) (U1 & U2 & _).
  destruct (region_adj_ok (region household)) as [R1 _].
  unfold drawn_entry. rewrite draw_entry_run. cbv zeta.
  cbn [fst home_price down_payment closing_costs].
  set (u := unit01 (tape g (cursor g))) in *.
  set (m := price_multiplier (region_adj_of (region household))) in *.
  assert (H0 : 0 <= (home_price_max params - home_price_min params) * u)
    by (apply Qmult_le_0_compat; lra).
  assert (H1 : 0 <= (home_price_min params
                     + (home_price_max params - home_price_min params) * u)
                    * m)
    by (apply Qmult_le_0_compat; lra).
  set (hp := (home_price_min params
              + (home_price_max params - home_price_min params) * u) * m)
    in *.
  assert (H2 : 0 <= hp * down_payment_pct params)
    by (apply Qmult_le_0_compat; lra).
  assert (H3 : 0 <= hp * (1 - down_payment_pct params))
    by (apply Qmult_le_0_compat; lra).
  assert (H4 : 0 <= hp * closing_costs_pct params)
    by (apply Qmult_le_0_compat; lra).
  repeat split; lra.
Qed.

Lemma start_locals_ok (household : Household)
    (params : HousingScenarioParameters) (g : rng) :
  params_ok params -> cell_ok (tape g (cursor g)) ->
  costs_ok (start_locals household params g)
  /\ 0 <= total_costs (start_locals household params g)
  /\ total_costs (start_locals household params g)
     = down_payment (drawn_entry params household g)
       + closing_costs (drawn_entry params household g)
  /\ defaulted (start_locals household params g) = false.
Proof.
  intros Hp Hc.
  destruct (entry_ok params household g Hp Hc) as (E1 & E2 & E3 & E4).
  destruct Hp as (_ & _ & _ & _ & _ & _ & P7 & _).
  destruct (region_adj_ok (region household)) as [_ R2].
  destruct (drawn_rate_bounds params (credit_score household) (advance 1 g))
    as [Hlo _].
  fold (drawn_rate params household g) in Hlo.
  pose proof (monthly_rate_pos _ Hlo) as Hr.
  unfold start_locals, initial_locals, costs_ok.
  cbn [monthly_mortgage monthly_insurance current_home_value total_costs
       defaulted].
  rewrite (payment_is_amortized _ _ Hr).
  split; [|split; [lra | split; reflexivity]].
  split; [|split; [|exact E1]].
  - apply amortized_payment_bounds; [lra | exact Hr].
  - rewrite Qdiv12.
    assert (H : 0 <= hurricane_insurance_annual params
                     * insurance_multiplier (region_adj_of (region household)))
      by (apply Qmult_le_0_compat; assumption).
    lra.
Qed.

(** After the yearly shocks every cost component is non-negative, so the
    total monthly cost is at least the HOA fee. *)
Lemma shocks_ok (self : MonteCarloHousingSimulator)
    (params : HousingScenarioParameters) (l : locals) (g : rng) :
  params_ok params -> tape_ok g -> appreciation_ok params g -> costs_ok l ->
  costs_ok (snd (fst (year_shocks self params l g)))
  /\ hoa_monthly params
     <= total_monthly (snd (fst (year_shocks self params l g)))
  /\ total_costs (snd (fst (year_shocks self params l g))) = total_costs l
  /\ defaulted (snd (fst (year_shocks self params l g))) = defaulted l.
Proof.
  intros (_ & _ & _ & _ & _ & P6 & _ & P8 & P9) Ht Ha (C1 & C2 & C3).
  rewrite year_shocks_run. cbv zeta.
  cbn [fst snd monthly_mortgage monthly_insurance current_home_value
       total_costs total_monthly defaulted].
  assert (Hclip : 0.03 <= np_clip (insurance_increase self) 0.03 0.12
                  /\ np_clip (insurance_increase self) 0.03 0.12 <= 0.12)
    by (apply np_clip_bounds; lra).
  destruct Hclip as [K1 K2].
  destruct (triangular_bounds 0.03 _ 0.12 (advance 2 g) K1 K2
              (Ht _)) as [T1 _].
  set (ti := fst (Sampler.triangular 0.03 _ 0.12 (advance 2 g))) in *.
  pose proof (Ha (S (cursor g))) as A1.
  set (af := 1 + (appreciation_mean params
                  + appreciation_std params * gauss (tape g (S (cursor g)))))
    in *.
  destruct (Ht (S (S (S (cursor g))))) as (U1 & _).
  set (u := unit01 (tape g (S (S (S (cursor g)))))) in *.
  assert (V : 0 <= current_home_value l * af)
    by (apply Qmult_le_0_compat; assumption).
  assert (I : 0 <= monthly_insurance l * (1 + ti))
    by (apply Qmult_le_0_compat; lra).
  set (v := current_home_value l * af) in *.
  assert (X1 : 0 <= v * property_tax_rate params)
    by (apply Qmult_le_0_compat; assumption).
  assert (X2 : 0 <= v * maintenance_annual_pct params)
    by (apply Qmult_le_0_compat; assumption).
  assert (X3 : 0 <= v * maintenance_annual_pct params * u)
    by (apply Qmult_le_0_compat; assumption).
  unfold costs_ok.
  cbn [monthly_mortgage monthly_insurance current_home_value].
  split; [repeat split; assumption|].
  split; [|split; reflexivity].
  rewrite !Qdiv12. lra.
Qed.

Lemma pay_months_ok (n : nat) (l : locals) :
  costs_ok l -> 0 <= total_monthly l ->
  costs_ok (pay_months n l)
  /\ total_costs l <= total_costs (pay_months n l).
Proof.
  intros (C1 & C2 & C3) Hm.
  destruct (pay_months_fields n l) as (_ & B & C & D & _ & _ & _ & _ & I).
  unfold costs_ok. rewrite B, C, D, I.
  split; [repeat split; assumption|].
  assert (H : 0 <= Qnat n * total_monthly l).
  { apply Qmult_le_0_compat; [|exact Hm].
    unfold Qnat. change 0 with (inject_Z 0). rewrite <- Zle_Qle. lia. }
  lra.
Qed.

(** Cumulative cost never decreases along the year loop when no home value
    turns negative. *)
Lemma year_loop_ok (self : MonteCarloHousingSimulator)
    (params : HousingScenarioParameters) (k : nat) (l : locals) (g : rng) :
  params_ok params -> tape_ok g -> appreciation_ok params g -> costs_ok l ->
  costs_ok (fst (year_loop self params k l g))
  /\ total_costs l <= total_costs (fst (year_loop self params k l g)).
Proof.
  intros Hp Ht Ha. revert l g Ht Ha.
  induction k as [|k IH]; intros l g Ht Ha Hc.
  - cbn. split; [exact Hc | lra].
  - rewrite buy_year_loop_step. cbv zeta.
    destruct (shocks_ok self params l g Hp Ht Ha Hc) as (S1 & S2 & S3 & _).
    destruct Hp as (Q1 & Q2 & Q3 & Q4 & Q5 & Q6 & Q7 & Q8 & Q9).
    assert (Hm : 0 <= total_monthly (snd (fst (year_shocks self params l g))))
      by lra.
    assert (Hp : params_ok params) by (repeat split; assumption).
    set (l1 := snd (fst (year_shocks self params l g))) in *.
    destruct (month_loop_cases self 12
                (fst (fst (year_shocks self params l g))) l1 (advance 4 g))
      as [T [[_ R] | [_ R]]].
    + rewrite R. cbn [fst snd].
      destruct (pay_months_ok 12 l1 S1 Hm) as [O1 O2].
      rewrite S3 in O2.
      destruct (defaulted (pay_months 12 l1)); cbn [fst snd].
      * split; [exact O1 | lra].
      * destruct (IH (pay_months 12 l1) (advance 4 g)
                    (tape_ok_advance 4 g Ht) Ha O1) as [I1 I2].
        split; [exact I1 | lra].
    + set (res := month_loop self 12 _ l1 (advance 4 g)) in *.
      assert (O1 : costs_ok (fst res))
        by (destruct R as [-> | ->]; exact S1).
      assert (O2 : total_costs (fst res) = total_costs l)
        by (rewrite <- S3; destruct R as [-> | ->]; reflexivity).
      assert (Ht' : tape_ok (snd res)) by (intros n; rewrite T; apply Ht).
      assert (Ha' : appreciation_ok params (snd res))
        by (intros n; rewrite T; apply Ha).
      destruct (defaulted (fst res)); cbn [fst snd].
      * split; [exact O1 | rewrite O2; lra].
      * destruct (IH (fst res) (snd res) Ht' Ha' O1) as [I1 I2].
        split; [exact I1 | rewrite O2 in I2; lra].
Qed.

End CostFacts.

(** ** Equity of a defaulted trial *)

Lemma simulate_buying_run (self : MonteCarloHousingSimulator)
    (household : Household) (name : string)
    (params : HousingScenarioParameters) (n years : nat) (g : rng) :
  scenarios !! name = Some params ->
  fst (simulate_buying self household name n years g)
  = Ok (Buying.aggregate household name n years
          (fst (replicate_rand n
                  (Buying.run_trial self household params years) g))).
Proof.
  intros E. unfold simulate_buying. rewrite E, bind_run. reflexivity.
Qed.

(** The final accounting of a buying trial: the equity is
    [-min(savings, closing costs)] after a failed entry,
    [-(down payment + closing costs + 0.2 * cumulative cost)] after a
    default draw, and [home value - max(0, balance)] otherwise.  With
    non-negative savings, variates in the range of their distribution and
    no normal variate that would take a home value below zero, a trial that
    ends with the default flag set reports an equity that is not
    positive. *)
Lemma defaulted_equity_not_positive
    (self : MonteCarloHousingSimulator) (household : Household)
    (name : string) (params : HousingScenarioParameters) (years : nat)
    (g : rng) :
  scenarios !! name = Some params ->
  0 <= savings household ->
  tape_ok g ->
  appreciation_ok params g ->
  (Buying.default_occurred
     (fst (Buying.run_trial self household params years g)) = true ->
   Buying.final_equity
     (fst (Buying.run_trial self household params years g)) <= 0)
  /\ match snd (fst (Buying.play self household params years g)) with
     | None =>
         Buying.default_occurred
           (fst (Buying.run_trial self household params years g)) = true
         /\ Buying.final_equity
              (fst (Buying.run_trial self household params years g))
            == - Qmin (savings household)
                   (Buying.closing_costs
                      (Buying.drawn_entry params household g))
     | Some l =>
         Buying.default_occurred
           (fst (Buying.run_trial self household params years g))
         = Buying.defaulted l
         /\ Buying.total_paid
              (fst (Buying.run_trial self household params years g))
            = Buying.total_costs l
         /\ Buying.final_equity
              (fst (Buying.run_trial self household params years g))
            == (if Buying.defaulted l
                then - (Buying.down_payment
                          (Buying.drawn_entry params household g)
                        + Buying.closing_costs
                            (Buying.drawn_entry params household g)
                        + 0.2 * Buying.total_costs l)
                else Buying.current_home_value l
                     - Qmax 0 (Buying.current_loan_balance l))
     end.
Proof.
  intros Hlook Hs Ht Ha.
  pose proof (catalog_params_ok _ _ Hlook) as Hp.
  destruct (CostFacts.entry_ok params household g Hp (Ht _))
    as (E1 & E2 & E3 & E4).
  rewrite TrialFacts.run_trial_run, TrialFacts.play_run.
  destruct (Buying.fails_entry household
              (Buying.drawn_entry params household g)).
  - cbn [fst snd Buying.failed_entry_cells Buying.final_equity
         Buying.default_occurred].
    assert (Eq : (if Qle_bool
                       (Buying.closing_costs
                          (Buying.drawn_entry params household g))
                       (savings household)
                  then - Buying.closing_costs
                           (Buying.drawn_entry params household g)
                  else - savings household)
                 == - Qmin (savings household)
                        (Buying.closing_costs
                           (Buying.drawn_entry params household g))).
    { destruct (Qle_bool _ _) eqn:E.
      - apply Qle_bool_iff in E. rewrite Q.min_r; [reflexivity | exact E].
      - apply Qle_bool_false in E. rewrite Q.min_l; [reflexivity | lra]. }
    split; [|split; [reflexivity | exact Eq]].
    intros _. rewrite Eq.
    destruct (Q.min_spec (savings household)
                (Buying.closing_costs
                   (Buying.drawn_entry params household g)))
      as [[_ ->] | [_ ->]]; lra.
  - cbv zeta.
    cbn [fst snd Buying.settle Buying.final_equity Buying.default_occurred
         Buying.total_paid].
    destruct (CostFacts.start_locals_ok household params g Hp (Ht _))
      as (C & _ & T0 & _).
    destruct (CostFacts.year_loop_ok self params years
                (Buying.start_locals household params g) (advance 2 g)
                Hp (tape_ok_advance 2 g Ht) Ha C) as [_ Hmono].
    rewrite T0 in Hmono.
    set (l := fst (Buying.year_loop self params years _ _)) in *.
    split.
    + intros D. rewrite D. lra.
    + split; [reflexivity|]. split; [reflexivity|].
      destruct (Buying.defaulted l).
      * ring.
      * rewrite py_max_Qmax. reflexivity.
Qed.

(** ** One simulated year, field by field *)

Lemma Qeq_bool_false_pos (b : Q) : 0 < b -> Qeq_bool b 0 = false.
Proof.
  intros H. destruct (Qeq_bool b 0) eqn:E; [|reflexivity].
  apply Qeq_bool_iff in E. lra.
Qed.

Lemma ratio_le_pos (a b c : Q) :
  0 < b -> ratio_le (np_div a b) c = Qle_bool a (c * b).
Proof.
  intros Hb. unfold np_div. rewrite (Qeq_bool_false_pos b Hb).
  cbn [ratio_le].
  destruct (Qle_bool a (c * b)) eqn:E.
  - apply Qle_bool_iff in E. apply Qle_bool_iff.
    apply Qle_shift_div_r; assumption.
  - apply Qle_bool_false in E. apply Qle_bool_false.
    apply Qlt_shift_div_l; assumption.
Qed.

Lemma ratio_le_zero_divisor (a b c : Q) :
  b == 0 -> 0 < a -> ratio_le (np_div a b) c = false.
Proof.
  intros Hb Ha. unfold np_div.
  apply Qeq_bool_iff in Hb. rewrite Hb.
  apply Qltb_true in Ha. rewrite Ha. reflexivity.
Qed.

Module YearFacts.
Import Buying BuyingFacts.

Lemma shocks_fields (self : MonteCarloHousingSimulator)
    (params : HousingScenarioParameters) (l : locals) (g : rng) :
  let l1 := snd (fst (year_shocks self params l g)) in
  interest_rate l1 = interest_rate l
  /\ monthly_mortgage l1 = monthly_mortgage l
  /\ monthly_insurance l1 = shocked_insurance self (monthly_insurance l) g
  /\ current_home_value l1 = shocked_value params (current_home_value l) g
  /\ income l1 = shocked_income self (income l) g
  /\ total_costs l1 = total_costs l
  /\ defaulted l1 = defaulted l
  /\ total_monthly l1
     == monthly_mortgage l
        + shocked_extras self params (current_home_value l)
            (monthly_insurance l) g
  /\ fst (fst (year_shocks self params l g))
     = np_div (total_monthly l1) (income l1 / 12).
Proof.
  rewrite year_shocks_run. cbv zeta.
  cbn [fst snd interest_rate monthly_mortgage monthly_insurance
       current_home_value income total_costs defaulted total_monthly].
  repeat split; try reflexivity.
  unfold shocked_extras, shocked_value, shocked_insurance. ring.
Qed.

Lemma month_loop_default_now (self : MonteCarloHousingSimulator) (n : nat)
    (r : ratio) (l : locals) (g : rng) :
  ratio_le r (affordability_threshold self) = false ->
  Qltb (unit01 (tape g (cursor g))) 0.3 = true ->
  month_loop self (S n) r l g = (mark_default l, advance 1 g).
Proof.
  intros E U. cbn [month_loop]. rewrite E, bind_run, random_run.
  cbn [fst snd]. rewrite U. reflexivity.
Qed.

(** An affordable year pays twelve months. *)
Lemma year_paid (self : MonteCarloHousingSimulator)
    (params : HousingScenarioParameters) (l : locals) (g : rng) :
  ratio_le (fst (fst (year_shocks self params l g)))
    (affordability_threshold self) = true ->
  year_body self params l g
  = (pay_months 12 (snd (fst (year_shocks self params l g))), advance 4 g).
Proof.
  intros E. unfold year_body.
  destruct (month_loop_cases self 12
              (fst (fst (year_shocks self params l g)))
              (snd (fst (year_shocks self params l g))) (advance 4 g))
    as [_ [[_ R] | [F _]]]; [exact R | congruence].
Qed.

(** An unaffordable year whose first default draw is below 0.3 defaults in
    its first month. *)
Lemma year_defaults (self : MonteCarloHousingSimulator)
    (params : HousingScenarioParameters) (l : locals) (g : rng) :
  ratio_le (fst (fst (year_shocks self params l g)))
    (affordability_threshold self) = false ->
  Qltb (unit01 (tape g (4 + cursor g))) 0.3 = true ->
  year_body self params l g
  = (mark_default (snd (fst (year_shocks self params l g))), advance 5 g).
Proof.
  intros E U. unfold year_body.
  rewrite (month_loop_default_now self 11 _ _ (advance 4 g) E U).
  rewrite advance_advance. reflexivity.
Qed.

Lemma year_loop_body (self : MonteCarloHousingSimulator)
    (params : HousingScenarioParameters) (k : nat) (l : locals) (g : rng) :
  year_loop self params (S k) l g
  = if defaulted (fst (year_body self params l g))
    then year_body self params l g
    else year_loop self params k (fst (year_body self params l g))
           (snd (year_body self params l g)).
Proof. apply buy_year_loop_step. Qed.

End YearFacts.

(** ** Years that are paid whatever the payment *)

Module PathFacts.
Import Buying BuyingFacts.

Lemma paid_year_run (self : MonteCarloHousingSimulator)
    (params : HousingScenarioParameters) (bound : Q) (l : locals) (g : rng) :
  0 <= monthly_mortgage l -> monthly_mortgage l <= bound ->
  Qltb 0 (shocked_income self (income l) g / 12) = true ->
  Qle_bool
    (bound + shocked_extras self params (current_home_value l)
               (monthly_insurance l) g)
    (affordability_threshold self * (shocked_income self (income l) g / 12))
  = true ->
  year_body self params l g
  = (pay_months 12 (snd (fst (year_shocks self params l g))), advance 4 g).
Proof.
  intros M0 M1 Hi Hc. apply YearFacts.year_paid.
  destruct (YearFacts.shocks_fields self params l g)
    as (_ & _ & _ & _ & A5 & _ & _ & A8 & A9).
  cbv zeta in A5, A8, A9.
  apply Qltb_true in Hi. apply Qle_bool_iff in Hc.
  rewrite A9, A5, ratio_le_pos; [|exact Hi].
  apply Qle_bool_iff. rewrite A8. lra.
Qed.

(** [k] years that pass the test are paid in full; the trial then goes on
    with the values that the path functions give. *)
Lemma affordable_within_run (self : MonteCarloHousingSimulator)
    (params : HousingScenarioParameters) (bound : Q) (k m : nat)
    (l : locals) (g : rng) :
  defaulted l = false ->
  0 <= monthly_mortgage l -> monthly_mortgage l <= bound ->
  affordable_within self params bound k (current_home_value l)
    (monthly_insurance l) (income l) g = true ->
  exists l' : locals,
    year_loop self params (k + m) l g
    = year_loop self params m l' (advance (4 * k) g)
    /\ defaulted l' = false
    /\ monthly_mortgage l' = monthly_mortgage l
    /\ current_home_value l' = value_after params k (current_home_value l) g
    /\ monthly_insurance l'
       = insurance_after self k (monthly_insurance l) g
    /\ income l' = income_after self k (income l) g
    /\ months_affordable l' = (months_affordable l + 12 * k)%nat
    /\ total_costs l'
       == total_costs l
          + 12 * (Qnat k * monthly_mortgage l
                  + extras_paid self params k (current_home_value l)
                      (monthly_insurance l) g).
Proof.
  revert l g. induction k as [|k IH]; intros l g D M0 M1 H.
  - exists l. destruct g as [t c].
    cbn [Nat.add Nat.mul advance tape cursor value_after insurance_after
         income_after extras_paid].
    repeat split; try reflexivity; try lia; try exact D.
    change (Qnat 0) with 0. ring.
  - cbn [affordable_within] in H.
    apply andb_true_iff in H as [H H3]. apply andb_true_iff in H as [H1 H2].
    cbn [Nat.add]. rewrite YearFacts.year_loop_body.
    rewrite (paid_year_run self params bound l g M0 M1 H1 H2).
    cbn [fst snd].
    destruct (YearFacts.shocks_fields self params l g)
      as (_ & A2 & A3 & A4 & A5 & A6 & A7 & A8 & _).
    cbv zeta in A2, A3, A4, A5, A6, A7, A8.
    set (l1 := snd (fst (year_shocks self params l g))) in *.
    destruct (pay_months_fields 12 l1)
      as (_ & P2 & P3 & P4 & P5 & _ & P7 & P8 & P9).
    set (l2 := pay_months 12 l1) in *.
    rewrite P7, A7, D.
    rewrite <- A4, <- P4, <- A3, <- P3, <- A5, <- P5 in H3.
    assert (D2 : defaulted l2 = false) by (rewrite P7, A7; exact D).
    assert (N0 : 0 <= monthly_mortgage l2) by (rewrite P2, A2; exact M0).
    assert (N1 : monthly_mortgage l2 <= bound) by (rewrite P2, A2; exact M1).
    destruct (IH l2 (advance 4 g) D2 N0 N1 H3)
      as (l' & E & D' & Mo & V & I & Inc & Mon & T).
    exists l'. rewrite E, advance_advance.
    replace (4 * k + 4)%nat with (4 * S k)%nat by lia.
    split; [reflexivity|]. split; [exact D'|].
    split; [rewrite Mo, P2, A2; reflexivity|].
    split; [rewrite V, P4, A4; reflexivity|].
    split; [rewrite I, P3, A3; reflexivity|].
    split; [rewrite Inc, P5, A5; reflexivity|].
    split.
    { rewrite Mon, P8.
      change (months_affordable l1) with (months_affordable l). lia. }
    rewrite T, P9, P2, P4, P3, A2, A4, A3, A6, A8.
    cbn [extras_paid].
    assert (Q1 : Qnat (S k) == Qnat k + 1).
    { unfold Qnat. rewrite Nat2Z.inj_succ, <- Z.add_1_r, inject_Z_plus.
      reflexivity. }
    rewrite Q1. change (Qnat 12) with 12. ring.
Qed.

End PathFacts.

(** ** A defaulted trial with positive equity (C4) *)

Lemma start_locals_fields (household : Household)
    (params : HousingScenarioParameters) (g : rng) :
  let l := Buying.start_locals household params g in
  let e := Buying.drawn_entry params household g in
  Buying.monthly_mortgage l
  = monthly_mortgage_payment (Buying.home_price e - Buying.down_payment e)
      (Buying.drawn_rate params household g / 12)
  /\ Buying.monthly_insurance l
     = hurricane_insurance_annual params
       * insurance_multiplier (region_adj_of (region household)) / 12
  /\ Buying.current_home_value l = Buying.home_price e
  /\ Buying.income l = annual_income household
  /\ Buying.total_costs l = Buying.down_payment e + Buying.closing_costs e
  /\ Buying.defaulted l = false.
Proof. cbv zeta. repeat split; reflexivity. Qed.

(** The payment of a trial that enters, bounded without evaluating it. *)
Lemma start_mortgage_bounds (household : Household)
    (params : HousingScenarioParameters) (g : rng) :
  0 <= Buying.home_price (Buying.drawn_entry params household g)
       - Buying.down_payment (Buying.drawn_entry params household g) ->
  0 <= Buying.monthly_mortgage (Buying.start_locals household params g)
  /\ Buying.monthly_mortgage (Buying.start_locals household params g)
     <= (Buying.home_price (Buying.drawn_entry params household g)
         - Buying.down_payment (Buying.drawn_entry params household g))
        * (1 + Buying.drawn_rate params household g / 12).
Proof.
  intros HL.
  destruct (drawn_rate_bounds params (credit_score household) (advance 1 g))
    as [Hlo _].
  fold (Buying.drawn_rate params household g) in Hlo.
  pose proof (monthly_rate_pos _ Hlo) as Hr.
  destruct (start_locals_fields household params g) as (-> & _).
  rewrite (payment_is_amortized _ _ Hr).
  apply amortized_payment_bounds; assumption.
Qed.

(** The payment of a trial that enters, bounded by the first month's
    interest plus an even share of the loan. *)
Lemma start_mortgage_upper (household : Household)
    (params : HousingScenarioParameters) (g : rng) :
  0 <= Buying.home_price (Buying.drawn_entry params household g)
       - Buying.down_payment (Buying.drawn_entry params household g) ->
  0 <= Buying.monthly_mortgage (Buying.start_locals household params g)
  /\ Buying.monthly_mortgage (Buying.start_locals household params g)
     <= (Buying.home_price (Buying.drawn_entry params household g)
         - Buying.down_payment (Buying.drawn_entry params household g))
        * (Buying.drawn_rate params household g / 12 + 1 / 360).
Proof.
  intros HL.
  destruct (drawn_rate_bounds params (credit_score household) (advance 1 g))
    as [Hlo _].
  fold (Buying.drawn_rate params household g) in Hlo.
  pose proof (monthly_rate_pos _ Hlo) as Hr.
  destruct (start_locals_fields household params g) as (-> & _).
  rewrite (payment_is_amortized _ _ Hr).
  split.
  - apply amortized_payment_bounds; assumption.
  - apply amortized_payment_upper; assumption.
Qed.

Lemma slump_tape_ok : tape_ok slump_rng.
Proof.
  intros n. unfold cell_ok.
  do 40 (destruct n as [|n]; [cbn; repeat split; lra|]).
  cbn. repeat split; lra.
Qed.

Lemma slump_tape_in_range (n : nat) :
  -10 <= gauss (tape slump_rng n) /\ gauss (tape slump_rng n) <= 10.
Proof.
  do 40 (destruct n as [|n]; [cbn; split; lra|]).
  cbn. split; lra.
Qed.

(** The trial of the wealthy household on the slump generator: nine years
    are paid whatever the payment is, the home value being negative from
    year 1 on and the total monthly cost from year 5 on; in year 10 the
    home value is positive again, the cost exceeds half of the monthly
    income and the first default draw is below 0.3. *)
Lemma slump_trial :
  let c := fst (Buying.run_trial default_simulator wealthy_household
                  buy_premium_home 10 slump_rng) in
  Buying.default_occurred c = true
  /\ Buying.months_solvent c = 108%nat
  /\ Buying.total_paid c < -1500000
  /\ 200000 < Buying.final_equity c.
Proof.
  cbv zeta. rewrite TrialFacts.run_trial_run.
  assert (F : Buying.fails_entry wealthy_household
                (Buying.drawn_entry buy_premium_home wealthy_household
                   slump_rng) = false) by by_computation.
  rewrite F. cbv zeta. cbn [fst].
  set (e := Buying.drawn_entry buy_premium_home wealthy_household slump_rng).
  set (l0 := Buying.start_locals wealthy_household buy_premium_home
               slump_rng).
  set (g2 := advance 2 slump_rng).
  destruct (start_locals_fields wealthy_household buy_premium_home slump_rng)
    as (_ & L2 & L3 & L4 & L5 & L6).
  fold l0 e in L2, L3, L4, L5, L6.
  assert (HL : 0 <= Buying.home_price e - Buying.down_payment e)
    by le_by_computation.
  destruct (start_mortgage_upper wealthy_household buy_premium_home slump_rng
              HL) as [M0 M1].
  fold l0 e in M0, M1.
  assert (M2 : (Buying.home_price e - Buying.down_payment e)
               * (Buying.drawn_rate buy_premium_home wealthy_household
                    slump_rng / 12 + 1 / 360) <= 3313) by le_by_computation.
  assert (M3 : Buying.monthly_mortgage l0 <= 3313) by lra.
  assert (Hdc : Buying.down_payment e + Buying.closing_costs e == 126500)
    by by_computation.
  (* years 1 to 9 *)
  assert (H9 : Buying.affordable_within default_simulator buy_premium_home
                 3313 9 (Buying.current_home_value l0)
                 (Buying.monthly_insurance l0) (Buying.income l0) g2 = true).
  { rewrite L2, L3, L4. by_computation. }
  change 10%nat with (9 + 1)%nat.
  destruct (PathFacts.affordable_within_run default_simulator
              buy_premium_home 3313 9 1 l0 g2 L6 M0 M3 H9)
    as (l9 & -> & D9 & Mo9 & V9 & I9 & Inc9 & Mon9 & T9).
  rewrite L2, L3 in T9. rewrite L3 in V9. rewrite L2 in I9.
  rewrite L4 in Inc9. rewrite L5 in T9.
  set (E9 := Buying.extras_paid default_simulator buy_premium_home 9 _ _ g2)
    in *.
  assert (HE9 : E9 <= -188000) by le_by_computation.
  set (g38 := advance (4 * 9) g2).
  (* year 10 *)
  destruct (YearFacts.shocks_fields default_simulator buy_premium_home
              l9 g38) as (_ & _ & _ & _ & B5 & B6 & _ & B8 & B9).
  set (l10 := snd (fst (Buying.year_shocks default_simulator buy_premium_home
                          l9 g38))) in *.
  rewrite V9, I9, Mo9 in B8. rewrite Inc9 in B5.
  set (inc10 := Buying.shocked_income default_simulator _ g38) in *.
  set (X10 := Buying.shocked_extras default_simulator buy_premium_home
                _ _ g38) in *.
  assert (HX10 : 19000 <= X10) by le_by_computation.
  assert (Hinc10 : 0 < inc10 /\ inc10 <= 222100)
    by (split; [lt_by_computation | le_by_computation]).
  assert (R : ratio_le
                (fst (fst (Buying.year_shocks default_simulator
                             buy_premium_home l9 g38)))
                (affordability_threshold default_simulator) = false).
  { rewrite B9, B5, ratio_le_pos.
    - apply Qle_bool_false. cbn [affordability_threshold default_simulator].
      rewrite B8, Qdiv12. lra.
    - rewrite Qdiv12. lra. }
  assert (U : Qltb (unit01 (tape g38 (4 + cursor g38))) 0.3 = true)
    by by_computation.
  rewrite YearFacts.year_loop_body.
  rewrite (YearFacts.year_defaults default_simulator buy_premium_home l9 g38
             R U).
  fold l10.
  cbn [fst snd Buying.mark_default Buying.defaulted Buying.settle
       Buying.default_occurred Buying.final_equity Buying.total_paid
       Buying.months_solvent Buying.total_costs Buying.months_affordable].
  change (Buying.months_affordable l10) with (Buying.months_affordable l9).
  rewrite B6, Mon9, T9, Hdc.
  change (Qnat 9) with 9.
  split; [reflexivity|]. split; [reflexivity|]. split; lra.
Qed.

(** C4: the code breaks the claim.  The household below has non-negative
    monetary inputs and every variate of the generator is inside the range
    of its sampler, yet the trial ends with the default flag set and a
    positive final equity: the unclamped appreciation draw of year 1 takes
    the home value below zero, the negative monthly costs of the boom that
    follows count as affordable and drive the cumulative cost far below
    zero, and the penalty
    [-(down payment + closing costs + 0.2 * cumulative cost)] of the default
    of year 10 comes out positive.  The run of this single trial
    reports a probability of default of 1 and a probability of negative
    equity of 0. *)
Theorem defaulted_equity_positive_on_slump :
  0 <= annual_income wealthy_household
  /\ 0 <= savings wealthy_household
  /\ 0 <= current_monthly_rent wealthy_household
  /\ tape_ok slump_rng
  /\ (forall n : nat,
         -10 <= gauss (tape slump_rng n) /\ gauss (tape slump_rng n) <= 10)
  /\ Buying.default_occurred
       (fst (Buying.run_trial default_simulator wealthy_household
               buy_premium_home 10 slump_rng)) = true
  /\ 200000 < Buying.final_equity
                (fst (Buying.run_trial default_simulator wealthy_household
                        buy_premium_home 10 slump_rng))
  /\ exists b : Buying.result,
       fst (simulate_buying default_simulator wealthy_household
              "Buy Premium Home" 1 10 slump_rng) = Ok b
       /\ Buying.r_probability_default b == 1
       /\ Buying.r_probability_negative_equity b == 0.
Proof.
  destruct slump_trial as (D & _ & _ & E). cbv zeta in D, E.
  split; [cbn; lra|]. split; [cbn; lra|]. split; [cbn; lra|].
  split; [exact slump_tape_ok|]. split; [exact slump_tape_in_range|].
  split; [exact D|]. split; [exact E|].
  eexists. split.
  { apply (simulate_buying_run _ _ _ buy_premium_home). by_computation. }
  rewrite replicate_rand_S. cbn [fst replicate_rand ret].
  set (c := fst (Buying.run_trial default_simulator wealthy_household
                   buy_premium_home 10 slump_rng)) in *.
  unfold Buying.aggregate.
  cbn [Buying.r_probability_default Buying.r_probability_negative_equity map].
  rewrite D.
  assert (N : Qltb (Buying.final_equity c) 0 = false)
    by (apply Qltb_false; lra).
  rewrite N. split; by_computation.
Qed.

(** ** Cumulative cost along a timeline trial *)

Module PaidFacts.
Import Timeline TimelineFacts TrialFacts.

Lemma pay_months_paid (n : nat) (rate mortgage total balance cumulative : Q) :
  snd (pay_months n rate mortgage total balance cumulative)
  == cumulative + Qnat n * total.
Proof.
  revert balance cumulative. induction n as [|n IH];
    intros balance cumulative.
  - cbn [pay_months snd]. unfold Qnat. cbn. ring.
  - cbn [pay_months]. rewrite IH.
    unfold Qnat. rewrite Nat2Z.inj_succ, <- Z.add_1_r, inject_Z_plus.
    ring.
Qed.

(** A list whose entries are all at least [a] can follow [a]. *)
Lemma HdRel_of_Forall (a : Q) (l : list Q) :
  Forall (fun x => a <= x) l -> HdRel Qle a l.
Proof. intros H. destruct H; constructor; assumption. Qed.

Lemma Forall_weaken (a b : Q) (l : list Q) :
  a <= b -> Forall (fun x => b <= x) l -> Forall (fun x => a <= x) l.
Proof.
  intros Hab H. induction H; constructor; [lra | assumption].
Qed.

Lemma Sorted_repeat (a : Q) (n : nat) : Sorted Qle (repeat a n).
Proof.
  induction n as [|n IH]; [constructor|].
  cbn [repeat]. constructor; [exact IH|].
  destruct n; constructor. lra.
Qed.

Lemma rent_years_step (self : MonteCarloHousingSimulator) (k : nat)
    (rent income cumulative : Q) (g : rng) :
  rent_years self (S k) rent income cumulative g
  = let rent' := rent * (1 + fst (Sampler.triangular 0.03 0.05 0.10 g)) in
    let income' := Buying.shocked_income self income (advance 1 g) in
    let rest := rent_years self k rent' income' (cumulative + rent' * 12)
                  (advance 2 g) in
    ({| equity := 0; cost := rent'; paid := cumulative + rent' * 12 |}
       :: fst rest,
     snd rest).
Proof.
  cbn [rent_years]. repeat (rewrite bind_run; cbn beta). reflexivity.
Qed.

Lemma rent_years_sorted (self : MonteCarloHousingSimulator) (k : nat)
    (rent income cumulative : Q) (g : rng) :
  tape_ok g -> 0 <= rent ->
  Forall (fun x => cumulative <= x)
    (map paid (fst (rent_years self k rent income cumulative g)))
  /\ Sorted Qle (map paid (fst (rent_years self k rent income cumulative g)))
  /\ Forall (fun p => equity p = 0)
       (fst (rent_years self k rent income cumulative g)).
Proof.
  intros Ht. revert rent income cumulative g Ht.
  induction k as [|k IH]; intros rent income cumulative g Ht Hr.
  - cbn. repeat split; constructor.
  - rewrite rent_years_step. cbv zeta. cbn [fst map paid].
    assert (B : 0.03 <= 0.05 /\ 0.05 <= 0.10) by (split; lra).
    destruct B as [B1 B2].
    destruct (triangular_bounds 0.03 0.05 0.10 g B1 B2 (Ht _)) as [T1 _].
    set (t := fst (Sampler.triangular 0.03 0.05 0.10 g)) in *.
    assert (Hr' : 0 <= rent * (1 + t))
      by (apply Qmult_le_0_compat; lra).
    destruct (IH (rent * (1 + t))
                (Buying.shocked_income self income (advance 1 g))
                (cumulative + rent * (1 + t) * 12) (advance 2 g)
                (tape_ok_advance 2 g Ht) Hr') as (F & S & E).
    split; [|split].
    + constructor; [lra|]. eapply Forall_weaken; [|exact F]. lra.
    + constructor; [exact S | apply HdRel_of_Forall; exact F].
    + constructor; [reflexivity | exact E].
Qed.

Lemma buy_years_step (self : MonteCarloHousingSimulator)
    (params : HousingScenarioParameters) (k : nat)
    (rate mortgage insurance value balance income cumulative : Q) (g : rng) :
  buy_years self params (S k) rate mortgage insurance value balance income
    cumulative g
  = let value' := Buying.shocked_value params value g in
    let insurance' := Buying.shocked_insurance self insurance g in
    let total :=
      mortgage + value' * property_tax_rate params / 12 + insurance'
      + hoa_monthly params + value' * maintenance_annual_pct params / 12 in
    let bc := pay_months 12 rate mortgage total balance cumulative in
    let rest :=
      buy_years self params k rate mortgage insurance' value' (fst bc)
        (Buying.shocked_income self income g) (snd bc) (advance 3 g) in
    ({| equity := value' - py_max 0 (fst bc); cost := total;
        paid := snd bc |} :: fst rest,
     snd rest).
Proof.
  cbn [buy_years]. repeat (rewrite bind_run; cbn beta).
  cbv zeta.
  match goal with |- context [pay_months 12 ?a ?b ?c ?d ?e] =>
    destruct (pay_months 12 a b c d e) as [b' c'] eqn:E end.
  repeat (rewrite bind_run; cbn beta).
  change (Buying.shocked_value params value g)
    with (value * (1 + fst (Sampler.normal (appreciation_mean params)
                              (appreciation_std params) (advance 1 g)))).
  unfold Buying.shocked_insurance, Buying.shocked_income.
  change (income_growth self + 0.08 * gauss (tape g (cursor g)))
    with (fst (Sampler.normal (income_growth self) 0.08 g)).
  cbn [fst snd] in E |- *.
  match type of E with ?x = _ =>
    match goal with |- context [pay_months 12 ?a ?b ?c ?d ?e] =>
      change (pay_months 12 a b c d e) with x end end.
  rewrite E. reflexivity.
Qed.

End PaidFacts.

Module SortedFacts.
Import Timeline TimelineFacts TrialFacts PaidFacts.

Lemma buy_years_sorted (self : MonteCarloHousingSimulator)
    (params : HousingScenarioParameters) (k : nat)
    (rate mortgage insurance value balance income cumulative : Q) (g : rng) :
  params_ok params -> tape_ok g -> appreciation_ok params g ->
  0 <= mortgage -> 0 <= insurance -> 0 <= value ->
  Forall (fun x => cumulative <= x)
    (map paid (fst (buy_years self params k rate mortgage insurance value
                      balance income cumulative g)))
  /\ Sorted Qle
       (map paid (fst (buy_years self params k rate mortgage insurance value
                         balance income cumulative g))).
Proof.
  intros Hp Ht Ha Hm. revert insurance value balance income cumulative g Ht Ha.
  induction k as [|k IH];
    intros insurance value balance income cumulative g Ht Ha Hi Hv.
  - cbn. split; constructor.
  - rewrite buy_years_step. cbv zeta. cbn [fst map paid].
    destruct Hp as (Q1 & Q2 & Q3 & Q4 & Q5 & Q6 & Q7 & Q8 & Q9).
    assert (Hp : params_ok params) by (repeat split; assumption).
    assert (Hclip : 0.03 <= np_clip (insurance_increase self) 0.03 0.12
                    /\ np_clip (insurance_increase self) 0.03 0.12 <= 0.12)
      by (apply np_clip_bounds; lra).
    destruct Hclip as [K1 K2].
    destruct (triangular_bounds 0.03 _ 0.12 (advance 2 g) K1 K2 (Ht _))
      as [T1 _].
    assert (Hv' : 0 <= Buying.shocked_value params value g)
      by (apply Qmult_le_0_compat; [exact Hv | apply Ha]).
    assert (Hi' : 0 <= Buying.shocked_insurance self insurance g)
      by (apply Qmult_le_0_compat; [exact Hi | lra]).
    set (v := Buying.shocked_value params value g) in *.
    set (i := Buying.shocked_insurance self insurance g) in *.
    assert (X1 : 0 <= v * property_tax_rate params)
      by (apply Qmult_le_0_compat; assumption).
    assert (X2 : 0 <= v * maintenance_annual_pct params)
      by (apply Qmult_le_0_compat; assumption).
    set (total := mortgage + v * property_tax_rate params / 12 + i
                  + hoa_monthly params
                  + v * maintenance_annual_pct params / 12).
    assert (Htot : 0 <= total) by (unfold total; rewrite !Qdiv12; lra).
    pose proof (pay_months_paid 12 rate mortgage total balance cumulative)
      as Hpaid.
    change (Qnat 12) with 12 in Hpaid.
    set (bc := pay_months 12 rate mortgage total balance cumulative) in *.
    destruct (IH i v (fst bc) (Buying.shocked_income self income g)
                (snd bc) (advance 3 g) (tape_ok_advance 3 g Ht) Ha Hi' Hv')
      as [F S].
    split.
    + constructor; [lra|]. eapply Forall_weaken; [|exact F]. lra.
    + constructor; [exact S | apply HdRel_of_Forall; exact F].
Qed.

Lemma entered_row_sorted (self : MonteCarloHousingSimulator)
    (household : Household) (params : HousingScenarioParameters)
    (years : nat) (g : rng) :
  params_ok params -> tape_ok g -> appreciation_ok params g ->
  Sorted Qle
    (map paid (year0_point household params g
                 :: fst (later_years self household params years g))).
Proof.
  intros Hp Ht Ha.
  destruct (CostFacts.start_locals_ok household params g Hp (Ht _))
    as ((C1 & C2 & C3) & _).
  destruct (buy_years_sorted self params years
              (Buying.drawn_rate params household g)
              (Buying.monthly_mortgage (Buying.start_locals household params g))
              (Buying.monthly_insurance (Buying.start_locals household params g))
              (Buying.current_home_value (Buying.start_locals household params g))
              (Buying.home_price (Buying.drawn_entry params household g)
               - Buying.down_payment (Buying.drawn_entry params household g))
              (annual_income household)
              (Buying.down_payment (Buying.drawn_entry params household g)
               + Buying.closing_costs (Buying.drawn_entry params household g))
              (advance 2 g) Hp (tape_ok_advance 2 g Ht) Ha C1 C2 C3)
    as [F S].
  cbn [map paid year0_point]. constructor; [exact S|].
  apply HdRel_of_Forall. exact F.
Qed.

(** The same with the proviso on the trial's own appreciation draws: year
    [j + 1] of a trial whose years start on [g] reads its appreciation from
    cell [3 * j + 1] after the cursor. *)
Lemma buy_years_sorted_draws (self : MonteCarloHousingSimulator)
    (params : HousingScenarioParameters) (k : nat)
    (rate mortgage insurance value balance income cumulative : Q) (g : rng) :
  params_ok params -> tape_ok g ->
  (forall j : nat,
      (j < k)%nat ->
      0 <= 1 + (appreciation_mean params
                + appreciation_std params
                  * gauss (tape g (S (3 * j + cursor g))))) ->
  0 <= mortgage -> 0 <= insurance -> 0 <= value ->
  Forall (fun x => cumulative <= x)
    (map paid (fst (buy_years self params k rate mortgage insurance value
                      balance income cumulative g)))
  /\ Sorted Qle
       (map paid (fst (buy_years self params k rate mortgage insurance value
                         balance income cumulative g))).
Proof.
  intros Hp Ht Ha Hm. revert insurance value balance income cumulative g Ht Ha.
  induction k as [|k IH];
    intros insurance value balance income cumulative g Ht Ha Hi Hv.
  - cbn. split; constructor.
  - rewrite buy_years_step. cbv zeta. cbn [fst map paid].
    destruct Hp as (Q1 & Q2 & Q3 & Q4 & Q5 & Q6 & Q7 & Q8 & Q9).
    assert (Hp : params_ok params) by (repeat split; assumption).
    assert (Hclip : 0.03 <= np_clip (insurance_increase self) 0.03 0.12
                    /\ np_clip (insurance_increase self) 0.03 0.12 <= 0.12)
      by (apply np_clip_bounds; lra).
    destruct Hclip as [K1 K2].
    destruct (triangular_bounds 0.03 _ 0.12 (advance 2 g) K1 K2 (Ht _))
      as [T1 _].
    assert (Hv' : 0 <= Buying.shocked_value params value g)
      by (apply Qmult_le_0_compat; [exact Hv | apply (Ha 0%nat); lia]).
    assert (Hi' : 0 <= Buying.shocked_insurance self insurance g)
      by (apply Qmult_le_0_compat; [exact Hi | lra]).
    set (v := Buying.shocked_value params value g) in *.
    set (i := Buying.shocked_insurance self insurance g) in *.
    assert (X1 : 0 <= v * property_tax_rate params)
      by (apply Qmult_le_0_compat; assumption).
    assert (X2 : 0 <= v * maintenance_annual_pct params)
      by (apply Qmult_le_0_compat; assumption).
    set (total := mortgage + v * property_tax_rate params / 12 + i
                  + hoa_monthly params
                  + v * maintenance_annual_pct params / 12).
    assert (Htot : 0 <= total) by (unfold total; rewrite !Qdiv12; lra).
    pose proof (pay_months_paid 12 rate mortgage total balance cumulative)
      as Hpaid.
    change (Qnat 12) with 12 in Hpaid.
    set (bc := pay_months 12 rate mortgage total balance cumulative) in *.
    assert (Ha' : forall j : nat,
               (j < k)%nat ->
               0 <= 1 + (appreciation_mean params
                         + appreciation_std params
                           * gauss (tape (advance 3 g)
                                      (S (3 * j + cursor (advance 3 g)))))).
    { intros j Hj. cbn [advance tape cursor].
      replace (3 * j + (3 + cursor g))%nat with (3 * S j + cursor g)%nat
        by lia.
      apply Ha. lia. }
    destruct (IH i v (fst bc) (Buying.shocked_income self income g)
                (snd bc) (advance 3 g) (tape_ok_advance 3 g Ht) Ha' Hi' Hv')
      as [F S].
    split.
    + constructor; [lra|]. eapply Forall_weaken; [|exact F]. lra.
    + constructor; [exact S | apply HdRel_of_Forall; exact F].
Qed.

Lemma entered_row_sorted_draws (self : MonteCarloHousingSimulator)
    (household : Household) (params : HousingScenarioParameters)
    (years : nat) (g : rng) :
  params_ok params -> tape_ok g -> appreciation_draws_ok params years g ->
  Sorted Qle
    (map paid (year0_point household params g
                 :: fst (later_years self household params years g))).
Proof.
  intros Hp Ht Ha.
  destruct (CostFacts.start_locals_ok household params g Hp (Ht _))
    as ((C1 & C2 & C3) & _).
  destruct (buy_years_sorted_draws self params years
              (Buying.drawn_rate params household g)
              (Buying.monthly_mortgage (Buying.start_locals household params g))
              (Buying.monthly_insurance (Buying.start_locals household params g))
              (Buying.current_home_value (Buying.start_locals household params g))
              (Buying.home_price (Buying.drawn_entry params household g)
               - Buying.down_payment (Buying.drawn_entry params household g))
              (annual_income household)
              (Buying.down_payment (Buying.drawn_entry params household g)
               + Buying.closing_costs (Buying.drawn_entry params household g))
              (advance 2 g) Hp (tape_ok_advance 2 g Ht))
    as [F S]; try assumption.
  { intros j Hj. pose proof (Ha j Hj) as A.
    unfold drawn_appreciation in A. cbn [advance tape cursor]. lra. }
  cbn [map paid year0_point]. constructor; [exact S|].
  apply HdRel_of_Forall. exact F.
Qed.

End SortedFacts.

(** ** Timeline continuity (C5) *)

(** C5, as the code has it.  The year-0 equity of a timeline trial is 0 for
    renting and the down payment for a buying trial that passes the savings
    gate; a buying trial that fails the gate stores the same point for every
    year, with equity [-min(savings, closing costs)].  The cumulative-cost
    series never decreases: for a renting trial when the rent is not
    negative and the variates are in the range of their distribution; for
    a failed entry always; for a buying trial that enters when the variates
    are in range and none of its appreciation draws is below -100 % (its
    home values stay non-negative). *)
Theorem timeline_continuity
    (self : MonteCarloHousingSimulator) (household : Household)
    (name : string) (params : HousingScenarioParameters) (years : nat)
    (g : rng) :
  scenarios !! name = Some params ->
  let row := fst (Timeline.run_trial self household name params years g) in
  let e := Buying.drawn_entry params household g in
  (name = "Keep Renting" ->
   (exists (p : Timeline.point) (rest : list Timeline.point),
       row = p :: rest /\ Timeline.equity p = 0)
   /\ (0 <= current_monthly_rent household -> tape_ok g ->
       Sorted Qle (map Timeline.paid row)))
  /\ (name <> "Keep Renting" ->
      Buying.fails_entry household e = true ->
      row = repeat (Timeline.failed_point household params g) (years + 1)
      /\ Timeline.equity (Timeline.failed_point household params g)
         == - Qmin (savings household) (Buying.closing_costs e)
      /\ Sorted Qle (map Timeline.paid row))
  /\ (name <> "Keep Renting" ->
      Buying.fails_entry household e = false ->
      (exists (p : Timeline.point) (rest : list Timeline.point),
          row = p :: rest
          /\ Timeline.equity p = Buying.down_payment e)
      /\ (tape_ok g -> Timeline.appreciation_draws_ok params years g ->
          Sorted Qle (map Timeline.paid row))).
Proof.
  intros Hlook. cbv zeta.
  pose proof (catalog_params_ok _ _ Hlook) as Hp.
  split; [|split].
  - intros ->. unfold Timeline.run_trial. cbn [String.eqb Ascii.eqb Bool.eqb].
    unfold Timeline.rent_trial. rewrite bind_run. cbn [fst ret].
    split.
    + eexists. eexists. split; reflexivity.
    + intros Hrent Ht.
      destruct (PaidFacts.rent_years_sorted self years
                  (current_monthly_rent household) (annual_income household)
                  0 g Ht Hrent) as (F & S & _).
      cbn [map Timeline.paid]. constructor; [exact S|].
      apply PaidFacts.HdRel_of_Forall. exact F.
  - intros Hne F. unfold Timeline.run_trial.
    destruct (String.eqb_spec name "Keep Renting") as [E | _];
      [contradiction|].
    rewrite TimelineFacts.buy_trial_run, F. cbn [fst].
    split; [reflexivity|]. split.
    + unfold Timeline.failed_point. cbn [Timeline.equity].
      rewrite py_min_Qmin. reflexivity.
    + rewrite map_repeat. apply PaidFacts.Sorted_repeat.
  - intros Hne F. unfold Timeline.run_trial.
    destruct (String.eqb_spec name "Keep Renting") as [E | _];
      [contradiction|].
    rewrite TimelineFacts.buy_trial_run, F. cbn [fst].
    split.
    + eexists. eexists. split; reflexivity.
    + intros Ht Ha. apply SortedFacts.entered_row_sorted_draws; assumption.
Qed.

Lemma flat_tape_ok : tape_ok flat_rng.
Proof. intros n. unfold cell_ok. cbn. repeat split; lra. Qed.

Lemma timeline_continuity_witness :
  Sorted Qle
    (map Timeline.paid
       (fst (Timeline.run_trial default_simulator comfortable_household
               "Buy Starter Home" buy_starter_home 10 flat_rng))).
Proof.
  assert (H1 : scenarios !! "Buy Starter Home" = Some buy_starter_home)
    by (vm_compute; reflexivity).
  destruct (timeline_continuity default_simulator comfortable_household
              "Buy Starter Home" buy_starter_home 10 flat_rng H1)
    as (_ & _ & C).
  assert (H3 : "Buy Starter Home" <> "Keep Renting") by discriminate.
  assert (H4 : Buying.fails_entry comfortable_household
                 (Buying.drawn_entry buy_starter_home
                    comfortable_household flat_rng) = false)
    by (vm_compute; reflexivity).
  assert (H5 : Timeline.appreciation_draws_ok buy_starter_home 10 flat_rng)
    by (intros k _; unfold Timeline.drawn_appreciation; cbn; lra).
  exact (proj2 (C H3 H4) flat_tape_ok H5).
Defined.

Lemma timeline_slump_tape_ok : tape_ok timeline_slump_rng.
Proof.
  intros n. unfold cell_ok.
  do 16 (destruct n as [|n]; [cbn; repeat split; lra|]).
  cbn. repeat split; lra.
Qed.

Lemma timeline_slump_tape_in_range (n : nat) :
  -10 <= gauss (tape timeline_slump_rng n)
  /\ gauss (tape timeline_slump_rng n) <= 10.
Proof.
  do 16 (destruct n as [|n]; [cbn; split; lra|]).
  cbn. split; lra.
Qed.

(** The sentence of the specification fails twice.  A trial that fails the
    savings gate starts at a negative equity, not at the down payment.  And
    on a generator whose variates are all inside the range of their sampler
    the appreciation draw of year 1 takes the home value of a premium home
    below zero; four years of a boom later the property tax and the
    maintenance outweigh the payment, the total monthly cost is negative
    and the cumulative cost of year 5 is below that of year 4. *)
Lemma timeline_continuity_counterexample :
  (exists (p : Timeline.point) (rest : list Timeline.point),
      fst (Timeline.run_trial default_simulator sample_household
             "Buy Starter Home" buy_starter_home 2 flat_rng) = p :: rest
      /\ Timeline.equity p == -5000
      /\ Buying.down_payment
           (Buying.drawn_entry buy_starter_home sample_household flat_rng)
         == 10500)
  /\ 0 <= annual_income wealthy_household
  /\ 0 <= savings wealthy_household
  /\ 0 <= current_monthly_rent wealthy_household
  /\ tape_ok timeline_slump_rng
  /\ (forall n : nat,
         -10 <= gauss (tape timeline_slump_rng n)
         /\ gauss (tape timeline_slump_rng n) <= 10)
  /\ ~ Sorted Qle
         (map Timeline.paid
            (fst (Timeline.run_trial default_simulator wealthy_household
                    "Buy Premium Home" buy_premium_home 5
                    timeline_slump_rng))).
Proof.
  split.
  { change (Timeline.run_trial default_simulator sample_household
              "Buy Starter Home" buy_starter_home 2 flat_rng)
      with (Timeline.buy_trial default_simulator sample_household
              buy_starter_home 2 flat_rng).
    rewrite TimelineFacts.buy_trial_run.
    assert (F : Buying.fails_entry sample_household
                  (Buying.drawn_entry buy_starter_home sample_household
                     flat_rng) = true) by by_computation.
    rewrite F. cbn [fst Nat.add repeat].
    eexists. eexists. split; [reflexivity|].
    split; by_computation. }
  split; [cbn; lra|]. split; [cbn; lra|]. split; [cbn; lra|].
  split; [exact timeline_slump_tape_ok|].
  split; [exact timeline_slump_tape_in_range|].
  change (Timeline.run_trial default_simulator wealthy_household
            "Buy Premium Home" buy_premium_home 5 timeline_slump_rng)
    with (Timeline.buy_trial default_simulator wealthy_household
            buy_premium_home 5 timeline_slump_rng).
  rewrite TimelineFacts.buy_trial_run.
  assert (F : Buying.fails_entry wealthy_household
                (Buying.drawn_entry buy_premium_home wealthy_household
                   timeline_slump_rng) = false) by by_computation.
  rewrite F. cbn [fst].
  set (e := Buying.drawn_entry buy_premium_home wealthy_household
              timeline_slump_rng).
  assert (HL : 0 <= Buying.home_price e - Buying.down_payment e)
    by le_by_computation.
  destruct (start_mortgage_upper wealthy_household buy_premium_home
              timeline_slump_rng HL) as [M0 M1].
  fold e in M1.
  assert (M2 : (Buying.home_price e - Buying.down_payment e)
               * (Buying.drawn_rate buy_premium_home wealthy_household
                    timeline_slump_rng / 12 + 1 / 360) <= 3313)
    by le_by_computation.
  change (Buying.monthly_mortgage
            (Buying.start_locals wealthy_household buy_premium_home
               timeline_slump_rng))
    with (monthly_mortgage_payment
            (Buying.home_price e - Buying.down_payment e)
            (Buying.drawn_rate buy_premium_home wealthy_household
               timeline_slump_rng / 12)) in M0, M1.
  unfold Timeline.later_years. fold e.
  set (M := monthly_mortgage_payment _ _) in *.
  set (rate := Buying.drawn_rate buy_premium_home wealthy_household
                 timeline_slump_rng).
  do 5 (rewrite PaidFacts.buy_years_step; cbv zeta; cbn [fst snd]).
  cbn [map Timeline.paid].
  rewrite !advance_advance. cbn [Nat.add].
  set (g2 := advance 2 timeline_slump_rng).
  set (g5 := advance 5 timeline_slump_rng).
  set (g8 := advance 8 timeline_slump_rng).
  set (g11 := advance 11 timeline_slump_rng).
  set (g14 := advance 14 timeline_slump_rng).
  set (V1 := Buying.shocked_value buy_premium_home (Buying.home_price e) g2).
  set (V2 := Buying.shocked_value buy_premium_home V1 g5).
  set (V3 := Buying.shocked_value buy_premium_home V2 g8).
  set (V4 := Buying.shocked_value buy_premium_home V3 g11).
  set (V5 := Buying.shocked_value buy_premium_home V4 g14).
  set (I1 := Buying.shocked_insurance default_simulator _ g2).
  set (I2 := Buying.shocked_insurance default_simulator I1 g5).
  set (I3 := Buying.shocked_insurance default_simulator I2 g8).
  set (I4 := Buying.shocked_insurance default_simulator I3 g11).
  set (I5 := Buying.shocked_insurance default_simulator I4 g14).
  assert (HX : V5 * property_tax_rate buy_premium_home / 12 + I5
               + hoa_monthly buy_premium_home
               + V5 * maintenance_annual_pct buy_premium_home / 12
               <= -3400) by le_by_computation.
  match goal with
  | |- context [Timeline.pay_months 12 rate M
                  (M + V5 * property_tax_rate buy_premium_home / 12 + I5
                   + hoa_monthly buy_premium_home
                   + V5 * maintenance_annual_pct buy_premium_home / 12)
                  ?b ?c] =>
      pose proof (PaidFacts.pay_months_paid 12 rate M
                    (M + V5 * property_tax_rate buy_premium_home / 12 + I5
                     + hoa_monthly buy_premium_home
                     + V5 * maintenance_annual_pct buy_premium_home / 12)
                    b c) as Hpaid
  end.
  change (Qnat 12) with 12 in Hpaid.
  intros S.
  do 4 (apply Sorted_inv in S as [S _]).
  apply Sorted_inv in S as [_ H]. apply HdRel_inv in H.
  lra.
Qed.

(** ** Aggregation of the buying trials (C1) *)

Module AggregateFacts.
Import Buying.

Lemma select_survivors (f : cells -> Q) (trials : list cells) :
  select (map f trials) (map negb (map default_occurred trials))
  = map f (survivors trials).
Proof.
  induction trials as [|c trials IH]; [reflexivity|].
  cbn [map select survivors List.filter]. fold (survivors trials).
  destruct (negb (default_occurred c)); cbn [map]; rewrite IH; reflexivity.
Qed.

Lemma count_survivors (trials : list cells) :
  count_true (map negb (map default_occurred trials))
  = length (survivors trials).
Proof.
  induction trials as [|c trials IH]; [reflexivity|].
  cbn [map survivors List.filter]. fold (survivors trials).
  rewrite count_true_cons, IH.
  destruct (negb (default_occurred c)); reflexivity.
Qed.

Lemma some_survivor (trials : list cells) :
  Nat.ltb 0 (count_true (map negb (map default_occurred trials)))
  = match survivors trials with [] => false | _ => true end.
Proof.
  rewrite count_survivors. destruct (survivors trials); reflexivity.
Qed.

End AggregateFacts.

(** The monthly-cost summary of [Buying.aggregate] in terms of the
    surviving trials. *)
Lemma monthly_cost_summary
    (household : Household) (scenario_name : string)
    (num_simulations time_horizon_years : nat) (trials : list Buying.cells) :
  Buying.r_final_monthly_cost
    (Buying.aggregate household scenario_name num_simulations
       time_horizon_years trials)
  = Buying.survivor_summary Buying.monthly_costs trials.
Proof.
  unfold Buying.aggregate. cbn [Buying.r_final_monthly_cost].
  rewrite AggregateFacts.some_survivor, !AggregateFacts.select_survivors.
  unfold Buying.survivor_summary.
  destruct (Buying.survivors trials); reflexivity.
Qed.

(** C1, as the code has it.  The equity mean and median are taken over the
    non-defaulted trials, or over all trials when none survives, and the
    equity percentile bands over all trials.  The monthly-cost mean, median
    and percentile bands are all taken over the non-defaulted trials, and
    are 0 when none survives.  The total-cost statistics use all trials. *)
Theorem aggregation_subsets
    (household : Household) (scenario_name : string)
    (num_simulations time_horizon_years : nat) (trials : list Buying.cells) :
  Buying.r_equity_built
    (Buying.aggregate household scenario_name num_simulations
       time_horizon_years trials)
  = Buying.claimed_summary Buying.final_equity trials
  /\ Buying.r_final_monthly_cost
       (Buying.aggregate household scenario_name num_simulations
          time_horizon_years trials)
     = Buying.survivor_summary Buying.monthly_costs trials
  /\ Buying.mm_mean
       (Buying.r_initial_monthly_cost
          (Buying.aggregate household scenario_name num_simulations
             time_horizon_years trials))
     = mean (Buying.survivor_summary Buying.monthly_costs trials)
  /\ Buying.mm_median
       (Buying.r_initial_monthly_cost
          (Buying.aggregate household scenario_name num_simulations
             time_horizon_years trials))
     = median (Buying.survivor_summary Buying.monthly_costs trials)
  /\ Buying.r_total_cost_paid
       (Buying.aggregate household scenario_name num_simulations
          time_horizon_years trials)
     = summarize (map Buying.total_paid trials).
Proof.
  unfold Buying.aggregate.
  cbn [Buying.r_equity_built Buying.r_final_monthly_cost
       Buying.r_initial_monthly_cost Buying.r_total_cost_paid
       Buying.mm_mean Buying.mm_median].
  rewrite AggregateFacts.some_survivor, !AggregateFacts.select_survivors.
  unfold Buying.claimed_summary, Buying.survivor_summary.
  destruct (Buying.survivors trials); repeat split; reflexivity.
Qed.

(** The single trial of the run below defaults in its first month. *)
Lemma zero_income_trial :
  exists l : Buying.locals,
    fst (Buying.run_trial default_simulator zero_income_household
           buy_starter_home 1 flat_rng)
    = Buying.settle
        (Buying.drawn_entry buy_starter_home zero_income_household
           flat_rng)
        (Buying.mark_default l)
    /\ 150 <= Buying.total_monthly l.
Proof.
  rewrite TrialFacts.run_trial_run.
  assert (F : Buying.fails_entry zero_income_household
                (Buying.drawn_entry buy_starter_home
                   zero_income_household flat_rng) = false)
    by by_computation.
  rewrite F. cbv zeta. cbn [fst].
  set (l0 := Buying.start_locals zero_income_household buy_starter_home
               flat_rng).
  set (g2 := advance 2 flat_rng).
  assert (Hp : params_ok buy_starter_home)
    by (apply (catalog_params_ok "Buy Starter Home"); by_computation).
  assert (Ha : appreciation_ok buy_starter_home g2)
    by (intros n; cbn; lra).
  destruct (CostFacts.start_locals_ok zero_income_household buy_starter_home
              flat_rng Hp (flat_tape_ok _)) as (C & _).
  fold l0 in C.
  destruct (CostFacts.shocks_ok default_simulator buy_starter_home l0 g2 Hp
              (tape_ok_advance 2 _ flat_tape_ok) Ha C) as (_ & S2 & _).
  destruct (YearFacts.shocks_fields default_simulator buy_starter_home l0 g2)
    as (_ & _ & _ & _ & A5 & _ & _ & _ & A9).
  set (l1 := snd (fst (Buying.year_shocks default_simulator buy_starter_home
                         l0 g2))) in *.
  change (hoa_monthly buy_starter_home) with 150 in S2.
  change (Buying.income l0) with (annual_income zero_income_household) in A5.
  assert (Hinc : Buying.shocked_income default_simulator
                   (annual_income zero_income_household) g2 / 12 == 0)
    by by_computation.
  assert (R : ratio_le
                (fst (fst (Buying.year_shocks default_simulator
                             buy_starter_home l0 g2)))
                (affordability_threshold default_simulator) = false).
  { rewrite A9, A5. apply ratio_le_zero_divisor; [exact Hinc | lra]. }
  assert (U : Qltb (unit01 (tape g2 (4 + cursor g2))) 0.3 = true)
    by by_computation.
  rewrite YearFacts.year_loop_body.
  rewrite (YearFacts.year_defaults default_simulator buy_starter_home l0 g2
             R U).
  fold l1. cbn [fst snd Buying.mark_default Buying.defaulted].
  exists l1. split; [reflexivity | exact S2].
Qed.

(** The sentence of the specification fails for the monthly cost: in a run
    whose only trial defaults after entering, the code reports 0 for the
    mean and for the 5th percentile, while the mean and the percentile over
    the full trial set are the trial's positive monthly cost. *)
Lemma aggregation_subsets_counterexample :
  exists r : Buying.result,
    fst (simulate_buying default_simulator zero_income_household
           "Buy Starter Home" 1 1 flat_rng) = Ok r
    /\ ~ mean (Buying.r_final_monthly_cost r)
         == mean (Buying.claimed_summary Buying.monthly_costs
                    (fst (replicate_rand 1
                            (Buying.run_trial default_simulator
                               zero_income_household buy_starter_home 1)
                            flat_rng)))
    /\ ~ percentile_5 (Buying.r_final_monthly_cost r)
         == percentile_5
              (Buying.claimed_summary Buying.monthly_costs
                 (fst (replicate_rand 1
                         (Buying.run_trial default_simulator
                            zero_income_household buy_starter_home 1)
                         flat_rng))).
Proof.
  eexists. split.
  { apply (simulate_buying_run _ _ _ buy_starter_home). by_computation. }
  rewrite monthly_cost_summary.
  rewrite replicate_rand_S. cbn [fst replicate_rand ret].
  destruct zero_income_trial as (l & -> & Hl).
  unfold Buying.survivor_summary, Buying.claimed_summary.
  cbn [Buying.survivors List.filter Buying.settle
       Buying.default_occurred Buying.mark_default Buying.defaulted negb
       map Buying.monthly_costs Buying.total_monthly mean percentile_5].
  unfold np_mean, np_percentile.
  cbn [np_sum foldr length np_sort insert_sorted].
  change (Z.to_nat (Qfloor (5 / 100 * (Qnat 1 - 1)))) with 0%nat.
  cbn [Nat.add Nat.sub Nat.min nth].
  change (Qnat 1) with 1. change (Qnat 0) with 0.
  split; intros E.
  - assert (E' : Buying.total_monthly l == 0).
    { rewrite E. field. }
    lra.
  - assert (E' : Buying.total_monthly l == 0).
    { rewrite E. ring. }
    lra.
Qed.

(** ** Months solvent (C9) *)

(** The first simulated year of two sample households, renting: the sample
    household can pay the raised rent, the indebted one cannot. *)
Lemma sample_rent_year_affordable :
  ratio_le
    (np_div
       (Renting.next_rent
          {| Renting.rent := current_monthly_rent sample_household;
             Renting.total_cost := 0;
             Renting.months_affordable := 0;
             Renting.income := annual_income sample_household |} flat_rng)
       (Renting.next_income default_simulator
          {| Renting.rent := current_monthly_rent sample_household;
             Renting.total_cost := 0;
             Renting.months_affordable := 0;
             Renting.income := annual_income sample_household |} flat_rng
        / 12)) 0.35 = true.
Proof. by_computation. Qed.

Lemma indebted_rent_year_unaffordable :
  ratio_le
    (np_div
       (Renting.next_rent
          {| Renting.rent := current_monthly_rent indebted_household;
             Renting.total_cost := 0;
             Renting.months_affordable := 0;
             Renting.income := annual_income indebted_household |} flat_rng)
       (Renting.next_income default_simulator
          {| Renting.rent := current_monthly_rent indebted_household;
             Renting.total_cost := 0;
             Renting.months_affordable := 0;
             Renting.income := annual_income indebted_household |} flat_rng
        / 12)) 0.35 = false.
Proof. by_computation. Qed.

(** The first simulated year of two sample households, buying a starter
    home: the payment of the tycoon household is at most the loan with one
    month of interest, far below half of its monthly income; the household
    without income divides a positive cost by zero. *)
Lemma tycoon_buy_year_affordable :
  let l1 := snd (fst (Buying.year_shocks default_simulator buy_starter_home
                        (Buying.start_locals tycoon_household
                           buy_starter_home flat_rng)
                        (advance 2 flat_rng))) in
  ratio_le (np_div (Buying.total_monthly l1) (Buying.income l1 / 12))
    (affordability_threshold default_simulator) = true.
Proof.
  cbv zeta.
  set (e := Buying.drawn_entry buy_starter_home tycoon_household flat_rng).
  set (l0 := Buying.start_locals tycoon_household buy_starter_home flat_rng).
  set (g2 := advance 2 flat_rng).
  destruct (start_locals_fields tycoon_household buy_starter_home flat_rng)
    as (_ & L2 & L3 & L4 & _ & _).
  fold l0 e in L2, L3, L4.
  assert (HL : 0 <= Buying.home_price e - Buying.down_payment e)
    by le_by_computation.
  destruct (start_mortgage_bounds tycoon_household buy_starter_home flat_rng
              HL) as [M0 M1].
  fold l0 e in M0, M1.
  assert (M2 : (Buying.home_price e - Buying.down_payment e)
               * (1 + Buying.drawn_rate buy_starter_home tycoon_household
                        flat_rng / 12) <= 240000) by le_by_computation.
  destruct (YearFacts.shocks_fields default_simulator buy_starter_home l0 g2)
    as (_ & _ & _ & _ & A5 & _ & _ & A8 & _).
  set (l1 := snd (fst (Buying.year_shocks default_simulator buy_starter_home
                         l0 g2))) in *.
  rewrite L3, L2 in A8. rewrite L4 in A5.
  set (inc1 := Buying.shocked_income default_simulator _ g2) in *.
  set (X1 := Buying.shocked_extras default_simulator buy_starter_home
               _ _ g2) in *.
  assert (HX1 : X1 <= 10000) by le_by_computation.
  assert (Hinc1 : inc1 == 104000000) by by_computation.
  rewrite A5, ratio_le_pos.
  - apply Qle_bool_iff. cbn [affordability_threshold default_simulator].
    rewrite A8, Qdiv12. lra.
  - rewrite Qdiv12. lra.
Qed.

Lemma zero_income_buy_year_unaffordable :
  let l1 := snd (fst (Buying.year_shocks default_simulator buy_starter_home
                        (Buying.start_locals zero_income_household
                           buy_starter_home flat_rng)
                        (advance 2 flat_rng))) in
  ratio_le (np_div (Buying.total_monthly l1) (Buying.income l1 / 12))
    (affordability_threshold default_simulator) = false.
Proof.
  cbv zeta.
  set (l0 := Buying.start_locals zero_income_household buy_starter_home
               flat_rng).
  set (g2 := advance 2 flat_rng).
  assert (Hp : params_ok buy_starter_home)
    by (apply (catalog_params_ok "Buy Starter Home"); by_computation).
  assert (Ha : appreciation_ok buy_starter_home g2)
    by (intros n; cbn; lra).
  destruct (CostFacts.start_locals_ok zero_income_household buy_starter_home
              flat_rng Hp (flat_tape_ok _)) as (C & _).
  fold l0 in C.
  destruct (CostFacts.shocks_ok default_simulator buy_starter_home l0 g2 Hp
              (tape_ok_advance 2 _ flat_tape_ok) Ha C) as (_ & S2 & _).
  destruct (YearFacts.shocks_fields default_simulator buy_starter_home l0 g2)
    as (_ & _ & _ & _ & A5 & _ & _ & _ & _).
  set (l1 := snd (fst (Buying.year_shocks default_simulator buy_starter_home
                         l0 g2))) in *.
  change (hoa_monthly buy_starter_home) with 150 in S2.
  change (Buying.income l0) with (annual_income zero_income_household) in A5.
  assert (Hinc : Buying.shocked_income default_simulator
                   (annual_income zero_income_household) g2 / 12 == 0)
    by by_computation.
  rewrite A5. apply ratio_le_zero_divisor; [exact Hinc | lra].
Qed.

(** C9: in both simulators the months-solvent count of every trial is a
    multiple of 12, because a simulated year contributes twelve solvent
    months when its affordability ratio is within the threshold and none
    when the ratio exceeds it.  Renting: an affordable year counts twelve
    months and the loop goes on; the first unaffordable year counts none and
    ends the trial.  Buying: the ratio of a year is fixed by its shocks; an
    affordable year pays its twelve months and leaves the default flag
    alone; an unaffordable year counts none, and its months are skipped or
    end in default; the loop goes on unless the year defaulted. *)
Theorem months_solvent_multiple_of_12 :
  (forall (self : MonteCarloHousingSimulator) (household : Household)
          (years : nat) (g : rng),
      Nat.divide 12
        (Renting.months_affordable
           (fst (Renting.run_trial self household years g))))
  /\ (forall (self : MonteCarloHousingSimulator) (household : Household)
             (params : HousingScenarioParameters) (years : nat) (g : rng),
         Nat.divide 12
           (Buying.months_solvent
              (fst (Buying.run_trial self household params years g))))
  /\ (forall (self : MonteCarloHousingSimulator) (k : nat)
             (t : Renting.trial) (g : rng),
         let rent := Renting.next_rent t g in
         let income := Renting.next_income self t g in
         (ratio_le (np_div rent (income / 12)) 0.35 = true ->
          exists t' : Renting.trial,
            Renting.year_loop self (S k) t g
            = Renting.year_loop self k t' (advance 2 g)
            /\ Renting.months_affordable t'
               = (Renting.months_affordable t + 12)%nat
            /\ Renting.rent t' = rent
            /\ Renting.income t' = income)
         /\ (ratio_le (np_div rent (income / 12)) 0.35 = false ->
             snd (Renting.year_loop self (S k) t g) = advance 2 g
             /\ Renting.months_affordable
                  (fst (Renting.year_loop self (S k) t g))
                = Renting.months_affordable t))
  /\ (forall (self : MonteCarloHousingSimulator)
             (params : HousingScenarioParameters) (l : Buying.locals)
             (g : rng),
         let l1 := snd (fst (Buying.year_shocks self params l g)) in
         let housing_ratio :=
           np_div (Buying.total_monthly l1) (Buying.income l1 / 12) in
         Buying.months_affordable l1 = Buying.months_affordable l
         /\ (ratio_le housing_ratio (affordability_threshold self) = true ->
             Buying.year_body self params l g
             = (Buying.pay_months 12 l1, advance 4 g)
             /\ Buying.months_affordable (fst (Buying.year_body self params l g))
                = (Buying.months_affordable l + 12)%nat
             /\ Buying.defaulted (fst (Buying.year_body self params l g))
                = Buying.defaulted l)
         /\ (ratio_le housing_ratio (affordability_threshold self) = false ->
             Buying.months_affordable (fst (Buying.year_body self params l g))
             = Buying.months_affordable l
             /\ (fst (Buying.year_body self params l g) = l1
                 \/ fst (Buying.year_body self params l g)
                    = Buying.mark_default l1)))
  /\ (forall (self : MonteCarloHousingSimulator)
             (params : HousingScenarioParameters) (k : nat)
             (l : Buying.locals) (g : rng),
         Buying.year_loop self params (S k) l g
         = if Buying.defaulted (fst (Buying.year_body self params l g))
           then Buying.year_body self params l g
           else Buying.year_loop self params k
                  (fst (Buying.year_body self params l g))
                  (snd (Buying.year_body self params l g))).
Proof.
  split; [|split; [|split; [|split]]].
  - intros self household years g. unfold Renting.run_trial.
    destruct (RentingFacts.rent_year_loop_months self years
                {| Renting.rent := current_monthly_rent household;
                   Renting.total_cost := 0;
                   Renting.months_affordable := 0;
                   Renting.income := annual_income household |} g)
      as (_ & j & _ & M).
    rewrite M. exists j. cbn [Renting.months_affordable]. lia.
  - intros self household params years g.
    rewrite TrialFacts.run_trial_run.
    destruct (Buying.fails_entry _ _).
    + cbn. exists 0%nat. reflexivity.
    + cbv zeta. cbn [fst Buying.settle Buying.months_solvent].
      destruct (BuyingFacts.buy_year_loop_months self params years
                  (Buying.start_locals household params g)
                  (advance 2 g)) as (_ & _ & j & _ & M).
      rewrite M. exists j. cbn. lia.
  - intros self k t g. cbv zeta.
    rewrite RentingFacts.rent_year_loop_step.
    split; intros E; rewrite E.
    + eexists. split; [reflexivity|].
      cbn [Renting.months_affordable Renting.rent Renting.income].
      repeat split; reflexivity.
    + cbn [fst snd Renting.months_affordable]. split; [reflexivity | lia].
  - intros self params l g. cbv zeta.
    destruct (YearFacts.shocks_fields self params l g)
      as (_ & _ & _ & _ & _ & _ & D & _ & R).
    cbv zeta in D, R. rewrite <- R.
    set (l1 := snd (fst (Buying.year_shocks self params l g))) in *.
    assert (M : Buying.months_affordable l1 = Buying.months_affordable l)
      by reflexivity.
    split; [exact M|].
    unfold Buying.year_body. fold l1.
    destruct (BuyingFacts.month_loop_cases self 12
                (fst (fst (Buying.year_shocks self params l g))) l1
                (advance 4 g)) as [_ [[A P] | [A P]]].
    + split; [|intros F; congruence].
      intros _. rewrite P. cbn [fst].
      destruct (BuyingFacts.pay_months_fields 12 l1)
        as (_ & _ & _ & _ & _ & _ & D' & M' & _).
      rewrite D', M', D, M. repeat split; reflexivity.
    + split; [intros F; congruence|].
      intros _. split; [|exact P].
      destruct P as [-> | ->]; exact M.
  - intros self params k l g. apply YearFacts.year_loop_body.
Qed.

Lemma months_solvent_multiple_of_12_witness :
  Renting.months_affordable
    (fst (Renting.run_trial default_simulator sample_household 1 flat_rng))
  = 12%nat
  /\ Renting.months_affordable
       (fst (Renting.run_trial default_simulator indebted_household 1
               flat_rng))
     = 0%nat
  /\ Buying.months_affordable
       (fst (Buying.year_body default_simulator buy_starter_home
               (Buying.start_locals tycoon_household buy_starter_home
                  flat_rng)
               (advance 2 flat_rng)))
     = 12%nat
  /\ Buying.months_affordable
       (fst (Buying.year_body default_simulator buy_starter_home
               (Buying.start_locals zero_income_household buy_starter_home
                  flat_rng)
               (advance 2 flat_rng)))
     = 0%nat.
Proof.
  destruct months_solvent_multiple_of_12 as (_ & _ & R & B & _).
  split; [|split; [|split]].
  - unfold Renting.run_trial.
    destruct (proj1 (R default_simulator 0%nat _ flat_rng)
                sample_rent_year_affordable) as (t' & -> & M & _).
    cbn [Renting.year_loop ret fst]. rewrite M. reflexivity.
  - unfold Renting.run_trial.
    destruct (proj2 (R default_simulator 0%nat _ flat_rng)
                indebted_rent_year_unaffordable) as [_ ->].
    reflexivity.
  - destruct (B default_simulator buy_starter_home
                (Buying.start_locals tycoon_household buy_starter_home
                   flat_rng) (advance 2 flat_rng)) as (_ & P & _).
    destruct (P tycoon_buy_year_affordable) as (_ & -> & _). reflexivity.
  - destruct (B default_simulator buy_starter_home
                (Buying.start_locals zero_income_household buy_starter_home
                   flat_rng) (advance 2 flat_rng)) as (_ & _ & P).
    destruct (P zero_income_buy_year_unaffordable) as (-> & _). reflexivity.
Defined.

(** ** Determinism (C3) *)

(** C3, as the code has it.  The generator is seeded when the simulator is
    constructed, not when it is called: for a fixed seed, configuration,
    household, scenario, trial count and horizon, the first call on a
    freshly constructed simulator returns the same record and leaves the
    same generator state, whatever the process-wide generator held before
    the construction. *)
Theorem fresh_simulator_deterministic
    (bitgen : Z -> nat -> cell) (random_seed : Z)
    (income_growth insurance_increase affordability_threshold : Q)
    (appreciation_rate interest_rate : option Q)
    (household : Household) (scenario : string)
    (num_simulations time_horizon_years : nat) (g g' : rng) :
  fresh_call bitgen random_seed income_growth insurance_increase
    affordability_threshold appreciation_rate interest_rate household
    scenario num_simulations time_horizon_years g
  = fresh_call bitgen random_seed income_growth insurance_increase
      affordability_threshold appreciation_rate interest_rate household
      scenario num_simulations time_horizon_years g'.
Proof.
  unfold fresh_call, init. rewrite !bind_run. reflexivity.
Qed.

(** The sentence of the specification fails: the second of two identical
    calls on the same simulator continues on the generator where the first
    call left it, and reports another final rent. *)
Lemma repeated_call_counterexample :
  exists r1 r2 : Renting.result,
    fst (repeated_call harmonic_bitgen 42 0.04 0.08 0.50 None None
           sample_household "Keep Renting" 1 1 flat_rng)
    = (Ok (RentingRecord r1), Ok (RentingRecord r2))
    /\ ~ mean (Renting.r_final_monthly_cost r1)
         == mean (Renting.r_final_monthly_cost r2).
Proof.
  eexists. eexists. split; [vm_compute; reflexivity|].
  cbn [Renting.r_final_monthly_cost mean].
  intros E. vm_compute in E. discriminate E.
Qed.

(** * Further properties *)

(** ** Reported probabilities *)

Lemma count_true_le_length (mask : list bool) :
  (count_true mask <= length mask)%nat.
Proof.
  induction mask as [|b mask IH]; [cbn; lia|].
  rewrite count_true_cons. cbn [length]. destruct b; lia.
Qed.

Lemma Qnat_le (a b : nat) : (a <= b)%nat -> Qnat a <= Qnat b.
Proof. intros H. unfold Qnat. rewrite <- Zle_Qle. lia. Qed.

Lemma Qnat_pos (n : nat) : (0 < n)%nat -> 0 < Qnat n.
Proof.
  intros H. unfold Qnat. change 0 with (inject_Z 0). rewrite <- Zlt_Qlt. lia.
Qed.

Lemma Qnat_nonneg (n : nat) : 0 <= Qnat n.
Proof. unfold Qnat. change 0 with (inject_Z 0). rewrite <- Zle_Qle. lia. Qed.

Lemma fraction_bounds (a n : nat) :
  (0 < n)%nat -> (a <= n)%nat ->
  0 <= Qnat a / Qnat n /\ Qnat a / Qnat n <= 1.
Proof.
  intros Hn Ha. pose proof (Qnat_pos n Hn) as Hp.
  pose proof (Qnat_le a n Ha) as Hl. pose proof (Qnat_nonneg a) as H0.
  split.
  - apply Qle_shift_div_l; [exact Hp | lra].
  - apply Qle_shift_div_r; [exact Hp | lra].
Qed.

(** A mask over the trials of a run selects at most all of them. *)
Lemma mask_fraction_bounds {A} (f : A -> bool) (l : list A) (n : nat) :
  (0 < n)%nat -> length l = n ->
  0 <= Qnat (count_true (map f l)) / Qnat n
  /\ Qnat (count_true (map f l)) / Qnat n <= 1.
Proof.
  intros Hn Hl. apply fraction_bounds; [exact Hn|].
  pose proof (count_true_le_length (map f l)) as H.
  rewrite length_map in H. lia.
Qed.

Lemma simulate_renting_run (self : MonteCarloHousingSimulator)
    (household : Household) (n years : nat) (g : rng) :
  fst (simulate_renting self household n years g)
  = Renting.aggregate household n years
      (fst (replicate_rand n (Renting.run_trial self household years) g)).
Proof. unfold simulate_renting. rewrite bind_run. reflexivity. Qed.

(** X1: with at least one trial, every probability that the simulators
    report (affordable and unaffordable for renting; affordable, default and
    negative equity for buying) lies between 0 and 1. *)
Theorem probabilities_in_unit_interval
    (self : MonteCarloHousingSimulator) (household : Household)
    (name : string) (params : HousingScenarioParameters)
    (num_simulations time_horizon_years : nat) (g : rng) :
  (0 < num_simulations)%nat ->
  scenarios !! name = Some params ->
  (let r := fst (simulate_renting self household num_simulations
                   time_horizon_years g) in
   0 <= Renting.r_probability_affordable r <= 1
   /\ 0 <= Renting.r_probability_unaffordable r <= 1)
  /\ exists b : Buying.result,
       fst (simulate_buying self household name num_simulations
              time_horizon_years g) = Ok b
       /\ 0 <= Buying.r_probability_affordable b <= 1
       /\ 0 <= Buying.r_probability_default b <= 1
       /\ 0 <= Buying.r_probability_negative_equity b <= 1.
Proof.
  intros HN Hlook. split.
  - cbv zeta. rewrite simulate_renting_run.
    unfold Renting.aggregate.
    cbn [Renting.r_probability_affordable Renting.r_probability_unaffordable].
    rewrite !map_map.
    split; apply mask_fraction_bounds; try exact HN;
      apply replicate_rand_length.
  - eexists. split; [apply simulate_buying_run; exact Hlook|].
    unfold Buying.aggregate.
    cbn [Buying.r_probability_affordable Buying.r_probability_default
         Buying.r_probability_negative_equity].
    rewrite !map_map.
    repeat split; apply mask_fraction_bounds; try exact HN;
      apply replicate_rand_length.
Qed.

Lemma probabilities_in_unit_interval_witness :
  exists b : Buying.result,
    fst (simulate_buying default_simulator sample_household
           "Buy Starter Home" 100 10 flat_rng) = Ok b
    /\ 0 <= Buying.r_probability_affordable b <= 1
    /\ 0 <= Buying.r_probability_default b <= 1
    /\ 0 <= Buying.r_probability_negative_equity b <= 1.
Proof.
  assert (H1 : (0 < 100)%nat) by lia.
  assert (H2 : scenarios !! "Buy Starter Home" = Some buy_starter_home)
    by (vm_compute; reflexivity).
  exact (proj2 (probabilities_in_unit_interval default_simulator
                  sample_household "Buy Starter Home" buy_starter_home
                  100 10 flat_rng H1 H2)).
Defined.

(** ** Solvent months of a buying trial *)

Module MonthFacts.
Import Buying BuyingFacts.

(** A simulated year pays twelve months and leaves the default flag as it
    was, or pays no month. *)
Lemma year_body_outcome (self : MonteCarloHousingSimulator)
    (params : HousingScenarioParameters) (l : locals) (g : rng) :
  (months_affordable (fst (year_body self params l g))
   = (months_affordable l + 12)%nat
   /\ defaulted (fst (year_body self params l g)) = defaulted l)
  \/ months_affordable (fst (year_body self params l g))
     = months_affordable l.
Proof.
  unfold year_body.
  destruct (YearFacts.shocks_fields self params l g)
    as (_ & _ & _ & _ & _ & _ & D & _ & _).
  cbv zeta in D.
  assert (M : months_affordable (snd (fst (year_shocks self params l g)))
              = months_affordable l) by reflexivity.
  set (l1 := snd (fst (year_shocks self params l g))) in *.
  destruct (month_loop_cases self 12 (fst (fst (year_shocks self params l g)))
              l1 (advance 4 g)) as [_ [[_ R] | [_ [R | R]]]]; rewrite R.
  - left. cbn [fst].
    destruct (pay_months_fields 12 l1) as (_ & _ & _ & _ & _ & _ & D' & M' & _).
    rewrite D', M', D, M. split; reflexivity.
  - right. exact M.
  - right. exact M.
Qed.

(** A trial that leaves the year loop through a default has paid at most
    [k - 1] of its [k] years: the year of the default pays no month. *)
Lemma year_loop_default_months (self : MonteCarloHousingSimulator)
    (params : HousingScenarioParameters) (k : nat) (l : locals) (g : rng) :
  defaulted l = false ->
  (months_affordable (fst (year_loop self params k l g))
   <= months_affordable l + 12 * k)%nat
  /\ (defaulted (fst (year_loop self params k l g)) = true ->
      (months_affordable (fst (year_loop self params k l g)) + 12
       <= months_affordable l + 12 * k)%nat).
Proof.
  revert l g. induction k as [|k IH]; intros l g Hd.
  - cbn. split; [lia | congruence].
  - rewrite YearFacts.year_loop_body.
    destruct (year_body_outcome self params l g) as [[M D] | M];
      destruct (defaulted (fst (year_body self params l g))) eqn:E.
    + congruence.
    + destruct (IH _ (snd (year_body self params l g)) E) as [I1 I2].
      split; [lia|]. intros F. specialize (I2 F). lia.
    + split; [lia|]. intros _. lia.
    + destruct (IH _ (snd (year_body self params l g)) E) as [I1 I2].
      split; [lia|]. intros F. specialize (I2 F). lia.
Qed.

(** The cells of a trial: at most [years * 12] solvent months, and fewer
    after a default when the horizon is positive. *)
Lemma run_trial_months (self : MonteCarloHousingSimulator)
    (household : Household) (params : HousingScenarioParameters)
    (years : nat) (g : rng) :
  let c := fst (run_trial self household params years g) in
  (months_solvent c <= years * 12)%nat
  /\ (default_occurred c = true -> (0 < years)%nat ->
      (months_solvent c < years * 12)%nat).
Proof.
  cbv zeta. rewrite TrialFacts.run_trial_run.
  destruct (fails_entry household (drawn_entry params household g)).
  - cbn [fst failed_entry_cells months_solvent default_occurred].
    split; lia.
  - cbv zeta. cbn [fst settle months_solvent default_occurred].
    destruct (year_loop_default_months self params years
                (start_locals household params g) (advance 2 g))
      as [I1 I2]; [reflexivity|].
    cbn [start_locals initial_locals months_affordable] in I1, I2.
    split; [lia|]. intros E _. specialize (I2 E). lia.
Qed.

End MonthFacts.

Lemma Qnat_plus (a b : nat) : Qnat (a + b) == Qnat a + Qnat b.
Proof. unfold Qnat. rewrite Nat2Z.inj_add, inject_Z_plus. reflexivity. Qed.

(** Two masks that never hold together select at most all trials. *)
Lemma count_disjoint {A} (p q : A -> bool) (l : list A) :
  Forall (fun x => p x = true -> q x = false) l ->
  (count_true (map p l) + count_true (map q l) <= length l)%nat.
Proof.
  induction 1 as [|x l Hx _ IH]; [cbn; lia|].
  cbn [map length]. rewrite !count_true_cons.
  destruct (p x); [rewrite (Hx eq_refl)|destruct (q x)]; cbn [Nat.add]; lia.
Qed.

(** A mask that holds for every trial selects them all. *)
Lemma count_all {A} (p : A -> bool) (l : list A) :
  Forall (fun x => p x = true) l -> count_true (map p l) = length l.
Proof.
  induction 1 as [|x l Hx _ IH]; [reflexivity|].
  cbn [map length]. rewrite count_true_cons, Hx, IH. reflexivity.
Qed.

Lemma count_none {A} (p : A -> bool) (l : list A) :
  Forall (fun x => p x = false) l -> count_true (map p l) = 0%nat.
Proof.
  induction 1 as [|x l Hx _ IH]; [reflexivity|].
  cbn [map]. rewrite count_true_cons, Hx, IH. reflexivity.
Qed.

(** The sum of month counts that do not exceed [bound]. *)
Lemma sum_months_bounds (bound : nat) (ms : list nat) :
  Forall (fun m => (m <= bound)%nat) ms ->
  Qnat bound * Qnat (count_true (map (fun m => Nat.eqb m bound) ms))
  <= np_sum (map Qnat ms)
  /\ np_sum (map Qnat ms) <= Qnat bound * Qnat (length ms).
Proof.
  induction 1 as [|m ms Hm _ [IH1 IH2]].
  - change (Qnat bound * 0 <= 0 /\ 0 <= Qnat bound * 0). split; lra.
  - cbn [map length np_sum foldr]. fold (np_sum (map Qnat ms)).
    rewrite count_true_cons, Qnat_plus.
    change (S (length ms)) with (1 + length ms)%nat. rewrite Qnat_plus.
    pose proof (Qnat_le m bound Hm) as L. pose proof (Qnat_nonneg m) as P.
    change (Qnat 1) with 1.
    destruct (Nat.eqb_spec m bound) as [-> | N].
    + change (Qnat 1) with 1. split; lra.
    + change (Qnat 0) with 0. split; lra.
Qed.

Lemma mean_months_bounds (bound n : nat) (ms : list nat) :
  (0 < n)%nat -> length ms = n ->
  Forall (fun m => (m <= bound)%nat) ms ->
  Qnat bound
  * (Qnat (count_true (map (fun m => Nat.eqb m bound) ms)) / Qnat n)
  <= np_mean (map Qnat ms)
  /\ np_mean (map Qnat ms) <= Qnat bound.
Proof.
  intros Hn Hl HF. destruct (sum_months_bounds bound ms HF) as [S1 S2].
  unfold np_mean. rewrite length_map, Hl in *.
  pose proof (Qnat_pos n Hn) as Hp.
  assert (Hi : 0 < / Qnat n) by (apply Qinv_lt_0_compat; exact Hp).
  assert (E : Qnat n * / Qnat n == 1) by (apply Qmult_inv_r; lra).
  unfold Qdiv.
  set (c := Qnat (count_true _)) in *. set (s := np_sum _) in *.
  set (i := / Qnat n) in *. set (b := Qnat bound) in *. set (q := Qnat n) in *.
  assert (H1 : 0 <= (s - b * c) * i) by (apply Qmult_le_0_compat; lra).
  assert (H2 : 0 <= (b * q - s) * i) by (apply Qmult_le_0_compat; lra).
  assert (E' : b * q * i == b) by (rewrite <- Qmult_assoc, E; ring).
  split; lra.
Qed.

Lemma fraction_sum_le (a b n : nat) :
  (0 < n)%nat -> (a + b <= n)%nat -> Qnat a / Qnat n + Qnat b / Qnat n <= 1.
Proof.
  intros Hn H. pose proof (Qnat_pos n Hn) as Hp.
  pose proof (Qnat_le _ _ H) as L. rewrite Qnat_plus in L.
  assert (E : Qnat a / Qnat n + Qnat b / Qnat n == (Qnat a + Qnat b) / Qnat n)
    by (field; lra).
  rewrite E. apply Qle_shift_div_r; [exact Hp | lra].
Qed.

Lemma fraction_all (n : nat) : (0 < n)%nat -> Qnat n / Qnat n == 1.
Proof. intros Hn. pose proof (Qnat_pos n Hn). field. lra. Qed.

Lemma buying_trials_months (self : MonteCarloHousingSimulator)
    (household : Household) (params : HousingScenarioParameters)
    (n years : nat) (g : rng) :
  Forall (fun c => (Buying.months_solvent c <= years * 12)%nat
                   /\ (Buying.default_occurred c = true -> (0 < years)%nat ->
                       (Buying.months_solvent c < years * 12)%nat))
    (fst (replicate_rand n (Buying.run_trial self household params years) g)).
Proof.
  apply replicate_rand_Forall. intros g'.
  apply MonthFacts.run_trial_months.
Qed.

(** X2: with at least one trial, the mean of the solvent months lies
    between [H * 12] times the probability of staying affordable and
    [H * 12], in the renting and in the buying result. *)
Theorem mean_affordable_months_bounds
    (self : MonteCarloHousingSimulator) (household : Household)
    (name : string) (params : HousingScenarioParameters)
    (num_simulations time_horizon_years : nat) (g : rng) :
  (0 < num_simulations)%nat ->
  scenarios !! name = Some params ->
  (let r := fst (simulate_renting self household num_simulations
                   time_horizon_years g) in
   Qnat (time_horizon_years * 12) * Renting.r_probability_affordable r
   <= Renting.r_mean_affordable_months r
   /\ Renting.r_mean_affordable_months r <= Qnat (time_horizon_years * 12))
  /\ exists b : Buying.result,
       fst (simulate_buying self household name num_simulations
              time_horizon_years g) = Ok b
       /\ Qnat (time_horizon_years * 12) * Buying.r_probability_affordable b
          <= Buying.r_mean_affordable_months b
       /\ Buying.r_mean_affordable_months b
          <= Qnat (time_horizon_years * 12).
Proof.
  intros HN Hlook. split.
  - cbv zeta. rewrite simulate_renting_run. unfold Renting.aggregate.
    cbn [Renting.r_probability_affordable Renting.r_mean_affordable_months].
    apply mean_months_bounds; [exact HN | |].
    + rewrite length_map. apply replicate_rand_length.
    + apply Forall_map. apply replicate_rand_Forall. intros g'.
      apply renting_months_bounded.
  - eexists. split; [apply simulate_buying_run; exact Hlook|].
    unfold Buying.aggregate.
    cbn [Buying.r_probability_affordable Buying.r_mean_affordable_months].
    apply mean_months_bounds; [exact HN | |].
    + rewrite length_map. apply replicate_rand_length.
    + apply Forall_map.
      eapply Forall_impl; [apply buying_trials_months|].
      intros c [H _]. exact H.
Qed.

Lemma mean_affordable_months_bounds_witness :
  exists b : Buying.result,
    fst (simulate_buying default_simulator sample_household
           "Buy Starter Home" 3 2 flat_rng) = Ok b
    /\ Qnat (2 * 12) * Buying.r_probability_affordable b
       <= Buying.r_mean_affordable_months b
    /\ Buying.r_mean_affordable_months b <= Qnat (2 * 12).
Proof.
  assert (H1 : (0 < 3)%nat) by lia.
  assert (H2 : scenarios !! "Buy Starter Home" = Some buy_starter_home)
    by (vm_compute; reflexivity).
  exact (proj2 (mean_affordable_months_bounds default_simulator
                  sample_household "Buy Starter Home" buy_starter_home 3 2
                  flat_rng H1 H2)).
Defined.

(** X3: for a positive horizon a buying trial that defaults (at the
    savings gate or by a default draw) has fewer than [H * 12] solvent
    months, so the events 'affordable' and 'default' exclude each other and
    their reported probabilities sum to at most one. *)
Theorem default_excludes_affordable
    (self : MonteCarloHousingSimulator) (household : Household)
    (name : string) (params : HousingScenarioParameters)
    (num_simulations time_horizon_years : nat) (g : rng) :
  (0 < num_simulations)%nat ->
  (0 < time_horizon_years)%nat ->
  scenarios !! name = Some params ->
  exists b : Buying.result,
    fst (simulate_buying self household name num_simulations
           time_horizon_years g) = Ok b
    /\ Buying.r_probability_affordable b + Buying.r_probability_default b
       <= 1.
Proof.
  intros HN HH Hlook.
  eexists. split; [apply simulate_buying_run; exact Hlook|].
  unfold Buying.aggregate.
  cbn [Buying.r_probability_affordable Buying.r_probability_default].
  rewrite map_map.
  apply fraction_sum_le; [exact HN|].
  set (trials := fst (replicate_rand _ _ _)).
  assert (L : length trials = num_simulations)
    by apply replicate_rand_length.
  apply Nat.le_trans with (length trials); [|lia].
  rewrite Nat.add_comm. apply count_disjoint.
  eapply Forall_impl; [apply buying_trials_months|].
  intros c [_ H] D. cbv beta. apply Nat.eqb_neq.
  specialize (H D HH). lia.
Qed.

Lemma default_excludes_affordable_witness :
  exists b : Buying.result,
    fst (simulate_buying default_simulator sample_household
           "Buy Starter Home" 3 2 flat_rng) = Ok b
    /\ Buying.r_probability_affordable b + Buying.r_probability_default b
       <= 1.
Proof.
  assert (H1 : (0 < 3)%nat) by lia.
  assert (H2 : (0 < 2)%nat) by lia.
  assert (H3 : scenarios !! "Buy Starter Home" = Some buy_starter_home)
    by (vm_compute; reflexivity).
  exact (default_excludes_affordable default_simulator sample_household
           "Buy Starter Home" buy_starter_home 3 2 flat_rng H1 H2 H3).
Defined.

(** X4: at horizon 0 every trial counts as affordable: both simulators
    report a probability of 1 of staying affordable (renting also 0 of
    becoming unaffordable), although a buying trial is then a default
    exactly when it fails the savings gate. *)
Theorem horizon_zero_is_always_affordable
    (self : MonteCarloHousingSimulator) (household : Household)
    (name : string) (params : HousingScenarioParameters)
    (num_simulations : nat) (g : rng) :
  (0 < num_simulations)%nat ->
  scenarios !! name = Some params ->
  (let r := fst (simulate_renting self household num_simulations 0 g) in
   Renting.r_probability_affordable r == 1
   /\ Renting.r_probability_unaffordable r == 0)
  /\ (exists b : Buying.result,
         fst (simulate_buying self household name num_simulations 0 g) = Ok b
         /\ Buying.r_probability_affordable b == 1)
  /\ (forall g' : rng,
         Buying.default_occurred
           (fst (Buying.run_trial self household params 0 g'))
         = Buying.fails_entry household
             (Buying.drawn_entry params household g')).
Proof.
  intros HN Hlook. split; [|split].
  - cbv zeta. rewrite simulate_renting_run. unfold Renting.aggregate.
    cbn [Renting.r_probability_affordable Renting.r_probability_unaffordable].
    rewrite !map_map.
    set (trials := fst (replicate_rand _ _ _)).
    assert (L : length trials = num_simulations)
      by apply replicate_rand_length.
    assert (F : Forall (fun t => Renting.months_affordable t = 0%nat) trials).
    { apply replicate_rand_Forall. intros g'.
      pose proof (renting_months_bounded self household 0 g'). lia. }
    split.
    + rewrite count_all, L; [apply fraction_all; exact HN|].
      eapply Forall_impl; [exact F|]. intros t ->. reflexivity.
    + rewrite count_none; [|eapply Forall_impl; [exact F|];
                             intros t ->; reflexivity].
      unfold Qdiv. change (Qnat 0) with 0. ring.
  - eexists. split; [apply simulate_buying_run; exact Hlook|].
    unfold Buying.aggregate. cbn [Buying.r_probability_affordable].
    rewrite map_map.
    set (trials := fst (replicate_rand _ _ _)).
    assert (L : length trials = num_simulations)
      by apply replicate_rand_length.
    rewrite count_all, L; [apply fraction_all; exact HN|].
    eapply Forall_impl; [apply buying_trials_months|].
    intros c [H _]. cbv beta. apply Nat.eqb_eq. lia.
  - intros g'. rewrite TrialFacts.run_trial_run.
    destruct (Buying.fails_entry household _); reflexivity.
Qed.

Lemma horizon_zero_is_always_affordable_witness :
  exists b : Buying.result,
    fst (simulate_buying default_simulator sample_household
           "Buy Premium Home" 3 0 flat_rng) = Ok b
    /\ Buying.r_probability_affordable b == 1.
Proof.
  assert (H1 : (0 < 3)%nat) by lia.
  assert (H2 : scenarios !! "Buy Premium Home" = Some buy_premium_home)
    by (vm_compute; reflexivity).
  exact (proj1 (proj2 (horizon_zero_is_always_affordable default_simulator
                         sample_household "Buy Premium Home"
                         buy_premium_home 3 flat_rng H1 H2))).
Defined.

(** ** The loan balance follows the amortization schedule *)

Module LoanFacts.
Import Buying BuyingFacts Loan.

Lemma power_succ (q : Q) (m : nat) :
  0 < q -> q ^ Z.of_nat (m + 1) == q ^ Z.of_nat m * q.
Proof.
  intros Hq. rewrite Nat2Z.inj_add, Qpower_plus; [|lra].
  change (q ^ Z.of_nat 1) with q. reflexivity.
Qed.

(** Powers of a growth factor: [1 <= q^m <= q^360] for [m <= 360]. *)
Lemma power_bounds (q : Q) (m : nat) :
  1 <= q -> (m <= 360)%nat ->
  1 <= q ^ Z.of_nat m /\ q ^ Z.of_nat m <= q ^ num_payments.
Proof.
  intros Hq Hm.
  assert (H1 : 1 <= q ^ Z.of_nat m) by (apply Qpower_1_le; [exact Hq | lia]).
  assert (H2 : 1 <= q ^ (num_payments - Z.of_nat m))
    by (apply Qpower_1_le; [exact Hq | unfold num_payments; lia]).
  assert (E : q ^ num_payments
              == q ^ Z.of_nat m * q ^ (num_payments - Z.of_nat m)).
  { rewrite <- Qpower_plus; [|lra].
    replace (Z.of_nat m + (num_payments - Z.of_nat m))%Z with num_payments
      by lia.
    reflexivity. }
  split; [exact H1|]. rewrite E.
  set (a := q ^ Z.of_nat m) in *. set (b := q ^ (num_payments - Z.of_nat m)) in *.
  assert (H3 : 0 <= a * (b - 1)) by (apply Qmult_le_0_compat; lra).
  lra.
Qed.

Lemma scheduled_balance_start (loan rate : Q) :
  0 < rate / 12 -> scheduled_balance loan rate 0 == loan.
Proof.
  intros Hr. unfold scheduled_balance. cbv zeta.
  pose proof (growth_gt_1 _ Hr) as Hg.
  change ((1 + rate / 12) ^ Z.of_nat 0) with 1.
  field. lra.
Qed.

(** One level payment moves the schedule one month on. *)
Lemma scheduled_balance_step (loan rate : Q) (m : nat) :
  0 < rate / 12 ->
  scheduled_balance loan rate m
  - (amortized_payment loan (rate / 12)
     - scheduled_balance loan rate m * (rate / 12))
  == scheduled_balance loan rate (m + 1).
Proof.
  intros Hr. unfold scheduled_balance, amortized_payment. cbv zeta.
  pose proof (growth_gt_1 _ Hr) as Hg.
  rewrite power_succ by lra.
  set (r := rate / 12) in *.
  set (p := (1 + r) ^ num_payments) in *.
  set (qm := (1 + r) ^ Z.of_nat m).
  field. lra.
Qed.

Lemma scheduled_balance_bounds (loan rate : Q) (m : nat) :
  0 <= loan -> 0 < rate / 12 -> (m <= 360)%nat ->
  0 <= scheduled_balance loan rate m
  /\ scheduled_balance loan rate m <= loan.
Proof.
  intros Hl Hr Hm. unfold scheduled_balance. cbv zeta.
  pose proof (growth_gt_1 _ Hr) as Hg.
  destruct (power_bounds (1 + rate / 12) m) as [B1 B2]; [lra | exact Hm |].
  set (p := (1 + rate / 12) ^ num_payments) in *.
  set (qm := (1 + rate / 12) ^ Z.of_nat m) in *.
  assert (H1 : 0 <= loan * (p - qm)) by (apply Qmult_le_0_compat; lra).
  assert (H2 : 0 <= loan * (qm - 1)) by (apply Qmult_le_0_compat; lra).
  split.
  - apply Qle_shift_div_l; lra.
  - apply Qle_shift_div_r; lra.
Qed.

Lemma scheduled_balance_end (loan rate : Q) :
  0 < rate / 12 -> scheduled_balance loan rate 360 == 0.
Proof.
  intros Hr. unfold scheduled_balance. cbv zeta.
  pose proof (growth_gt_1 _ Hr) as Hg.
  change (Z.of_nat 360) with num_payments.
  field. lra.
Qed.

Lemma pay_month_on_schedule (loan : Q) (l : locals) :
  0 < interest_rate l / 12 ->
  on_schedule loan l -> on_schedule loan (pay_month l).
Proof.
  intros Hr [M B]. split; [exact M|].
  cbn [pay_month current_loan_balance interest_rate months_affordable].
  rewrite M, B. apply scheduled_balance_step. exact Hr.
Qed.

Lemma pay_months_on_schedule (loan : Q) (n : nat) (l : locals) :
  0 < interest_rate l / 12 ->
  on_schedule loan l -> on_schedule loan (pay_months n l).
Proof.
  revert l. induction n as [|n IH]; intros l Hr Hs; [exact Hs|].
  cbn [pay_months]. apply IH; [exact Hr|].
  apply pay_month_on_schedule; assumption.
Qed.

Lemma year_body_on_schedule (self : MonteCarloHousingSimulator)
    (params : HousingScenarioParameters) (loan : Q) (l : locals) (g : rng) :
  0 < interest_rate l / 12 ->
  on_schedule loan l ->
  on_schedule loan (fst (year_body self params l g))
  /\ interest_rate (fst (year_body self params l g)) = interest_rate l.
Proof.
  intros Hr Hs. unfold year_body.
  set (l1 := snd (fst (year_shocks self params l g))).
  assert (S1 : on_schedule loan l1) by exact Hs.
  assert (R1 : interest_rate l1 = interest_rate l) by reflexivity.
  destruct (month_loop_cases self 12 (fst (fst (year_shocks self params l g)))
              l1 (advance 4 g)) as [_ [[_ R] | [_ [R | R]]]]; rewrite R.
  - cbn [fst]. split.
    + apply pay_months_on_schedule; [rewrite R1; exact Hr | exact S1].
    + destruct (pay_months_fields 12 l1) as (A & _). rewrite A. exact R1.
  - split; assumption.
  - split; [exact S1 | exact R1].
Qed.

Lemma year_loop_on_schedule (self : MonteCarloHousingSimulator)
    (params : HousingScenarioParameters) (loan : Q) (k : nat) (l : locals)
    (g : rng) :
  0 < interest_rate l / 12 ->
  on_schedule loan l ->
  on_schedule loan (fst (year_loop self params k l g)).
Proof.
  revert l g. induction k as [|k IH]; intros l g Hr Hs; [exact Hs|].
  rewrite YearFacts.year_loop_body.
  destruct (year_body_on_schedule self params loan l g Hr Hs) as [S1 R1].
  destruct (defaulted (fst (year_body self params l g))); [exact S1|].
  apply IH; [rewrite R1; exact Hr | exact S1].
Qed.

End LoanFacts.

Lemma py_max_0_nonneg (b : Q) : 0 <= b -> py_max 0 b == b.
Proof.
  intros H. destruct (py_max_cases 0 b) as [[_ ->] | [L ->]]; lra.
Qed.

(** X5: in a buying trial that passes the savings gate the remaining
    loan balance depends only on the number of paid months: it is the
    balance of the amortization schedule,
    [loan * (q^360 - q^months) / (q^360 - 1)] with [q = 1 + rate / 12].
    For horizons of at most 30 years it stays between 0 and the loan, so
    the [max(0, balance)] of the final equity never cuts and a trial that
    did not default reports [home value - balance]; after 360 paid months
    the balance is 0. *)
Theorem loan_balance_follows_schedule
    (self : MonteCarloHousingSimulator) (household : Household)
    (name : string) (params : HousingScenarioParameters) (years : nat)
    (g : rng) :
  scenarios !! name = Some params ->
  tape_ok g ->
  Buying.fails_entry household (Buying.drawn_entry params household g)
  = false ->
  let e := Buying.drawn_entry params household g in
  let loan := Buying.home_price e - Buying.down_payment e in
  let l := fst (Buying.year_loop self params years
                  (Buying.start_locals household params g) (advance 2 g)) in
  fst (Buying.play self household params years g) = (e, Some l)
  /\ Buying.current_loan_balance l
     == Loan.scheduled_balance loan (Buying.drawn_rate params household g)
          (Buying.months_affordable l)
  /\ ((years <= 30)%nat ->
      0 <= Buying.current_loan_balance l
      /\ Buying.current_loan_balance l <= loan
      /\ (Buying.defaulted l = false ->
          Buying.final_equity
            (fst (Buying.run_trial self household params years g))
          == Buying.current_home_value l - Buying.current_loan_balance l))
  /\ (Buying.months_affordable l = 360%nat ->
      Buying.current_loan_balance l == 0).
Proof.
  intros Hlook Ht Hgate. cbv zeta.
  pose proof (catalog_params_ok _ _ Hlook) as Hp.
  destruct (CostFacts.entry_ok params household g Hp (Ht _))
    as (E1 & E2 & E3 & E4).
  destruct (drawn_rate_bounds params (credit_score household) (advance 1 g))
    as [Hlo _].
  fold (Buying.drawn_rate params household g) in Hlo.
  pose proof (monthly_rate_pos _ Hlo) as Hr.
  set (e := Buying.drawn_entry params household g) in *.
  set (loan := Buying.home_price e - Buying.down_payment e).
  set (l0 := Buying.start_locals household params g).
  assert (R0 : Buying.interest_rate l0 = Buying.drawn_rate params household g)
    by reflexivity.
  assert (S0 : Loan.on_schedule loan l0).
  { split.
    - destruct (start_locals_fields household params g) as (M & _).
      cbv zeta in M. fold l0 e loan in M. rewrite M, R0.
      apply payment_is_amortized. exact Hr.
    - rewrite R0.
      change (Buying.current_loan_balance l0) with loan.
      change (Buying.months_affordable l0) with 0%nat.
      symmetry. apply LoanFacts.scheduled_balance_start. exact Hr. }
  assert (Hr0 : 0 < Buying.interest_rate l0 / 12) by (rewrite R0; exact Hr).
  pose proof (LoanFacts.year_loop_on_schedule self params loan years l0
                (advance 2 g) Hr0 S0) as [_ B].
  destruct (BuyingFacts.buy_year_loop_months self params years l0
              (advance 2 g)) as (_ & [RL _] & _).
  destruct (MonthFacts.year_loop_default_months self params years l0
              (advance 2 g)) as [MB _]; [reflexivity|].
  change (Buying.months_affordable l0) with 0%nat in MB.
  set (l := fst (Buying.year_loop self params years l0 (advance 2 g))) in *.
  rewrite RL, R0 in B.
  split; [|split; [exact B | split]].
  - rewrite TrialFacts.play_run. fold e. rewrite Hgate. reflexivity.
  - intros HY.
    destruct (LoanFacts.scheduled_balance_bounds loan
                (Buying.drawn_rate params household g)
                (Buying.months_affordable l)) as [B1 B2];
      [unfold loan; lra | exact Hr | lia |].
    rewrite <- B in B1, B2.
    split; [exact B1 | split; [exact B2|]].
    intros D. rewrite TrialFacts.run_trial_run. fold e. rewrite Hgate.
    cbv zeta. fold l0 l. cbn [fst Buying.settle Buying.final_equity].
    rewrite D. rewrite (py_max_0_nonneg _ B1). reflexivity.
  - intros M. rewrite B, M.
    apply LoanFacts.scheduled_balance_end. exact Hr.
Qed.

Lemma loan_balance_follows_schedule_witness :
  0 <= Buying.current_loan_balance
         (fst (Buying.year_loop default_simulator buy_starter_home 10
                 (Buying.start_locals comfortable_household buy_starter_home
                    flat_rng)
                 (advance 2 flat_rng))).
Proof.
  assert (H1 : scenarios !! "Buy Starter Home" = Some buy_starter_home)
    by (vm_compute; reflexivity).
  assert (H2 : Buying.fails_entry comfortable_household
                 (Buying.drawn_entry buy_starter_home comfortable_household
                    flat_rng) = false)
    by (vm_compute; reflexivity).
  assert (H3 : (10 <= 30)%nat) by lia.
  destruct (loan_balance_follows_schedule default_simulator
              comfortable_household "Buy Starter Home" buy_starter_home 10
              flat_rng H1 flat_tape_ok H2) as (_ & _ & B & _).
  exact (proj1 (B H3)).
Defined.

(** ** The comparison of all scenarios *)

Lemma simulate_household_renting (self : MonteCarloHousingSimulator)
    (household : Household) (n years : nat) (g : rng) :
  simulate_household self household "Keep Renting" n years g
  = (Ok (RentingRecord (fst (simulate_renting self household n years g))),
     snd (simulate_renting self household n years g)).
Proof.
  unfold simulate_household. rewrite String.eqb_refl, bind_run. reflexivity.
Qed.

Lemma simulate_household_buying (self : MonteCarloHousingSimulator)
    (household : Household) (name : string)
    (params : HousingScenarioParameters) (n years : nat) (g : rng) :
  name <> "Keep Renting" ->
  scenarios !! name = Some params ->
  simulate_household self household name n years g
  = (Ok (BuyingRecord
           (Buying.aggregate household name n years
              (fst (replicate_rand n
                      (Buying.run_trial self household params years) g)))),
     snd (replicate_rand n (Buying.run_trial self household params years) g)).
Proof.
  intros Hne Hlook. unfold simulate_household.
  destruct (String.eqb_spec name "Keep Renting") as [E | _];
    [contradiction|].
  rewrite bind_run. unfold simulate_buying. rewrite Hlook.
  rewrite !bind_run. reflexivity.
Qed.

Lemma compare_loop_cons (self : MonteCarloHousingSimulator)
    (household : Household) (name : string) (rest : list string)
    (n years : nat) (g g1 g2 : rng) (r : ResultRecord)
    (c : list (string * ResultRecord)) :
  simulate_household self household name n years g = (Ok r, g1) ->
  compare_loop self household rest n years g1 = (Ok c, g2) ->
  compare_loop self household (name :: rest) n years g
  = (Ok ((name, r) :: c), g2).
Proof.
  intros E1 E2. cbn [compare_loop]. rewrite bind_run, E1. cbn [fst snd].
  rewrite bind_run, E2. reflexivity.
Qed.

(** The comparison written out: the renting run, then the three buying
    runs, each on the generator that the previous one left. *)
Lemma compare_scenarios_run
    (self : MonteCarloHousingSimulator) (household : Household)
    (num_simulations time_horizon_years : nat) (g : rng) :
  let renting :=
    simulate_renting self household num_simulations time_horizon_years g in
  let starter :=
    replicate_rand num_simulations
      (Buying.run_trial self household buy_starter_home time_horizon_years)
      (snd renting) in
  let standard :=
    replicate_rand num_simulations
      (Buying.run_trial self household buy_standard_home time_horizon_years)
      (snd starter) in
  let premium :=
    replicate_rand num_simulations
      (Buying.run_trial self household buy_premium_home time_horizon_years)
      (snd standard) in
  let record name trials :=
    BuyingRecord (Buying.aggregate household name num_simulations
                    time_horizon_years (fst trials)) in
  compare_scenarios self household num_simulations time_horizon_years g
  = (Ok [ ("Keep Renting", RentingRecord (fst renting));
          ("Buy Starter Home", record "Buy Starter Home" starter);
          ("Buy Standard Home", record "Buy Standard Home" standard);
          ("Buy Premium Home", record "Buy Premium Home" premium) ],
     snd premium).
Proof.
  cbv zeta. unfold compare_scenarios.
  cbn [map fst scenario_catalog].
  eapply compare_loop_cons; [apply simulate_household_renting|].
  eapply compare_loop_cons;
    [apply (simulate_household_buying self household "Buy Starter Home"
              buy_starter_home); [discriminate | vm_compute; reflexivity]|].
  eapply compare_loop_cons;
    [apply (simulate_household_buying self household "Buy Standard Home"
              buy_standard_home); [discriminate | vm_compute; reflexivity]|].
  eapply compare_loop_cons;
    [apply (simulate_household_buying self household "Buy Premium Home"
              buy_premium_home); [discriminate | vm_compute; reflexivity]|].
  reflexivity.
Qed.

(** X6: for a positive trial count [compare_scenarios] does not raise: it
    is the four calls of [simulate_household] for the catalog keys in
    insertion order, each on the generator that the previous call left, and
    returns one record per key in that order, a renting record first and
    three buying records; every record carries its key as scenario name and
    the trial count and the horizon of the call. *)
Theorem compare_scenarios_covers_catalog
    (self : MonteCarloHousingSimulator) (household : Household)
    (num_simulations time_horizon_years : nat) (g : rng) :
  (0 < num_simulations)%nat ->
  let run name := simulate_household self household name num_simulations
                    time_horizon_years in
  let first := run "Keep Renting" g in
  let second := run "Buy Starter Home" (snd first) in
  let third := run "Buy Standard Home" (snd second) in
  let fourth := run "Buy Premium Home" (snd third) in
  exists (r : Renting.result) (b1 b2 b3 : Buying.result),
    fst first = Ok (RentingRecord r)
    /\ fst second = Ok (BuyingRecord b1)
    /\ fst third = Ok (BuyingRecord b2)
    /\ fst fourth = Ok (BuyingRecord b3)
    /\ compare_scenarios self household num_simulations time_horizon_years g
       = (Ok [ ("Keep Renting", RentingRecord r);
               ("Buy Starter Home", BuyingRecord b1);
               ("Buy Standard Home", BuyingRecord b2);
               ("Buy Premium Home", BuyingRecord b3) ],
          snd fourth)
    /\ Renting.r_scenario r = "Keep Renting"
    /\ Buying.r_scenario b1 = "Buy Starter Home"
    /\ Buying.r_scenario b2 = "Buy Standard Home"
    /\ Buying.r_scenario b3 = "Buy Premium Home"
    /\ Renting.r_simulations r = num_simulations
    /\ Forall (fun b => Buying.r_simulations b = num_simulations
                        /\ Buying.r_time_horizon_years b = time_horizon_years)
         [b1; b2; b3].
Proof.
  intros _. cbv zeta. rewrite compare_scenarios_run. cbv zeta.
  rewrite simulate_household_renting. cbn [fst snd].
  rewrite (simulate_household_buying self household "Buy Starter Home"
             buy_starter_home); [|discriminate | vm_compute; reflexivity].
  cbn [fst snd].
  rewrite (simulate_household_buying self household "Buy Standard Home"
             buy_standard_home); [|discriminate | vm_compute; reflexivity].
  cbn [fst snd].
  rewrite (simulate_household_buying self household "Buy Premium Home"
             buy_premium_home); [|discriminate | vm_compute; reflexivity].
  cbn [fst snd].
  eexists. eexists. eexists. eexists.
  do 5 (split; [reflexivity|]).
  rewrite simulate_renting_run.
  repeat split; try reflexivity.
  repeat (constructor; [split; reflexivity|]). constructor.
Qed.

Lemma compare_scenarios_covers_catalog_witness :
  exists c : list (string * ResultRecord),
    fst (compare_scenarios default_simulator sample_household 1000 10
           flat_rng) = Ok c
    /\ map fst c = map fst scenario_catalog.
Proof.
  assert (H : (0 < 1000)%nat) by lia.
  destruct (compare_scenarios_covers_catalog default_simulator
              sample_household 1000 10 flat_rng H)
    as (r & b1 & b2 & b3 & _ & _ & _ & _ & E & _).
  rewrite E. eexists. split; reflexivity.
Defined.

(** ** Order statistics *)

Module SortFacts.

Lemma insert_sorted_length (x : Q) (l : list Q) :
  length (insert_sorted x l) = S (length l).
Proof.
  induction l as [|y l IH]; [reflexivity|].
  cbn [insert_sorted]. destruct (Qle_bool x y); cbn [length]; congruence.
Qed.

Lemma np_sort_length (l : list Q) : length (np_sort l) = length l.
Proof.
  induction l as [|x l IH]; [reflexivity|].
  cbn [np_sort foldr]. fold (np_sort l).
  rewrite insert_sorted_length, IH. reflexivity.
Qed.

Lemma insert_sorted_Forall (P : Q -> Prop) (x : Q) (l : list Q) :
  P x -> Forall P l -> Forall P (insert_sorted x l).
Proof.
  intros Hx. induction 1 as [|y l Hy Hl IH].
  - repeat constructor. exact Hx.
  - cbn [insert_sorted]. destruct (Qle_bool x y).
    + constructor; [exact Hx|]. constructor; assumption.
    + constructor; assumption.
Qed.

Lemma np_sort_Forall (P : Q -> Prop) (l : list Q) :
  Forall P l -> Forall P (np_sort l).
Proof.
  induction 1 as [|x l Hx Hl IH]; [constructor|].
  cbn [np_sort foldr]. fold (np_sort l).
  apply insert_sorted_Forall; assumption.
Qed.

Lemma Forall_Qle_trans (a b : Q) (l : list Q) :
  a <= b -> Forall (Qle b) l -> Forall (Qle a) l.
Proof.
  intros Hab H. induction H; constructor; [lra | assumption].
Qed.

Lemma insert_sorted_sorted (x : Q) (l : list Q) :
  StronglySorted Qle l -> StronglySorted Qle (insert_sorted x l).
Proof.
  induction 1 as [|y l Hs IH Hy].
  - repeat constructor.
  - cbn [insert_sorted]. destruct (Qle_bool x y) eqn:E.
    + apply Qle_bool_iff in E.
      constructor; [constructor; assumption|].
      constructor; [exact E|]. apply (Forall_Qle_trans x y); assumption.
    + apply Qle_bool_false in E.
      constructor; [exact IH|].
      apply insert_sorted_Forall; [lra | exact Hy].
Qed.

Lemma np_sort_sorted (l : list Q) : StronglySorted Qle (np_sort l).
Proof.
  induction l as [|x l IH]; [constructor|].
  cbn [np_sort foldr]. fold (np_sort l).
  apply insert_sorted_sorted. exact IH.
Qed.

(** In a sorted list a later position holds a larger value. *)
Lemma sorted_nth_le (s : list Q) (i j : nat) :
  StronglySorted Qle s -> (i <= j)%nat -> (j < length s)%nat ->
  nth i s 0 <= nth j s 0.
Proof.
  intros Hs. revert i j. induction Hs as [|a s Hs IH Ha]; intros i j Hij Hj.
  - cbn in Hj. lia.
  - destruct j as [|j].
    + assert (i = 0%nat) as -> by lia. cbn. lra.
    + destruct i as [|i].
      * cbn [nth]. cbn [length] in Hj.
        assert (Hin : In (nth j s 0) s) by (apply nth_In; lia).
        rewrite List.Forall_forall in Ha. apply Ha. exact Hin.
      * cbn [nth]. cbn [length] in Hj. apply IH; lia.
Qed.

Lemma Forall2_nth_le (s1 s2 : list Q) (i : nat) :
  Forall2 Qle s1 s2 -> nth i s1 0 <= nth i s2 0.
Proof.
  intros H. revert i. induction H as [|a b s1 s2 Hab H IH]; intros i.
  - destruct i; cbn; lra.
  - destruct i as [|i]; cbn [nth]; [exact Hab | apply IH].
Qed.

Lemma Forall_nth (P : Q -> Prop) (s : list Q) (i : nat) :
  Forall P s -> (i < length s)%nat -> P (nth i s 0).
Proof.
  intros H Hi. rewrite List.Forall_forall in H. apply H. apply nth_In. exact Hi.
Qed.

(** Inserting into pointwise ordered sorted lists keeps them pointwise
    ordered. *)
Lemma insert_below_cons (x b : Q) (l1 l2 : list Q) :
  Forall2 Qle l1 l2 -> x <= b -> StronglySorted Qle (b :: l2) ->
  Forall2 Qle (insert_sorted x l1) (b :: l2).
Proof.
  intros H. revert b. induction H as [|a c l1 l2 Hac H IH]; intros b Hxb Hs.
  - cbn. repeat constructor. exact Hxb.
  - apply StronglySorted_inv in Hs as [Hs Hb].
    apply Forall_cons_iff in Hb as [Hbc Hb].
    cbn [insert_sorted]. destruct (Qle_bool x a) eqn:E.
    + constructor; [exact Hxb|]. constructor; assumption.
    + apply Qle_bool_false in E.
      constructor; [lra|]. apply IH; [lra | exact Hs].
Qed.

Lemma cons_below_insert (a y : Q) (l1 l2 : list Q) :
  Forall2 Qle l1 l2 -> a <= y -> StronglySorted Qle (a :: l1) ->
  Forall2 Qle (a :: l1) (insert_sorted y l2).
Proof.
  intros H. revert a. induction H as [|a' c l1 l2 Hac H IH]; intros a Hay Hs.
  - cbn. repeat constructor. exact Hay.
  - apply StronglySorted_inv in Hs as [Hs Ha].
    apply Forall_cons_iff in Ha as [Haa Ha].
    cbn [insert_sorted]. destruct (Qle_bool y c) eqn:E.
    + constructor; [exact Hay|]. constructor; assumption.
    + apply Qle_bool_false in E.
      constructor; [lra|]. apply IH; [lra | exact Hs].
Qed.

Lemma insert_sorted_pointwise (x y : Q) (l1 l2 : list Q) :
  Forall2 Qle l1 l2 -> x <= y ->
  StronglySorted Qle l1 -> StronglySorted Qle l2 ->
  Forall2 Qle (insert_sorted x l1) (insert_sorted y l2).
Proof.
  intros H Hxy. induction H as [|a b l1 l2 Hab H IH]; intros S1 S2.
  - cbn. repeat constructor. exact Hxy.
  - pose proof S1 as S1'. pose proof S2 as S2'.
    apply StronglySorted_inv in S1' as [T1 _].
    apply StronglySorted_inv in S2' as [T2 _].
    cbn [insert_sorted].
    destruct (Qle_bool x a) eqn:E1; destruct (Qle_bool y b) eqn:E2.
    + constructor; [exact Hxy|]. constructor; assumption.
    + apply Qle_bool_iff in E1. apply Qle_bool_false in E2.
      constructor; [lra|]. apply cons_below_insert; [exact H | lra | exact S1].
    + apply Qle_bool_false in E1. apply Qle_bool_iff in E2.
      constructor; [lra|]. apply insert_below_cons; [exact H | lra | exact S2].
    + constructor; [exact Hab|]. apply IH; assumption.
Qed.

(** Sorting keeps a pointwise order: each order statistic of the smaller
    sample is below that of the larger one. *)
Lemma np_sort_pointwise (l1 l2 : list Q) :
  Forall2 Qle l1 l2 -> Forall2 Qle (np_sort l1) (np_sort l2).
Proof.
  induction 1 as [|x y l1 l2 Hxy H IH]; [constructor|].
  cbn [np_sort foldr]. fold (np_sort l1) (np_sort l2).
  apply insert_sorted_pointwise; [exact IH | exact Hxy | |];
    apply np_sort_sorted.
Qed.

End SortFacts.

Module PercentileFacts.
Import SortFacts.

(** The interpolation index of [np_percentile] on [n] samples: its integer
    part is a valid position and its fractional part is in [0, 1). *)
Lemma percentile_index (n : nat) (q : Q) :
  (0 < n)%nat -> 0 <= q -> q <= 100 ->
  let idx := q / 100 * (Qnat n - 1) in
  let lo := Z.to_nat (Qfloor idx) in
  (lo <= n - 1)%nat /\ Qnat lo <= idx /\ idx < Qnat lo + 1.
Proof.
  intros Hn Hq0 Hq1. cbv zeta.
  assert (Hn1 : 1 <= Qnat n).
  { change 1 with (Qnat 1). apply Qnat_le. lia. }
  assert (Hq : 0 <= q / 100 /\ q / 100 <= 1).
  { split; [apply Qle_shift_div_l | apply Qle_shift_div_r]; lra. }
  destruct Hq as [Hq2 Hq3].
  set (w := q / 100) in *.
  assert (I0 : 0 <= w * (Qnat n - 1)) by (apply Qmult_le_0_compat; lra).
  assert (I1 : w * (Qnat n - 1) <= Qnat n - 1).
  { assert (H : 0 <= (1 - w) * (Qnat n - 1))
      by (apply Qmult_le_0_compat; lra).
    lra. }
  set (idx := w * (Qnat n - 1)) in *.
  assert (F0 : (0 <= Qfloor idx)%Z).
  { change 0%Z with (Qfloor 0). apply Qfloor_resp_le. exact I0. }
  assert (F1 : (Qfloor idx <= Z.of_nat n - 1)%Z).
  { rewrite <- (Qfloor_Z (Z.of_nat n - 1)). apply Qfloor_resp_le.
    unfold Z.sub. rewrite inject_Z_plus. exact I1. }
  assert (E : Qnat (Z.to_nat (Qfloor idx)) = inject_Z (Qfloor idx)).
  { unfold Qnat. rewrite Z2Nat.id; [reflexivity | exact F0]. }
  rewrite E. split; [lia|]. split.
  - apply Qfloor_le.
  - rewrite <- (inject_Z_plus _ 1). apply Qlt_floor.
Qed.

(** An interpolated value lies between the two order statistics it
    interpolates. *)
Lemma interpolation_bounds (a b w : Q) :
  a <= b -> 0 <= w -> w <= 1 -> a <= a + (b - a) * w /\ a + (b - a) * w <= b.
Proof.
  intros Hab H0 H1.
  assert (X : 0 <= (b - a) * w) by (apply Qmult_le_0_compat; lra).
  assert (Y : 0 <= (b - a) * (1 - w)) by (apply Qmult_le_0_compat; lra).
  split; lra.
Qed.

(** A percentile of a non-empty sample lies within any interval that holds
    the sample. *)
Lemma percentile_within (P : Q -> Prop) (l : list Q) (q : Q) :
  (forall a b w : Q, P a -> P b -> a <= b -> 0 <= w -> w <= 1 ->
                     P (a + (b - a) * w)) ->
  l <> [] -> 0 <= q -> q <= 100 -> Forall P l -> P (np_percentile l q).
Proof.
  intros Hconv Hne Hq0 Hq1 HF. unfold np_percentile. cbv zeta.
  assert (Hn : (0 < length l)%nat) by (destruct l; [congruence | cbn; lia]).
  destruct (percentile_index (length l) q Hn Hq0 Hq1) as (L & G0 & G1).
  cbv zeta in L, G0, G1.
  set (idx := q / 100 * (Qnat (length l) - 1)) in *.
  set (lo := Z.to_nat (Qfloor idx)) in *.
  set (hi := Nat.min (lo + 1) (length l - 1)).
  pose proof (np_sort_sorted l) as Hs.
  pose proof (np_sort_length l) as Hl.
  pose proof (np_sort_Forall P l HF) as HP.
  apply Hconv.
  - apply Forall_nth; [exact HP | lia].
  - apply Forall_nth; [exact HP | lia].
  - apply sorted_nth_le; [exact Hs | lia | lia].
  - lra.
  - lra.
Qed.

(** Percentiles are monotone in the sample, taken pointwise. *)
Lemma percentile_pointwise (l1 l2 : list Q) (q : Q) :
  Forall2 Qle l1 l2 -> 0 <= q -> q <= 100 ->
  np_percentile l1 q <= np_percentile l2 q.
Proof.
  intros H Hq0 Hq1.
  pose proof (Forall2_length _ _ _ H) as Hlen.
  destruct l1 as [|x l1].
  { destruct l2; [|discriminate Hlen]. cbn. lra. }
  unfold np_percentile. cbv zeta. rewrite <- Hlen.
  set (n := length (x :: l1)).
  assert (Hn : (0 < n)%nat) by (cbn; lia).
  destruct (percentile_index n q Hn Hq0 Hq1) as (L & G0 & G1).
  cbv zeta in L, G0, G1.
  set (idx := q / 100 * (Qnat n - 1)) in *.
  set (lo := Z.to_nat (Qfloor idx)) in *.
  set (hi := Nat.min (lo + 1) (n - 1)).
  pose proof (np_sort_pointwise _ _ H) as Hp.
  pose proof (Forall2_nth_le _ _ lo Hp) as A.
  pose proof (Forall2_nth_le _ _ hi Hp) as B.
  set (w := idx - Qnat lo) in *.
  set (a1 := nth lo (np_sort (x :: l1)) 0) in *.
  set (b1 := nth hi (np_sort (x :: l1)) 0) in *.
  set (a2 := nth lo (np_sort l2) 0) in *.
  set (b2 := nth hi (np_sort l2) 0) in *.
  assert (X : 0 <= (a2 - a1) * (1 - w))
    by (apply Qmult_le_0_compat; unfold w; lra).
  assert (Y : 0 <= (b2 - b1) * w)
    by (apply Qmult_le_0_compat; unfold w; lra).
  lra.
Qed.

(** Percentiles are monotone in the rank. *)
Lemma percentile_monotone (l : list Q) (q1 q2 : Q) :
  l <> [] -> 0 <= q1 -> q1 <= q2 -> q2 <= 100 ->
  np_percentile l q1 <= np_percentile l q2.
Proof.
  intros Hne H0 H12 H2. unfold np_percentile. cbv zeta.
  assert (Hn : (0 < length l)%nat) by (destruct l; [congruence | cbn; lia]).
  assert (H1a : q1 <= 100) by lra. assert (H2a : 0 <= q2) by lra.
  destruct (percentile_index (length l) q1 Hn H0 H1a) as (L1 & G1 & K1).
  destruct (percentile_index (length l) q2 Hn H2a H2) as (L2 & G2 & K2).
  cbv zeta in L1, G1, K1, L2, G2, K2.
  assert (Hn1 : 1 <= Qnat (length l)).
  { change 1 with (Qnat 1). apply Qnat_le. lia. }
  assert (Hidx : q1 / 100 * (Qnat (length l) - 1)
                 <= q2 / 100 * (Qnat (length l) - 1)).
  { apply Qmult_le_compat_r; [|lra].
    apply Qmult_le_compat_r; [exact H12|]. apply Qinv_le_0_compat. lra. }
  set (idx1 := q1 / 100 * (Qnat (length l) - 1)) in *.
  set (idx2 := q2 / 100 * (Qnat (length l) - 1)) in *.
  assert (Hlo : (Z.to_nat (Qfloor idx1) <= Z.to_nat (Qfloor idx2))%nat).
  { pose proof (Qfloor_resp_le _ _ Hidx). lia. }
  set (lo1 := Z.to_nat (Qfloor idx1)) in *.
  set (lo2 := Z.to_nat (Qfloor idx2)) in *.
  pose proof (np_sort_sorted l) as Hs.
  pose proof (np_sort_length l) as Hl.
  set (s := np_sort l) in *.
  set (hi1 := Nat.min (lo1 + 1) (length l - 1)).
  set (hi2 := Nat.min (lo2 + 1) (length l - 1)).
  assert (A1 : nth lo1 s 0 <= nth hi1 s 0)
    by (apply sorted_nth_le; [exact Hs | lia | lia]).
  assert (A2 : nth lo2 s 0 <= nth hi2 s 0)
    by (apply sorted_nth_le; [exact Hs | lia | lia]).
  destruct (Nat.eq_dec lo1 lo2) as [E | N].
  - subst hi1 hi2. rewrite <- E in *.
    set (a := nth lo1 s 0) in *.
    set (b := nth (Nat.min (lo1 + 1) (length l - 1)) s 0) in *.
    assert (X : 0 <= (b - a) * (idx2 - idx1))
      by (apply Qmult_le_0_compat; lra).
    lra.
  - assert (B : nth hi1 s 0 <= nth lo2 s 0)
      by (apply sorted_nth_le; [exact Hs | lia | lia]).
    destruct (interpolation_bounds (nth lo1 s 0) (nth hi1 s 0)
                (idx1 - Qnat lo1)) as [_ U]; [exact A1 | lra | lra |].
    destruct (interpolation_bounds (nth lo2 s 0) (nth hi2 s 0)
                (idx2 - Qnat lo2)) as [V _]; [exact A2 | lra | lra |].
    lra.
Qed.

End PercentileFacts.

(** ** Rows of the timeline projector *)

Module RowFacts.
Import Timeline TimelineFacts PaidFacts.

Lemma rent_years_shape (self : MonteCarloHousingSimulator) (k : nat)
    (rent income cumulative : Q) (g : rng) :
  length (fst (rent_years self k rent income cumulative g)) = k
  /\ snd (rent_years self k rent income cumulative g) = advance (2 * k) g.
Proof.
  revert rent income cumulative g.
  induction k as [|k IH]; intros rent income cumulative g.
  - cbn. split; [reflexivity | destruct g; reflexivity].
  - rewrite rent_years_step. cbv zeta. cbn [fst snd length].
    match goal with |- context [rent_years self k ?a ?b ?c ?d] =>
      destruct (IH a b c d) as [L G] end.
    rewrite L, G, advance_advance. split; [reflexivity|].
    f_equal. lia.
Qed.

Lemma buy_years_shape (self : MonteCarloHousingSimulator)
    (params : HousingScenarioParameters) (k : nat)
    (rate mortgage insurance value balance income cumulative : Q) (g : rng) :
  length (fst (buy_years self params k rate mortgage insurance value balance
                 income cumulative g)) = k
  /\ snd (buy_years self params k rate mortgage insurance value balance
            income cumulative g) = advance (3 * k) g.
Proof.
  revert insurance value balance income cumulative g.
  induction k as [|k IH]; intros insurance value balance income cumulative g.
  - cbn. split; [reflexivity | destruct g; reflexivity].
  - rewrite buy_years_step. cbv zeta. cbn [fst snd length].
    match goal with |- context [buy_years self params k ?a ?b ?c ?d ?e ?f ?h ?i] =>
      destruct (IH c d e f h i) as [L G] end.
    rewrite L, G, advance_advance. split; [reflexivity|].
    f_equal. lia.
Qed.

(** A trial of the projector fills the years [0 .. years] and consumes a
    number of variates that depends only on the branch it takes. *)
Lemma run_trial_shape (self : MonteCarloHousingSimulator)
    (household : Household) (name : string)
    (params : HousingScenarioParameters) (years : nat) (g : rng) :
  length (fst (run_trial self household name params years g)) = (years + 1)%nat
  /\ snd (run_trial self household name params years g)
     = advance
         (if String.eqb name "Keep Renting" then 2 * years
          else if Buying.fails_entry household
                    (Buying.drawn_entry params household g)
               then 1 else 2 + 3 * years) g.
Proof.
  unfold run_trial. destruct (String.eqb name "Keep Renting").
  - unfold rent_trial. rewrite bind_run. cbn [fst snd ret length].
    match goal with |- context [rent_years self years ?a ?b ?c ?d] =>
      destruct (rent_years_shape self years a b c d) as [L G] end.
    rewrite L, G. split; [lia | reflexivity].
  - rewrite buy_trial_run.
    destruct (Buying.fails_entry household _).
    + cbn [fst snd]. rewrite repeat_length. split; reflexivity.
    + cbn [fst snd length]. unfold later_years.
      match goal with |- context [buy_years self params years ?a ?b ?c ?d ?e ?f ?h ?i] =>
        destruct (buy_years_shape self params years a b c d e f h i)
          as [L G] end.
      rewrite L, G, advance_advance. split; [lia|]. f_equal. lia.
Qed.

Lemma run_trial_tape (self : MonteCarloHousingSimulator)
    (household : Household) (name : string)
    (params : HousingScenarioParameters) (years : nat) (g : rng) :
  tape (snd (run_trial self household name params years g)) = tape g.
Proof.
  destruct (run_trial_shape self household name params years g) as [_ ->].
  reflexivity.
Qed.

(** The cumulative cost of a row never decreases from one year to the
    next. *)
Lemma run_trial_paid_sorted (self : MonteCarloHousingSimulator)
    (household : Household) (name : string)
    (params : HousingScenarioParameters) (years : nat) (g : rng) :
  params_ok params -> 0 <= current_monthly_rent household ->
  tape_ok g -> appreciation_ok params g ->
  Sorted Qle (map paid (fst (run_trial self household name params years g))).
Proof.
  intros Hp Hrent Ht Ha. unfold run_trial.
  destruct (String.eqb name "Keep Renting").
  - unfold rent_trial. rewrite bind_run. cbn [fst ret map paid].
    destruct (rent_years_sorted self years (current_monthly_rent household)
                (annual_income household) 0 g Ht Hrent) as (F & S & _).
    constructor; [exact S | apply HdRel_of_Forall; exact F].
  - rewrite buy_trial_run.
    destruct (Buying.fails_entry household _); cbn [fst].
    + rewrite map_repeat. apply Sorted_repeat.
    + apply SortedFacts.entered_row_sorted; assumption.
Qed.

End RowFacts.

(** Trials of one run share the tape: a property of the trial that holds
    on every generator with this tape holds for all trials. *)
Lemma replicate_rand_Forall_tape {A} (P : A -> Prop) (n : nat) (m : Rand A)
    (g : rng) :
  (forall g', tape (snd (m g')) = tape g') ->
  (forall g', tape g' = tape g -> P (fst (m g'))) ->
  Forall P (fst (replicate_rand n m g))
  /\ tape (snd (replicate_rand n m g)) = tape g.
Proof.
  intros Ht HP. revert g HP. induction n as [|n IH]; intros g HP.
  - cbn. split; [constructor | reflexivity].
  - rewrite replicate_rand_S. cbn [fst snd].
    destruct (IH (snd (m g))) as [F T].
    { intros g' E. apply HP. rewrite E. apply Ht. }
    split; [constructor; [apply HP; reflexivity | exact F]|].
    rewrite T. apply Ht.
Qed.

Module ColumnFacts.
Import Timeline.

Lemma column_length (f : point -> Q) (rows : list (list point)) (y : nat) :
  length (column f rows y) = length rows.
Proof. unfold column. apply length_map. Qed.

Lemma lookup_as_nth (f : point -> Q) (row : list point) (y : nat) :
  match row !! y with Some p => f p | None => 0 end = nth y (map f row) 0.
Proof.
  revert y. induction row as [|p row IH]; intros y.
  - destruct y; reflexivity.
  - destruct y as [|y]; [reflexivity|]. cbn [map nth]. rewrite <- IH.
    reflexivity.
Qed.

(** When the series of every row never decreases, the samples of a year
    are pointwise below those of the next year. *)
Lemma column_pointwise (f : point -> Q) (rows : list (list point))
    (years y : nat) :
  Forall (fun row => Sorted Qle (map f row)
                     /\ length row = (years + 1)%nat) rows ->
  (y < years)%nat ->
  Forall2 Qle (column f rows y) (column f rows (S y)).
Proof.
  intros HF Hy. unfold column.
  induction HF as [|row rows [Hs Hl] _ IH]; [constructor|].
  cbn [map]. constructor; [|exact IH].
  rewrite !lookup_as_nth.
  apply SortFacts.sorted_nth_le; [|lia | rewrite length_map; lia].
  apply Sorted_StronglySorted; [|exact Hs].
  intros a b c. apply Qle_trans.
Qed.

Lemma Forall2_map_same {A} (R : Q -> Q -> Prop) (f h : A -> Q) (l : list A) :
  (forall x, R (f x) (h x)) -> Forall2 R (map f l) (map h l).
Proof.
  intros H. induction l as [|x l IH]; [constructor|].
  cbn [map]. constructor; [apply H | exact IH].
Qed.

(** A series over the years [start ..] whose consecutive values are
    ordered is sorted. *)
Lemma Sorted_map_seq (f : nat -> Q) (start len : nat) :
  (forall y, (start <= y)%nat -> (S y < start + len)%nat -> f y <= f (S y)) ->
  Sorted Qle (map f (seq start len)).
Proof.
  revert start. induction len as [|len IH]; intros start H; [constructor|].
  cbn [seq map]. constructor.
  - apply IH. intros y Hy1 Hy2. apply H; lia.
  - destruct len as [|len]; [constructor|].
    cbn [seq map]. constructor. apply H; lia.
Qed.

End ColumnFacts.

Lemma simulate_timeline_run (self : MonteCarloHousingSimulator)
    (household : Household) (name : string)
    (params : HousingScenarioParameters) (n years : nat) (g : rng) :
  scenarios !! name = Some params ->
  simulate_timeline self household name n years g
  = (Ok (Timeline.aggregate name years
           (fst (replicate_rand n
                   (Timeline.run_trial self household name params years) g))),
     snd (replicate_rand n
            (Timeline.run_trial self household name params years) g)).
Proof.
  intros E. unfold simulate_timeline. rewrite E, bind_run. reflexivity.
Qed.

(** X7: [simulate_timeline] raises the [KeyError] of the catalog lookup
    for an unknown scenario name without drawing a variate; for a catalog
    key every trial fills exactly the years [0 .. H], so [years] is
    [0 .. H], each year column holds one sample per trial and each of the
    nine band lists has [H + 1] entries. *)
Theorem timeline_shape
    (self : MonteCarloHousingSimulator) (household : Household)
    (name : string) (num_simulations time_horizon_years : nat) (g : rng) :
  (~ In name (map fst scenario_catalog) ->
   simulate_timeline self household name num_simulations time_horizon_years g
   = (KeyError name, g))
  /\ (forall params : HousingScenarioParameters,
         scenarios !! name = Some params ->
         let rows :=
           fst (replicate_rand num_simulations
                  (Timeline.run_trial self household name params
                     time_horizon_years) g) in
         let r := Timeline.aggregate name time_horizon_years rows in
         fst (simulate_timeline self household name num_simulations
                time_horizon_years g) = Ok r
         /\ length rows = num_simulations
         /\ Forall (fun row => length row = (time_horizon_years + 1)%nat) rows
         /\ Timeline.t_years r = seq 0 (time_horizon_years + 1)
         /\ Forall (fun band =>
                      length (Timeline.pessimistic band)
                      = (time_horizon_years + 1)%nat
                      /\ length (Timeline.expected band)
                         = (time_horizon_years + 1)%nat
                      /\ length (Timeline.optimistic band)
                         = (time_horizon_years + 1)%nat)
              [Timeline.t_equity r; Timeline.t_monthly_costs r;
               Timeline.t_cumulative_costs r]).
Proof.
  split.
  - intros Hnot. unfold simulate_timeline.
    rewrite (scenarios_lookup_unknown _ Hnot). reflexivity.
  - intros params Hlook. cbv zeta.
    rewrite (simulate_timeline_run _ _ _ params) by exact Hlook.
    split; [reflexivity|].
    split; [apply replicate_rand_length|].
    split.
    + apply replicate_rand_Forall. intros g'.
      apply RowFacts.run_trial_shape.
    + split; [reflexivity|].
      unfold Timeline.aggregate.
      cbn [Timeline.t_equity Timeline.t_monthly_costs
           Timeline.t_cumulative_costs Timeline.pessimistic Timeline.expected
           Timeline.optimistic].
      repeat (constructor;
              [cbn [Timeline.pessimistic Timeline.expected
                    Timeline.optimistic];
               repeat split; rewrite length_map, length_seq; reflexivity|]).
      constructor.
Qed.

Lemma timeline_shape_witness :
  simulate_timeline default_simulator sample_household "Buy Castle" 100 10
    flat_rng
  = (KeyError "Buy Castle", flat_rng)
  /\ Forall (fun row => length row = (10 + 1)%nat)
       (fst (replicate_rand 100
               (Timeline.run_trial default_simulator sample_household
                  "Buy Starter Home" buy_starter_home 10) flat_rng)).
Proof.
  assert (H1 : ~ In "Buy Castle" (map fst scenario_catalog))
    by (cbn; intuition discriminate).
  assert (H2 : scenarios !! "Buy Starter Home" = Some buy_starter_home)
    by (vm_compute; reflexivity).
  destruct (timeline_shape default_simulator sample_household "Buy Castle"
              100 10 flat_rng) as [A _].
  destruct (timeline_shape default_simulator sample_household
              "Buy Starter Home" 100 10 flat_rng) as [_ B].
  destruct (B buy_starter_home H2) as (_ & _ & C & _).
  split; [exact (A H1) | exact C].
Defined.

Lemma timeline_columns_nonempty (self : MonteCarloHousingSimulator)
    (household : Household) (name : string)
    (params : HousingScenarioParameters) (n years : nat) (g : rng)
    (f : Timeline.point -> Q) (y : nat) :
  (0 < n)%nat ->
  Timeline.column f
    (fst (replicate_rand n
            (Timeline.run_trial self household name params years) g)) y
  <> [].
Proof.
  intros Hn E. apply (f_equal length) in E.
  rewrite ColumnFacts.column_length, replicate_rand_length in E.
  cbn in E. lia.
Qed.

(** X8: with at least one trial the bands of the projector are ordered
    at every year: pessimistic <= expected <= optimistic for equity, and
    optimistic <= expected <= pessimistic for the monthly and the
    cumulative costs. *)
Theorem timeline_bands_ordered
    (self : MonteCarloHousingSimulator) (household : Household)
    (name : string) (params : HousingScenarioParameters)
    (num_simulations time_horizon_years : nat) (g : rng) :
  (0 < num_simulations)%nat ->
  scenarios !! name = Some params ->
  exists r : Timeline.result,
    fst (simulate_timeline self household name num_simulations
           time_horizon_years g) = Ok r
    /\ Forall2 Qle (Timeline.pessimistic (Timeline.t_equity r))
         (Timeline.expected (Timeline.t_equity r))
    /\ Forall2 Qle (Timeline.expected (Timeline.t_equity r))
         (Timeline.optimistic (Timeline.t_equity r))
    /\ Forall2 Qle (Timeline.optimistic (Timeline.t_monthly_costs r))
         (Timeline.expected (Timeline.t_monthly_costs r))
    /\ Forall2 Qle (Timeline.expected (Timeline.t_monthly_costs r))
         (Timeline.pessimistic (Timeline.t_monthly_costs r))
    /\ Forall2 Qle (Timeline.optimistic (Timeline.t_cumulative_costs r))
         (Timeline.expected (Timeline.t_cumulative_costs r))
    /\ Forall2 Qle (Timeline.expected (Timeline.t_cumulative_costs r))
         (Timeline.pessimistic (Timeline.t_cumulative_costs r)).
Proof.
  intros HN Hlook. eexists.
  split; [rewrite (simulate_timeline_run _ _ _ params) by exact Hlook;
          reflexivity|].
  unfold Timeline.aggregate.
  cbn [Timeline.t_equity Timeline.t_monthly_costs Timeline.t_cumulative_costs
       Timeline.pessimistic Timeline.expected Timeline.optimistic].
  repeat split; apply ColumnFacts.Forall2_map_same; intros y;
    (apply PercentileFacts.percentile_monotone;
     [apply timeline_columns_nonempty; exact HN | lra | lra | lra]).
Qed.

Lemma timeline_bands_ordered_witness :
  exists r : Timeline.result,
    fst (simulate_timeline default_simulator sample_household
           "Buy Starter Home" 100 10 flat_rng) = Ok r
    /\ Forall2 Qle (Timeline.pessimistic (Timeline.t_equity r))
         (Timeline.expected (Timeline.t_equity r)).
Proof.
  assert (H1 : (0 < 100)%nat) by lia.
  assert (H2 : scenarios !! "Buy Starter Home" = Some buy_starter_home)
    by (vm_compute; reflexivity).
  destruct (timeline_bands_ordered default_simulator sample_household
              "Buy Starter Home" buy_starter_home 100 10 flat_rng H1 H2)
    as (r & E & A & _).
  exists r. split; [exact E | exact A].
Defined.

(** X9: with a non-negative rent, variates in the range of their
    distribution and no appreciation draw below -100 %, each of the three
    cumulative-cost bands of the projector never decreases from one year to
    the next: a percentile of samples that all grow cannot fall. *)
Theorem cumulative_cost_bands_never_decrease
    (self : MonteCarloHousingSimulator) (household : Household)
    (name : string) (params : HousingScenarioParameters)
    (num_simulations time_horizon_years : nat) (g : rng) :
  scenarios !! name = Some params ->
  0 <= current_monthly_rent household ->
  tape_ok g ->
  appreciation_ok params g ->
  exists r : Timeline.result,
    fst (simulate_timeline self household name num_simulations
           time_horizon_years g) = Ok r
    /\ Sorted Qle (Timeline.optimistic (Timeline.t_cumulative_costs r))
    /\ Sorted Qle (Timeline.expected (Timeline.t_cumulative_costs r))
    /\ Sorted Qle (Timeline.pessimistic (Timeline.t_cumulative_costs r)).
Proof.
  intros Hlook Hrent Ht Ha.
  pose proof (catalog_params_ok _ _ Hlook) as Hp.
  eexists.
  split; [rewrite (simulate_timeline_run _ _ _ params) by exact Hlook;
          reflexivity|].
  unfold Timeline.aggregate.
  cbn [Timeline.t_cumulative_costs Timeline.pessimistic Timeline.expected
       Timeline.optimistic].
  set (rows := fst (replicate_rand _ _ _)).
  assert (HF : Forall (fun row => Sorted Qle (map Timeline.paid row)
                                  /\ length row
                                     = (time_horizon_years + 1)%nat) rows).
  { apply replicate_rand_Forall_tape.
    - intros g'. apply RowFacts.run_trial_tape.
    - intros g' E. split.
      + apply RowFacts.run_trial_paid_sorted; try assumption.
        * intros n. rewrite E. apply Ht.
        * intros n. rewrite E. apply Ha.
      + apply RowFacts.run_trial_shape. }
  repeat split; apply ColumnFacts.Sorted_map_seq; intros y _ Hy;
    (apply PercentileFacts.percentile_pointwise;
     [apply (ColumnFacts.column_pointwise _ _ time_horizon_years);
      [exact HF | lia] | lra | lra]).
Qed.

Lemma cumulative_cost_bands_never_decrease_witness :
  exists r : Timeline.result,
    fst (simulate_timeline default_simulator comfortable_household
           "Buy Starter Home" 100 10 flat_rng) = Ok r
    /\ Sorted Qle (Timeline.expected (Timeline.t_cumulative_costs r)).
Proof.
  assert (H1 : scenarios !! "Buy Starter Home" = Some buy_starter_home)
    by (vm_compute; reflexivity).
  assert (H2 : 0 <= current_monthly_rent comfortable_household)
    by (vm_compute; discriminate).
  assert (H3 : appreciation_ok buy_starter_home flat_rng)
    by (intros n; vm_compute; discriminate).
  destruct (cumulative_cost_bands_never_decrease default_simulator
              comfortable_household "Buy Starter Home" buy_starter_home
              100 10 flat_rng H1 H2 flat_tape_ok H3)
    as (r & E & _ & A & _).
  exists r. split; [exact E | exact A].
Defined.

(** ** The simulators and the projector on the same generator *)

Lemma failed_equity_agrees (s c : Q) :
  (if Qle_bool c s then - c else - s) == - py_min s c.
Proof.
  destruct (py_min_cases s c) as [[L ->] | [L ->]].
  - assert (E : Qle_bool c s = true) by (apply Qle_bool_iff; lra).
    rewrite E. reflexivity.
  - destruct (Qle_bool c s) eqn:E; [|reflexivity].
    apply Qle_bool_iff in E. lra.
Qed.

(** X10: on the same generator the year-0 point of a buying row of the
    projector is the outcome that the buying simulator reports at horizon
    0: the same cumulative cost, the same equity (the down payment, or the
    loss of a failed entry), the same generator state; only the monthly
    cost differs, by the maintenance that the projector leaves out of
    year 0. *)
Theorem timeline_year_zero_is_horizon_zero
    (self : MonteCarloHousingSimulator) (household : Household)
    (name : string) (params : HousingScenarioParameters) (years : nat)
    (g : rng) :
  scenarios !! name = Some params ->
  tape_ok g ->
  let c := fst (Buying.run_trial self household params 0 g) in
  let e := Buying.drawn_entry params household g in
  exists (p : Timeline.point) (rest : list Timeline.point),
    fst (Timeline.buy_trial self household params years g) = p :: rest
    /\ Timeline.paid p = Buying.total_paid c
    /\ Timeline.equity p == Buying.final_equity c
    /\ Buying.monthly_costs c
       == (if Buying.fails_entry household e then 0
           else Timeline.cost p
                + Buying.home_price e * maintenance_annual_pct params / 12)
    /\ snd (Timeline.buy_trial self household params 0 g)
       = snd (Buying.run_trial self household params 0 g).
Proof.
  intros Hlook Ht. cbv zeta.
  pose proof (catalog_params_ok _ _ Hlook) as Hp.
  destruct (CostFacts.entry_ok params household g Hp (Ht _))
    as (E1 & E2 & E3 & E4).
  rewrite !TimelineFacts.buy_trial_run, TrialFacts.run_trial_run.
  destruct (Buying.fails_entry household
              (Buying.drawn_entry params household g)).
  - exists (Timeline.failed_point household params g),
      (repeat (Timeline.failed_point household params g) years).
    split; [rewrite Nat.add_comm; reflexivity|].
    cbn [fst snd Timeline.failed_point Timeline.paid Timeline.equity
         Buying.failed_entry_cells Buying.total_paid Buying.final_equity
         Buying.monthly_costs].
    split; [reflexivity|]. split; [|split; reflexivity].
    symmetry. apply failed_equity_agrees.
  - eexists. eexists. split; [reflexivity|].
    cbv zeta.
    cbn [fst snd Buying.year_loop ret Buying.settle Buying.total_paid
         Buying.final_equity Buying.monthly_costs Timeline.year0_point
         Timeline.paid Timeline.equity Timeline.cost Timeline.later_years
         Timeline.buy_years].
    destruct (start_locals_fields household params g)
      as (M & I & V & _ & T & D).
    cbv zeta in M, I, V, T, D. rewrite D, T.
    split; [reflexivity|]. split; [|split; [|reflexivity]].
    + rewrite V.
      change (Buying.current_loan_balance
                (Buying.start_locals household params g))
        with (Buying.home_price (Buying.drawn_entry params household g)
              - Buying.down_payment (Buying.drawn_entry params household g)).
      rewrite py_max_0_nonneg by lra. ring.
    + reflexivity.
Qed.

Lemma timeline_year_zero_is_horizon_zero_witness :
  exists (p : Timeline.point) (rest : list Timeline.point),
    fst (Timeline.buy_trial default_simulator comfortable_household
           buy_starter_home 10 flat_rng) = p :: rest
    /\ Timeline.paid p
       = Buying.total_paid
           (fst (Buying.run_trial default_simulator comfortable_household
                   buy_starter_home 0 flat_rng)).
Proof.
  assert (H1 : scenarios !! "Buy Starter Home" = Some buy_starter_home)
    by (vm_compute; reflexivity).
  destruct (timeline_year_zero_is_horizon_zero default_simulator
              comfortable_household "Buy Starter Home" buy_starter_home 10
              flat_rng H1 flat_tape_ok) as (p & rest & A & B & _).
  exists p, rest. split; [exact A | exact B].
Defined.

Module PrefixFacts.
Import Renting RentingFacts PaidFacts.

(** The renting simulator and the renting branch of the projector draw the
    same variates: the trial of the simulator is the row of the projector,
    cut at the first unaffordable year. *)
Lemma year_loop_is_prefix (self : MonteCarloHousingSimulator) (k : nat)
    (t : trial) (g : rng) :
  let t' := fst (year_loop self k t g) in
  let full :=
    {| Timeline.equity := 0; Timeline.cost := rent t;
       Timeline.paid := total_cost t |}
    :: fst (Timeline.rent_years self k (rent t) (income t) (total_cost t) g) in
  exists (j : nat) (p : Timeline.point),
    (j <= k)%nat
    /\ months_affordable t' = (months_affordable t + 12 * j)%nat
    /\ full !! j = Some p
    /\ Timeline.paid p = total_cost t'
    /\ (j = k ->
        Timeline.cost p = rent t'
        /\ snd (year_loop self k t g)
           = snd (Timeline.rent_years self k (rent t) (income t)
                    (total_cost t) g))
    /\ ((j < k)%nat ->
        exists p' : Timeline.point,
          full !! S j = Some p' /\ Timeline.cost p' = rent t').
Proof.
  revert t g. induction k as [|k IH]; intros t g; cbv zeta.
  - exists 0%nat. eexists. cbn.
    repeat split; try reflexivity; try lia.
  - rewrite rent_year_loop_step, rent_years_step. cbv zeta. cbn [fst snd].
    change (Buying.shocked_income self (income t) (advance 1 g))
      with (next_income self t g).
    change (rent t * (1 + fst (Sampler.triangular 0.03 0.05 0.10 g)))
      with (next_rent t g).
    destruct (ratio_le _ 0.35).
    + match goal with |- context [year_loop self k ?t1 ?g1] =>
        destruct (IH t1 g1) as (j & p & Hj & M & L & P & A & B) end.
      cbv zeta in M, L, P, A, B.
      cbn [rent income total_cost months_affordable] in M, L, P, A, B.
      exists (S j), p.
      split; [lia|]. split; [rewrite M; lia|].
      split; [exact L|]. split; [exact P|]. split.
      * intros E. apply A. lia.
      * intros E. apply B. lia.
    + exists 0%nat. eexists. cbn [fst snd months_affordable total_cost rent].
      split; [lia|]. split; [lia|]. split; [reflexivity|].
      split; [reflexivity|]. split; [intros E; discriminate E|].
      intros _. eexists. split; reflexivity.
Qed.

End PrefixFacts.

(** X11: on the same generator a trial of the renting simulator is the
    renting row of the projector, cut at the first unaffordable year: after
    [j] affordable years its total cost is the cumulative cost of year [j];
    when all years are affordable its rent is the cost of the last year and
    both leave the same generator, otherwise its rent is the cost of year
    [j + 1]. *)
Theorem renting_trial_is_timeline_prefix
    (self : MonteCarloHousingSimulator) (household : Household)
    (years : nat) (g : rng) :
  let t := fst (Renting.run_trial self household years g) in
  let row := fst (Timeline.rent_trial self household years g) in
  exists (j : nat) (p : Timeline.point),
    (j <= years)%nat
    /\ Renting.months_affordable t = (12 * j)%nat
    /\ row !! j = Some p
    /\ Timeline.paid p = Renting.total_cost t
    /\ (j = years ->
        Timeline.cost p = Renting.rent t
        /\ snd (Renting.run_trial self household years g)
           = snd (Timeline.rent_trial self household years g))
    /\ ((j < years)%nat ->
        exists p' : Timeline.point,
          row !! S j = Some p' /\ Timeline.cost p' = Renting.rent t).
Proof.
  cbv zeta. unfold Renting.run_trial, Timeline.rent_trial.
  rewrite bind_run. cbn [fst snd ret].
  match goal with |- context [Renting.year_loop self years ?t0 g] =>
    destruct (PrefixFacts.year_loop_is_prefix self years t0 g)
      as (j & p & Hj & M & L & P & A & B) end.
  cbv zeta in M, L, P, A, B.
  cbn [Renting.rent Renting.income Renting.total_cost
       Renting.months_affordable] in M, L, P, A, B.
  exists j, p. repeat split; first [assumption | lia | apply A; assumption].
Qed.

(** ** Variates consumed by a run *)

Module DrawFacts.

Lemma advance_0 (g : rng) : advance 0 g = g.
Proof. destruct g; reflexivity. Qed.

(** When every trial consumes between [lo] and [hi] variates, [n] trials
    consume between [n * lo] and [n * hi]. *)
Lemma replicate_rand_draws {A} (lo hi n : nat) (m : Rand A) (g : rng) :
  (forall g', exists d : nat,
      (lo <= d <= hi)%nat /\ snd (m g') = advance d g') ->
  exists d : nat,
    (n * lo <= d <= n * hi)%nat
    /\ snd (replicate_rand n m g) = advance d g.
Proof.
  intros H. revert g. induction n as [|n IH]; intros g.
  - exists 0%nat. split; [lia|]. cbn. symmetry. apply advance_0.
  - rewrite replicate_rand_S. cbn [snd].
    destruct (H g) as (d1 & B1 & E1). rewrite E1.
    destruct (IH (advance d1 g)) as (d2 & B2 & E2). rewrite E2.
    exists (d2 + d1)%nat. split; [lia|]. apply advance_advance.
Qed.

Lemma renting_year_loop_draws (self : MonteCarloHousingSimulator) (k : nat)
    (t : Renting.trial) (g : rng) :
  exists d : nat,
    (0 <= d <= 2 * k)%nat
    /\ snd (Renting.year_loop self k t g) = advance d g.
Proof.
  revert t g. induction k as [|k IH]; intros t g.
  - exists 0%nat. split; [lia|]. cbn. symmetry. apply advance_0.
  - rewrite RentingFacts.rent_year_loop_step.
    destruct (ratio_le _ 0.35).
    + match goal with |- context [Renting.year_loop self k ?t1 ?g1] =>
        destruct (IH t1 g1) as (d & B & E) end.
      rewrite E, advance_advance. exists (d + 2)%nat. split; [lia | reflexivity].
    + exists 2%nat. split; [lia | reflexivity].
Qed.

Lemma buying_month_loop_draws (self : MonteCarloHousingSimulator) (n : nat)
    (r : ratio) (l : Buying.locals) (g : rng) :
  exists d : nat,
    (0 <= d <= n)%nat /\ snd (Buying.month_loop self n r l g) = advance d g.
Proof.
  revert l g. induction n as [|n IH]; intros l g.
  - exists 0%nat. split; [lia|]. cbn. symmetry. apply advance_0.
  - cbn [Buying.month_loop].
    destruct (ratio_le r (affordability_threshold self)).
    + destruct (IH (Buying.pay_month l) g) as (d & B & E).
      exists d. split; [lia | exact E].
    + rewrite bind_run, random_run. cbn [fst snd].
      destruct (Qltb _ 0.3).
      * exists 1%nat. split; [lia | reflexivity].
      * destruct (IH l (advance 1 g)) as (d & B & E).
        rewrite E, advance_advance. exists (d + 1)%nat.
        split; [lia | reflexivity].
Qed.

Lemma buying_year_loop_draws (self : MonteCarloHousingSimulator)
    (params : HousingScenarioParameters) (k : nat) (l : Buying.locals)
    (g : rng) :
  exists d : nat,
    (0 <= d <= 16 * k)%nat
    /\ snd (Buying.year_loop self params k l g) = advance d g.
Proof.
  revert l g. induction k as [|k IH]; intros l g.
  - exists 0%nat. split; [lia|]. cbn. symmetry. apply advance_0.
  - rewrite YearFacts.year_loop_body. unfold Buying.year_body.
    match goal with |- context [Buying.month_loop self 12 ?r ?l1 ?g1] =>
      destruct (buying_month_loop_draws self 12 r l1 g1) as (d1 & B1 & E1);
      set (res := Buying.month_loop self 12 r l1 g1) in *
    end.
    destruct (Buying.defaulted (fst res)).
    + rewrite E1, advance_advance. exists (d1 + 4)%nat.
      split; [lia | reflexivity].
    + destruct (IH (fst res) (snd res)) as (d2 & B2 & E2).
      rewrite E2, E1, !advance_advance. exists (d2 + d1 + 4)%nat.
      split; [lia | reflexivity].
Qed.

Lemma buying_trial_draws (self : MonteCarloHousingSimulator)
    (household : Household) (params : HousingScenarioParameters)
    (years : nat) (g : rng) :
  exists d : nat,
    (1 <= d <= 2 + 16 * years)%nat
    /\ snd (Buying.run_trial self household params years g) = advance d g.
Proof.
  rewrite TrialFacts.run_trial_run.
  destruct (Buying.fails_entry household _).
  - exists 1%nat. split; [lia | reflexivity].
  - cbv zeta. cbn [snd].
    destruct (buying_year_loop_draws self params years
                (Buying.start_locals household params g) (advance 2 g))
      as (d & B & E).
    rewrite E, advance_advance. exists (d + 2)%nat. split; [lia | reflexivity].
Qed.

End DrawFacts.

(** X12: the variates that a run consumes.  The projector draws exactly
    [2 * H] per renting trial and 1 or [2 + 3 * H] per buying trial; the
    renting simulator at most [2 * H] per trial; the buying simulator
    between 1 and [2 + 16 * H] per trial.  The generator after a run is the
    generator before it, advanced by the sum. *)
Theorem generator_consumption
    (self : MonteCarloHousingSimulator) (household : Household)
    (name : string) (params : HousingScenarioParameters)
    (num_simulations time_horizon_years : nat) (g : rng) :
  scenarios !! name = Some params ->
  snd (simulate_timeline self household "Keep Renting" num_simulations
         time_horizon_years g)
  = advance (num_simulations * (2 * time_horizon_years)) g
  /\ (exists d : nat,
         (d <= num_simulations * (2 * time_horizon_years))%nat
         /\ snd (simulate_renting self household num_simulations
                   time_horizon_years g) = advance d g)
  /\ (exists d : nat,
         (num_simulations <= d
          <= num_simulations * (2 + 16 * time_horizon_years))%nat
         /\ snd (simulate_buying self household name num_simulations
                   time_horizon_years g) = advance d g)
  /\ (name <> "Keep Renting" ->
      exists d : nat,
        (num_simulations <= d
         <= num_simulations * (2 + 3 * time_horizon_years))%nat
        /\ snd (simulate_timeline self household name num_simulations
                  time_horizon_years g) = advance d g).
Proof.
  intros Hlook. split; [|split; [|split]].
  - rewrite (simulate_timeline_run _ _ _ keep_renting)
      by (vm_compute; reflexivity).
    cbn [snd].
    destruct (DrawFacts.replicate_rand_draws (2 * time_horizon_years)
                (2 * time_horizon_years) num_simulations
                (Timeline.run_trial self household "Keep Renting"
                   keep_renting time_horizon_years) g) as (d & B & E).
    { intros g'. exists (2 * time_horizon_years)%nat. split; [lia|].
      destruct (RowFacts.run_trial_shape self household "Keep Renting"
                  keep_renting time_horizon_years g') as [_ ->].
      reflexivity. }
    rewrite E. f_equal. lia.
  - unfold simulate_renting. rewrite bind_run. cbn [snd ret].
    destruct (DrawFacts.replicate_rand_draws 0 (2 * time_horizon_years)
                num_simulations
                (Renting.run_trial self household time_horizon_years) g)
      as (d & B & E).
    { intros g'. apply DrawFacts.renting_year_loop_draws. }
    exists d. split; [lia | exact E].
  - unfold simulate_buying. rewrite Hlook, bind_run. cbn [snd ret].
    destruct (DrawFacts.replicate_rand_draws 1 (2 + 16 * time_horizon_years)
                num_simulations
                (Buying.run_trial self household params time_horizon_years) g)
      as (d & B & E).
    { intros g'. apply DrawFacts.buying_trial_draws. }
    exists d. split; [lia | exact E].
  - intros Hne.
    rewrite (simulate_timeline_run _ _ _ params) by exact Hlook.
    cbn [snd].
    destruct (DrawFacts.replicate_rand_draws 1 (2 + 3 * time_horizon_years)
                num_simulations
                (Timeline.run_trial self household name params
                   time_horizon_years) g) as (d & B & E).
    { intros g'.
      destruct (RowFacts.run_trial_shape self household name params
                  time_horizon_years g') as [_ ->].
      destruct (String.eqb_spec name "Keep Renting") as [C | _];
        [contradiction|].
      destruct (Buying.fails_entry household _); eexists;
        (split; [|reflexivity]); lia. }
    exists d. split; [lia | exact E].
Qed.

Lemma generator_consumption_witness :
  snd (simulate_timeline default_simulator sample_household "Keep Renting"
         100 10 flat_rng)
  = advance (100 * (2 * 10)) flat_rng.
Proof.
  assert (H1 : scenarios !! "Buy Starter Home" = Some buy_starter_home)
    by (vm_compute; reflexivity).
  exact (proj1 (generator_consumption default_simulator sample_household
                  "Buy Starter Home" buy_starter_home 100 10 flat_rng H1)).
Defined.

(** ** Statistics of a bounded sample *)

Module StatFacts.
Import SortFacts PercentileFacts.

Lemma np_sum_bounds (lo hi : Q) (l : list Q) :
  Forall (fun x => lo <= x /\ x <= hi) l ->
  Qnat (length l) * lo <= np_sum l /\ np_sum l <= Qnat (length l) * hi.
Proof.
  induction 1 as [|x l [H1 H2] _ [IH1 IH2]].
  - change (0 * lo <= 0 /\ 0 <= 0 * hi). split; lra.
  - cbn [np_sum foldr length]. fold (np_sum l).
    change (S (length l)) with (1 + length l)%nat. rewrite Qnat_plus.
    change (Qnat 1) with 1. split; lra.
Qed.

Lemma np_mean_bounds (lo hi : Q) (l : list Q) :
  l <> [] -> Forall (fun x => lo <= x /\ x <= hi) l ->
  lo <= np_mean l /\ np_mean l <= hi.
Proof.
  intros Hne HF. destruct (np_sum_bounds lo hi l HF) as [S1 S2].
  assert (Hn : (0 < length l)%nat) by (destruct l; [congruence | cbn; lia]).
  pose proof (Qnat_pos _ Hn) as Hp.
  unfold np_mean. split.
  - apply Qle_shift_div_l; [exact Hp | lra].
  - apply Qle_shift_div_r; [exact Hp | lra].
Qed.

Lemma np_median_bounds (lo hi : Q) (l : list Q) :
  l <> [] -> Forall (fun x => lo <= x /\ x <= hi) l ->
  lo <= np_median l /\ np_median l <= hi.
Proof.
  intros Hne HF.
  assert (Hn : (0 < length l)%nat) by (destruct l; [congruence | cbn; lia]).
  pose proof (np_sort_Forall _ l HF) as HS.
  pose proof (np_sort_length l) as HL.
  assert (Hdiv : (length l / 2 < length l)%nat)
    by (apply Nat.div_lt; lia).
  unfold np_median. cbv zeta.
  destruct (Nat.even (length l)).
  - destruct (Forall_nth _ (np_sort l) (length l / 2 - 1) HS) as [A1 A2];
      [lia|].
    destruct (Forall_nth _ (np_sort l) (length l / 2) HS) as [B1 B2];
      [lia|].
    split; [apply Qle_shift_div_l | apply Qle_shift_div_r]; lra.
  - apply (Forall_nth _ (np_sort l) (length l / 2) HS). lia.
Qed.

Lemma np_percentile_bounds (lo hi : Q) (l : list Q) (q : Q) :
  l <> [] -> 0 <= q -> q <= 100 ->
  Forall (fun x => lo <= x /\ x <= hi) l ->
  lo <= np_percentile l q /\ np_percentile l q <= hi.
Proof.
  intros Hne H0 H1 HF.
  apply (percentile_within (fun x => lo <= x /\ x <= hi)); try assumption.
  intros a b w [A1 A2] [B1 B2] Hab W0 W1.
  destruct (interpolation_bounds a b w Hab W0 W1). split; lra.
Qed.

(** Every statistic of a summary lies within bounds that hold for the
    sample. *)
Lemma summarize_bounds (lo hi : Q) (l : list Q) :
  l <> [] -> Forall (fun x => lo <= x /\ x <= hi) l ->
  summary_at_least lo (summarize l) /\ summary_at_most hi (summarize l).
Proof.
  intros Hne HF. unfold summary_at_least, summary_at_most, summarize.
  cbn [mean median percentile_5 percentile_95].
  destruct (np_mean_bounds lo hi l Hne HF).
  destruct (np_median_bounds lo hi l Hne HF).
  destruct (np_percentile_bounds lo hi l 5 Hne) as [? ?]; [lra | lra | exact HF|].
  destruct (np_percentile_bounds lo hi l 95 Hne) as [? ?]; [lra | lra | exact HF|].
  repeat split; assumption.
Qed.

(** A finite sample has an upper bound. *)
Lemma sample_bounded_above (l : list Q) :
  exists hi : Q, Forall (fun x => x <= hi) l.
Proof.
  induction l as [|x l [hi IH]]; [exists 0; constructor|].
  exists (Qmax x hi). constructor; [apply Q.le_max_l|].
  eapply Forall_impl; [exact IH|]. intros y Hy. cbv beta in *.
  pose proof (Q.le_max_r x hi). lra.
Qed.

(** A sample of positive values has a positive lower bound. *)
Lemma sample_positive_bound (l : list Q) :
  Forall (fun x => 0 < x) l ->
  exists lo : Q, 0 < lo /\ Forall (fun x => lo <= x) l.
Proof.
  induction 1 as [|x l Hx _ (lo & Hlo & IH)].
  - exists 1. split; [lra | constructor].
  - exists (Qmin x lo). split; [apply Q.min_glb_lt; assumption|].
    constructor; [apply Q.le_min_l|].
    eapply Forall_impl; [exact IH|]. intros y Hy. cbv beta in *.
    pose proof (Q.le_min_r x lo). lra.
Qed.

Lemma summarize_at_least (lo : Q) (l : list Q) :
  l <> [] -> Forall (fun x => lo <= x) l -> summary_at_least lo (summarize l).
Proof.
  intros Hne HF. destruct (sample_bounded_above l) as [hi Hhi].
  apply (summarize_bounds lo hi l Hne).
  rewrite List.Forall_forall in *. intros x Hx. split; auto.
Qed.

End StatFacts.

(** ** Rent never falls *)

Module RentFacts.
Import Renting RentingFacts.

Lemma next_rent_bounds (t : trial) (g : rng) :
  tape_ok g -> 0 <= rent t ->
  rent t <= next_rent t g.
Proof.
  intros Ht Hr. unfold next_rent.
  assert (B : 0.03 <= 0.05 /\ 0.05 <= 0.10) by (split; lra).
  destruct B as [B1 B2].
  destruct (triangular_bounds 0.03 0.05 0.10 g B1 B2 (Ht _)) as [T1 _].
  set (i := fst (Sampler.triangular 0.03 0.05 0.10 g)) in *.
  assert (H : 0 <= rent t * i) by (apply Qmult_le_0_compat; lra).
  lra.
Qed.

(** Along a trial the rent never falls, so the total cost lies between the
    paid months at the first rent and the paid months at the last rent. *)
Lemma year_loop_rent (self : MonteCarloHousingSimulator) (k : nat)
    (t : trial) (g : rng) :
  tape_ok g -> 0 <= rent t ->
  let t' := fst (year_loop self k t g) in
  exists j : nat,
    months_affordable t' = (months_affordable t + 12 * j)%nat
    /\ rent t <= rent t'
    /\ total_cost t + Qnat (12 * j) * rent t <= total_cost t'
    /\ total_cost t' <= total_cost t + Qnat (12 * j) * rent t'.
Proof.
  revert t g. induction k as [|k IH]; intros t g Ht Hr; cbv zeta.
  - exists 0%nat. cbn [year_loop ret fst]. change (Qnat (12 * 0)) with 0.
    repeat split; try lra; try lia.
  - rewrite rent_year_loop_step.
    pose proof (next_rent_bounds t g Ht Hr) as Hn.
    destruct (ratio_le _ 0.35).
    + match goal with |- context [year_loop self k ?t1 ?g1] =>
        destruct (IH t1 g1) as (j & M & R & C1 & C2);
        [apply tape_ok_advance; exact Ht | cbn [rent]; lra |];
        set (t' := fst (year_loop self k t1 g1)) in *
      end.
      cbn [rent total_cost months_affordable] in M, R, C1, C2.
      exists (S j). split; [rewrite M; lia|]. split; [lra|].
      replace (12 * S j)%nat with (12 + 12 * j)%nat by lia.
      rewrite Qnat_plus. change (Qnat 12) with 12.
      pose proof (Qnat_nonneg (12 * j)) as Hj.
      set (J := Qnat (12 * j)) in *.
      assert (X : 0 <= J * (next_rent t g - rent t))
        by (apply Qmult_le_0_compat; lra).
      split; lra.
    + exists 0%nat. cbn [fst rent total_cost months_affordable].
      change (Qnat (12 * 0)) with 0. repeat split; try lra; try lia.
Qed.

End RentFacts.

(** X13: with a non-negative rent and variates in the range of their
    distribution the rent of a renting trial never falls: its final rent is
    at least the current rent and its total cost lies between the paid
    months at the current rent and the paid months at the final rent.
    Hence every statistic of the final monthly cost is at least the initial
    monthly cost, and every statistic of the total cost is non-negative. *)
Theorem renting_costs_never_fall
    (self : MonteCarloHousingSimulator) (household : Household)
    (num_simulations time_horizon_years : nat) (g : rng) :
  (0 < num_simulations)%nat ->
  tape_ok g ->
  0 <= current_monthly_rent household ->
  let r := fst (simulate_renting self household num_simulations
                  time_horizon_years g) in
  Forall (fun t =>
            current_monthly_rent household <= Renting.rent t
            /\ Qnat (Renting.months_affordable t)
               * current_monthly_rent household
               <= Renting.total_cost t
            /\ Renting.total_cost t
               <= Qnat (Renting.months_affordable t) * Renting.rent t)
    (fst (replicate_rand num_simulations
            (Renting.run_trial self household time_horizon_years) g))
  /\ summary_at_least (Renting.r_initial_monthly_cost r)
       (Renting.r_final_monthly_cost r)
  /\ summary_at_least 0 (Renting.r_total_cost_paid r).
Proof.
  intros HN Ht Hr. cbv zeta.
  set (trials := fst (replicate_rand _ _ _)).
  assert (HF : Forall (fun t =>
            current_monthly_rent household <= Renting.rent t
            /\ Qnat (Renting.months_affordable t)
               * current_monthly_rent household
               <= Renting.total_cost t
            /\ Renting.total_cost t
               <= Qnat (Renting.months_affordable t) * Renting.rent t)
            trials).
  { apply replicate_rand_Forall_tape.
    - intros g'. unfold Renting.run_trial.
      apply RentingFacts.rent_year_loop_months.
    - intros g' E.
      assert (Ht' : tape_ok g') by (intros n; rewrite E; apply Ht).
      unfold Renting.run_trial.
      match goal with |- context [Renting.year_loop self _ ?t0 g'] =>
        destruct (RentFacts.year_loop_rent self time_horizon_years t0 g'
                    Ht' Hr) as (j & M & R & C1 & C2) end.
      cbv zeta in M, R, C1, C2.
      cbn [Renting.rent Renting.total_cost Renting.months_affordable]
        in M, R, C1, C2.
      rewrite M. cbn [Nat.add]. split; [exact R|]. split; lra. }
  assert (Hne : trials <> []).
  { intros E. apply (f_equal length) in E. unfold trials in E.
    rewrite replicate_rand_length in E. cbn in E. lia. }
  split; [exact HF|].
  rewrite simulate_renting_run. unfold Renting.aggregate.
  cbn [Renting.r_initial_monthly_cost Renting.r_final_monthly_cost
       Renting.r_total_cost_paid].
  fold trials. split.
  - apply StatFacts.summarize_at_least.
    + intros E. apply Hne. destruct trials; [reflexivity | discriminate E].
    + apply Forall_map. eapply Forall_impl; [exact HF|].
      intros t (A & _). exact A.
  - apply StatFacts.summarize_at_least.
    + intros E. apply Hne. destruct trials; [reflexivity | discriminate E].
    + apply Forall_map. eapply Forall_impl; [exact HF|].
      intros t (_ & B & _). cbv beta.
      pose proof (Qnat_nonneg (Renting.months_affordable t)) as Hm.
      assert (X : 0 <= Qnat (Renting.months_affordable t)
                       * current_monthly_rent household)
        by (apply Qmult_le_0_compat; assumption).
      lra.
Qed.

Lemma renting_costs_never_fall_witness :
  summary_at_least
    (Renting.r_initial_monthly_cost
       (fst (simulate_renting default_simulator sample_household 3 2
               flat_rng)))
    (Renting.r_final_monthly_cost
       (fst (simulate_renting default_simulator sample_household 3 2
               flat_rng))).
Proof.
  assert (H1 : (0 < 3)%nat) by lia.
  assert (H2 : 0 <= current_monthly_rent sample_household)
    by (vm_compute; discriminate).
  exact (proj1 (proj2 (renting_costs_never_fall default_simulator
                         sample_household 3 2 flat_rng H1 flat_tape_ok H2))).
Defined.

(** ** Household fields that matter *)

(** X14: the household fields that each method reads.  Buying results
    depend on the household only through its id, income, savings, credit
    score and region (not on the rent or the debt-to-income ratio, which is
    read and never used); renting results only through id, income and
    rent; timeline results only through income, savings, credit score,
    region and rent. *)
Theorem unused_household_fields
    (self : MonteCarloHousingSimulator) (h1 h2 : Household)
    (name : string) (num_simulations time_horizon_years : nat) (g : rng) :
  household_id h1 = household_id h2 ->
  annual_income h1 = annual_income h2 ->
  (savings h1 = savings h2 ->
   credit_score h1 = credit_score h2 ->
   region h1 = region h2 ->
   simulate_buying self h1 name num_simulations time_horizon_years g
   = simulate_buying self h2 name num_simulations time_horizon_years g)
  /\ (current_monthly_rent h1 = current_monthly_rent h2 ->
      simulate_renting self h1 num_simulations time_horizon_years g
      = simulate_renting self h2 num_simulations time_horizon_years g)
  /\ (savings h1 = savings h2 ->
      credit_score h1 = credit_score h2 ->
      region h1 = region h2 ->
      current_monthly_rent h1 = current_monthly_rent h2 ->
      simulate_timeline self h1 name num_simulations time_horizon_years g
      = simulate_timeline self h2 name num_simulations time_horizon_years g).
Proof.
  destruct h1, h2. cbn. intros -> ->.
  split; [|split].
  - intros -> -> ->. reflexivity.
  - intros ->. reflexivity.
  - intros -> -> -> ->. reflexivity.
Qed.

Lemma unused_household_fields_witness :
  simulate_buying default_simulator sample_household "Buy Starter Home"
    100 10 flat_rng
  = simulate_buying default_simulator indebted_household "Buy Starter Home"
      100 10 flat_rng.
Proof.
  destruct (unused_household_fields default_simulator sample_household
              indebted_household "Buy Starter Home" 100 10 flat_rng
              eq_refl eq_refl) as (A & _).
  exact (A eq_refl eq_refl eq_refl).
Defined.

(** X15: savings matter only at the gate.  When a buying trial passes
    the savings gate, the trial of a household with the same income, credit
    score and region and at least as much savings passes it on the same
    generator and has the same outcome, in the simulator and in the
    projector. *)
Theorem savings_matter_only_at_the_gate
    (self : MonteCarloHousingSimulator) (h1 h2 : Household)
    (params : HousingScenarioParameters) (years : nat) (g : rng) :
  annual_income h1 = annual_income h2 ->
  credit_score h1 = credit_score h2 ->
  region h1 = region h2 ->
  savings h1 <= savings h2 ->
  Buying.fails_entry h1 (Buying.drawn_entry params h1 g) = false ->
  Buying.fails_entry h2 (Buying.drawn_entry params h2 g) = false
  /\ Buying.run_trial self h2 params years g
     = Buying.run_trial self h1 params years g
  /\ Timeline.buy_trial self h2 params years g
     = Timeline.buy_trial self h1 params years g.
Proof.
  intros Ei Ec Er Hs Hgate.
  assert (Ee : Buying.drawn_entry params h2 g = Buying.drawn_entry params h1 g)
    by (unfold Buying.drawn_entry; rewrite Er; reflexivity).
  assert (Hgate2 : Buying.fails_entry h2 (Buying.drawn_entry params h2 g)
                   = false).
  { rewrite Ee. unfold Buying.fails_entry in *.
    apply Qltb_false. apply Qltb_false in Hgate. lra. }
  split; [exact Hgate2|].
  assert (Es : Buying.start_locals h2 params g
               = Buying.start_locals h1 params g).
  { unfold Buying.start_locals, Buying.drawn_rate. rewrite Ee, Er, Ec.
    unfold Buying.initial_locals. rewrite Ei. reflexivity. }
  split.
  - rewrite !TrialFacts.run_trial_run, Hgate, Hgate2. cbv zeta.
    rewrite Es, Ee. reflexivity.
  - rewrite !TimelineFacts.buy_trial_run, Hgate, Hgate2.
    unfold Timeline.year0_point, Timeline.later_years, Buying.drawn_rate.
    cbv zeta. rewrite Ee, Er, Ec, Ei. reflexivity.
Qed.

Lemma savings_matter_only_at_the_gate_witness :
  Buying.run_trial default_simulator wealthy_household buy_starter_home 10
    flat_rng
  = Buying.run_trial default_simulator comfortable_household buy_starter_home
      10 flat_rng.
Proof.
  assert (H1 : savings comfortable_household <= savings wealthy_household)
    by (vm_compute; discriminate).
  assert (H2 : Buying.fails_entry comfortable_household
                 (Buying.drawn_entry buy_starter_home comfortable_household
                    flat_rng) = false)
    by (vm_compute; reflexivity).
  destruct (savings_matter_only_at_the_gate default_simulator
              comfortable_household wealthy_household buy_starter_home 10
              flat_rng eq_refl eq_refl eq_refl H1 H2) as (_ & A & _).
  exact A.
Defined.

(** ** Savings thresholds of the gate *)

Module GateFacts.
Import Buying.

(** The gate asks for an amount between the two thresholds. *)
Lemma entry_cost_bounds (params : HousingScenarioParameters)
    (household : Household) (g : rng) :
  params_ok params -> cell_ok (tape g (cursor g)) ->
  let e := drawn_entry params household g in
  entry_cost_min params household <= down_payment e + closing_costs e
  /\ down_payment e + closing_costs e <= entry_cost_max params household.
Proof.
  intros (P1 & P2 & P3 & P4 & P5 & _) (U1 & U2 & _). cbv zeta.
  destruct (region_adj_ok (region household)) as [R1 _].
  unfold drawn_entry, entry_cost_min, entry_cost_max.
  rewrite TrialFacts.draw_entry_run. cbv zeta.
  cbn [fst down_payment closing_costs].
  set (u := unit01 (tape g (cursor g))) in *.
  set (m := price_multiplier (region_adj_of (region household))) in *.
  set (lo := home_price_min params) in *.
  set (hi := home_price_max params) in *.
  set (need := down_payment_pct params + closing_costs_pct params).
  assert (N0 : 0 <= need) by (unfold need; lra).
  assert (A : 0 <= (hi - lo) * u) by (apply Qmult_le_0_compat; lra).
  assert (B : 0 <= (hi - lo) * (1 - u)) by (apply Qmult_le_0_compat; lra).
  assert (C : 0 <= m * need) by (apply Qmult_le_0_compat; lra).
  assert (D : 0 <= (hi - lo) * u * (m * need))
    by (apply Qmult_le_0_compat; lra).
  assert (E : 0 <= (hi - lo) * (1 - u) * (m * need))
    by (apply Qmult_le_0_compat; lra).
  fold need.
  split.
  - apply Qle_trans with (lo * m * need + (hi - lo) * u * (m * need));
      [lra|]. apply Qle_lteq. right. unfold need. ring.
  - apply Qle_trans with (hi * m * need - (hi - lo) * (1 - u) * (m * need));
      [|lra]. apply Qle_lteq. right. unfold need. ring.
Qed.

Lemma gate_fails_below (params : HousingScenarioParameters)
    (household : Household) (g : rng) :
  params_ok params -> cell_ok (tape g (cursor g)) ->
  savings household < entry_cost_min params household ->
  fails_entry household (drawn_entry params household g) = true.
Proof.
  intros Hp Hc Hs. destruct (entry_cost_bounds params household g Hp Hc).
  unfold fails_entry. apply Qltb_true. lra.
Qed.

Lemma gate_passes_above (params : HousingScenarioParameters)
    (household : Household) (g : rng) :
  params_ok params -> cell_ok (tape g (cursor g)) ->
  entry_cost_max params household <= savings household ->
  fails_entry household (drawn_entry params household g) = false.
Proof.
  intros Hp Hc Hs. destruct (entry_cost_bounds params household g Hp Hc).
  unfold fails_entry. apply Qltb_false. lra.
Qed.

End GateFacts.

(** X16: the thresholds of the savings gate.  The gate asks for an amount
    between [(down payment % + closing costs %)] of the lowest and of the
    highest regional price.  With savings at least a cent below the lower
    threshold every trial fails the gate: the probability of default is 1,
    no month is solvent and, for a positive horizon, the probability of
    staying affordable is 0.  With savings at least a cent above the upper
    threshold no trial fails the gate, and at horizon 0 the probability of
    default is 0.  The cent keeps the statement clear of the rounding of
    the sum that the code compares the savings with. *)
Theorem savings_thresholds
    (self : MonteCarloHousingSimulator) (household : Household)
    (name : string) (params : HousingScenarioParameters)
    (num_simulations time_horizon_years : nat) (g : rng) :
  (0 < num_simulations)%nat ->
  scenarios !! name = Some params ->
  tape_ok g ->
  (savings household + gate_margin <= entry_cost_min params household ->
   exists b : Buying.result,
     fst (simulate_buying self household name num_simulations
            time_horizon_years g) = Ok b
     /\ Buying.r_probability_default b == 1
     /\ Buying.r_mean_affordable_months b == 0
     /\ ((0 < time_horizon_years)%nat ->
         Buying.r_probability_affordable b == 0))
  /\ (entry_cost_max params household + gate_margin <= savings household ->
      (forall g' : rng,
          tape g' = tape g ->
          Buying.fails_entry household
            (Buying.drawn_entry params household g') = false)
      /\ exists b : Buying.result,
           fst (simulate_buying self household name num_simulations 0 g)
           = Ok b
           /\ Buying.r_probability_default b == 0).
Proof.
  intros HN Hlook Ht.
  pose proof (catalog_params_ok _ _ Hlook) as Hp.
  split.
  - intros Hs'.
    assert (Hs : savings household < entry_cost_min params household)
      by (unfold gate_margin in Hs'; lra).
    eexists. split; [apply simulate_buying_run; exact Hlook|].
    set (trials := fst (replicate_rand _ _ _)).
    assert (L : length trials = num_simulations)
      by apply replicate_rand_length.
    assert (HF : Forall (fun c => Buying.default_occurred c = true
                                  /\ Buying.months_solvent c = 0%nat)
                   trials).
    { apply replicate_rand_Forall_tape.
      - intros g'.
        destruct (DrawFacts.buying_trial_draws self household params
                    time_horizon_years g') as (d & _ & ->).
        reflexivity.
      - intros g' E. rewrite TrialFacts.run_trial_run.
        rewrite GateFacts.gate_fails_below;
          [split; reflexivity | exact Hp | rewrite E; apply Ht | exact Hs]. }
    unfold Buying.aggregate.
    cbn [Buying.r_probability_default Buying.r_mean_affordable_months
         Buying.r_probability_affordable].
    split; [|split].
    + rewrite count_all, L; [apply fraction_all; exact HN|].
      eapply Forall_impl; [exact HF|]. intros c [D _]. exact D.
    + destruct (mean_months_bounds 0 num_simulations
                  (map Buying.months_solvent trials) HN) as [B1 B2].
      * rewrite length_map. exact L.
      * apply Forall_map. eapply Forall_impl; [exact HF|].
        intros c [_ M]. cbv beta. lia.
      * change (Qnat 0) with 0 in B1, B2. lra.
    + intros HH. rewrite map_map, count_none.
      * unfold Qdiv. change (Qnat 0) with 0. ring.
      * eapply Forall_impl; [exact HF|]. intros c [_ M]. cbv beta.
        rewrite M. apply Nat.eqb_neq. lia.
  - intros Hs'.
    assert (Hs : entry_cost_max params household <= savings household)
      by (unfold gate_margin in Hs'; lra).
    assert (G : forall g' : rng,
               tape g' = tape g ->
               Buying.fails_entry household
                 (Buying.drawn_entry params household g') = false).
    { intros g' E. apply GateFacts.gate_passes_above;
        [exact Hp | rewrite E; apply Ht | exact Hs]. }
    split; [exact G|].
    eexists. split; [apply simulate_buying_run; exact Hlook|].
    unfold Buying.aggregate. cbn [Buying.r_probability_default].
    rewrite count_none.
    + unfold Qdiv. change (Qnat 0) with 0. ring.
    + apply replicate_rand_Forall_tape.
      * intros g'.
        destruct (DrawFacts.buying_trial_draws self household params 0 g')
          as (d & _ & ->).
        reflexivity.
      * intros g' E. rewrite TrialFacts.run_trial_run, (G g' E).
        reflexivity.
Qed.

Lemma savings_thresholds_witness :
  (exists b : Buying.result,
      fst (simulate_buying default_simulator sample_household
             "Buy Starter Home" 100 10 flat_rng) = Ok b
      /\ Buying.r_probability_default b == 1)
  /\ (exists b : Buying.result,
         fst (simulate_buying default_simulator wealthy_household
                "Buy Starter Home" 100 0 flat_rng) = Ok b
         /\ Buying.r_probability_default b == 0).
Proof.
  assert (H1 : (0 < 100)%nat) by lia.
  assert (H2 : scenarios !! "Buy Starter Home" = Some buy_starter_home)
    by (vm_compute; reflexivity).
  assert (H3 : savings sample_household + gate_margin
               <= entry_cost_min buy_starter_home sample_household)
    by (vm_compute; discriminate).
  assert (H4 : entry_cost_max buy_starter_home wealthy_household
               + gate_margin <= savings wealthy_household)
    by (vm_compute; discriminate).
  destruct (savings_thresholds default_simulator sample_household
              "Buy Starter Home" buy_starter_home 100 10 flat_rng H1 H2
              flat_tape_ok) as [A _].
  destruct (savings_thresholds default_simulator wealthy_household
              "Buy Starter Home" buy_starter_home 100 0 flat_rng H1 H2
              flat_tape_ok) as [_ B].
  destruct (A H3) as (b & E & D & _).
  destruct (B H4) as (_ & b' & E' & D').
  split; [exists b | exists b']; split; assumption.
Defined.

(** ** The total cost of a buying run is never zero *)

Module PaidPositive.
Import Buying.

Lemma buying_params_positive (name : string)
    (p : HousingScenarioParameters) :
  scenarios !! name = Some p -> name <> "Keep Renting" ->
  0 < home_price_min p /\ 0 < closing_costs_pct p.
Proof.
  rewrite scenarios_lookup. intros H Hne.
  destruct (decide ("Keep Renting" = name)) as [E | _]; [congruence|].
  repeat (destruct (decide _) as [_ | _];
          [injection H as <-; cbn; split; lra|]).
  discriminate.
Qed.

Lemma region_price_positive (r : string) :
  0 < price_multiplier (region_adj_of r).
Proof.
  unfold region_adj_of, region_adjustments.
  rewrite !list_to_map_cons, list_to_map_nil.
  rewrite !lookup_insert, lookup_empty.
  repeat (destruct (decide _) as [_ | _]; [cbn; lra|]).
  cbn. lra.
Qed.

Lemma closing_costs_positive (name : string)
    (params : HousingScenarioParameters) (household : Household) (g : rng) :
  scenarios !! name = Some params -> name <> "Keep Renting" ->
  cell_ok (tape g (cursor g)) ->
  0 < closing_costs (drawn_entry params household g).
Proof.
  intros Hlook Hne (U1 & U2 & _).
  destruct (buying_params_positive _ _ Hlook Hne) as [P1 P2].
  destruct (catalog_params_ok _ _ Hlook) as (_ & Q2 & _).
  pose proof (region_price_positive (region household)) as R.
  unfold drawn_entry. rewrite TrialFacts.draw_entry_run. cbv zeta.
  cbn [fst closing_costs].
  set (u := unit01 (tape g (cursor g))) in *.
  assert (A : 0 <= (home_price_max params - home_price_min params) * u)
    by (apply Qmult_le_0_compat; lra).
  apply Qmult_lt_0_compat; [|exact P2].
  apply Qmult_lt_0_compat; [lra | exact R].
Qed.

(** Every trial pays something when the household has savings. *)
Lemma trial_paid_positive (self : MonteCarloHousingSimulator)
    (household : Household) (name : string)
    (params : HousingScenarioParameters) (years : nat) (g : rng) :
  scenarios !! name = Some params -> name <> "Keep Renting" ->
  tape_ok g -> appreciation_ok params g -> 0 < savings household ->
  0 < total_paid (fst (run_trial self household params years g)).
Proof.
  intros Hlook Hne Ht Ha Hs.
  pose proof (catalog_params_ok _ _ Hlook) as Hp.
  pose proof (closing_costs_positive name params household g Hlook Hne (Ht _))
    as Hc.
  rewrite TrialFacts.run_trial_run.
  destruct (fails_entry household (drawn_entry params household g)).
  - cbn [fst failed_entry_cells total_paid].
    destruct (py_min_cases (savings household)
                (closing_costs (drawn_entry params household g)))
      as [[_ ->] | [_ ->]]; assumption.
  - cbv zeta. cbn [fst settle total_paid].
    destruct (CostFacts.start_locals_ok household params g Hp (Ht _))
      as (C & _ & T & _).
    destruct (CostFacts.entry_ok params household g Hp (Ht _))
      as (_ & E2 & _ & _).
    destruct (CostFacts.year_loop_ok self params years
                (start_locals household params g) (advance 2 g) Hp
                (tape_ok_advance 2 g Ht) Ha C) as [_ Y].
    rewrite T in Y. lra.
Qed.

End PaidPositive.

(** X17: a buying run never reports a zero total cost for a household
    with savings.  For a buying scenario, positive savings, variates in
    range and no appreciation draw below -100 %, every trial pays a
    positive amount, so the mean, the median and both percentiles of the
    total cost are positive. *)
Theorem positive_savings_positive_cost
    (self : MonteCarloHousingSimulator) (household : Household)
    (name : string) (params : HousingScenarioParameters)
    (num_simulations time_horizon_years : nat) (g : rng) :
  (0 < num_simulations)%nat ->
  scenarios !! name = Some params ->
  name <> "Keep Renting" ->
  tape_ok g ->
  appreciation_ok params g ->
  0 < savings household ->
  exists (b : Buying.result) (lo : Q),
    fst (simulate_buying self household name num_simulations
           time_horizon_years g) = Ok b
    /\ 0 < lo
    /\ summary_at_least lo (Buying.r_total_cost_paid b).
Proof.
  intros HN Hlook Hne Ht Ha Hs.
  set (trials := fst (replicate_rand num_simulations
                        (Buying.run_trial self household params
                           time_horizon_years) g)).
  assert (HF : Forall (fun c => 0 < Buying.total_paid c) trials).
  { apply replicate_rand_Forall_tape.
    - intros g'.
      destruct (DrawFacts.buying_trial_draws self household params
                  time_horizon_years g') as (d & _ & ->).
      reflexivity.
    - intros g' E.
      apply (PaidPositive.trial_paid_positive self household name);
        try assumption.
      + intros n. rewrite E. apply Ht.
      + intros n. rewrite E. apply Ha. }
  destruct (StatFacts.sample_positive_bound (map Buying.total_paid trials))
    as (lo & Hlo & Hall).
  { apply Forall_map. exact HF. }
  exists (Buying.aggregate household name num_simulations time_horizon_years
            trials), lo.
  split; [apply simulate_buying_run; exact Hlook|].
  split; [exact Hlo|].
  unfold Buying.aggregate. cbn [Buying.r_total_cost_paid].
  apply StatFacts.summarize_at_least; [|exact Hall].
  intros E. apply (f_equal length) in E.
  rewrite length_map in E. unfold trials in E.
  rewrite replicate_rand_length in E. cbn in E. lia.
Qed.

Lemma positive_savings_positive_cost_witness :
  exists (b : Buying.result) (lo : Q),
    fst (simulate_buying default_simulator sample_household
           "Buy Starter Home" 100 10 flat_rng) = Ok b
    /\ 0 < lo
    /\ summary_at_least lo (Buying.r_total_cost_paid b).
Proof.
  assert (H1 : (0 < 100)%nat) by lia.
  assert (H2 : scenarios !! "Buy Starter Home" = Some buy_starter_home)
    by (vm_compute; reflexivity).
  assert (H3 : "Buy Starter Home" <> "Keep Renting") by discriminate.
  assert (H4 : appreciation_ok buy_starter_home flat_rng)
    by (intros n; vm_compute; discriminate).
  assert (H5 : 0 < savings sample_household) by (vm_compute; reflexivity).
  exact (positive_savings_positive_cost default_simulator sample_household
           "Buy Starter Home" buy_starter_home 100 10 flat_rng H1 H2 H3
           flat_tape_ok H4 H5).
Defined.

(** ** The recommendations of the application *)

Module AppFacts.
Import App.

Lemma max_from_spec {A} (key : A -> Q) (best : A) (l : list A) :
  In (max_from key best l) (best :: l)
  /\ Forall (fun x => key x <= key (max_from key best l)) (best :: l).
Proof.
  revert best. induction l as [|x l IH]; intros best.
  - cbn. split; [left; reflexivity|]. repeat constructor. lra.
  - cbn [max_from].
    destruct (Qltb (key best) (key x)) eqn:E.
    + apply Qltb_true in E. destruct (IH x) as [I F].
      apply Forall_cons_iff in F as [F1 F2].
      split; [right; exact I|].
      constructor; [lra|]. constructor; assumption.
    + apply Qltb_false in E. destruct (IH best) as [I F].
      apply Forall_cons_iff in F as [F1 F2].
      split; [destruct I as [I | I]; [left; exact I | right; right; exact I]|].
      constructor; [exact F1|]. constructor; [lra | exact F2].
Qed.

Lemma min_from_spec {A} (key : A -> Q) (best : A) (l : list A) :
  In (min_from key best l) (best :: l)
  /\ Forall (fun x => key (min_from key best l) <= key x) (best :: l).
Proof.
  revert best. induction l as [|x l IH]; intros best.
  - cbn. split; [left; reflexivity|]. repeat constructor. lra.
  - cbn [min_from].
    destruct (Qltb (key x) (key best)) eqn:E.
    + apply Qltb_true in E. destruct (IH x) as [I F].
      apply Forall_cons_iff in F as [F1 F2].
      split; [right; exact I|].
      constructor; [lra|]. constructor; assumption.
    + apply Qltb_false in E. destruct (IH best) as [I F].
      apply Forall_cons_iff in F as [F1 F2].
      split; [destruct I as [I | I]; [left; exact I | right; right; exact I]|].
      constructor; [exact F1|]. constructor; [lra | exact F2].
Qed.

(** The first item keeps the title on a tie. *)
Lemma max_from_first {A} (key : A -> Q) (best : A) (l : list A) :
  Forall (fun x => key x <= key best) l -> max_from key best l = best.
Proof.
  induction 1 as [|x l Hx _ IH]; [reflexivity|].
  cbn [max_from]. apply Qltb_false in Hx. rewrite Hx. exact IH.
Qed.

Lemma min_from_first {A} (key : A -> Q) (best : A) (l : list A) :
  Forall (fun x => key best <= key x) l -> min_from key best l = best.
Proof.
  induction 1 as [|x l Hx _ IH]; [reflexivity|].
  cbn [min_from]. apply Qltb_false in Hx. rewrite Hx. exact IH.
Qed.

(** A later item takes the title only with a strictly smaller key. *)
Lemma min_from_moved {A} (key : A -> Q) (best : A) (l : list A) :
  min_from key best l <> best ->
  exists x, In x l /\ key x < key best.
Proof.
  revert best. induction l as [|x l IH]; intros best Hne.
  - cbn in Hne. congruence.
  - cbn [min_from] in Hne.
    destruct (Qltb (key x) (key best)) eqn:E.
    + apply Qltb_true in E. exists x. split; [left; reflexivity | exact E].
    + destruct (IH best Hne) as (y & Hy & Ly).
      exists y. split; [right; exact Hy | exact Ly].
Qed.

End AppFacts.

Lemma buying_default_bounds (household : Household) (name : string)
    (n years : nat) (trials : list Buying.cells) :
  (0 < n)%nat -> length trials = n ->
  0 <= Buying.r_probability_default
         (Buying.aggregate household name n years trials)
  /\ Buying.r_probability_default
       (Buying.aggregate household name n years trials) <= 1.
Proof.
  intros Hn Hl. unfold Buying.aggregate. cbn [Buying.r_probability_default].
  apply mask_fraction_bounds; assumption.
Qed.

(** X18: the button of the household page always has three
    recommendations to show, whatever the generator held before the click
    (the simulator is seeded anew), and they are optimal over the four
    scenarios: the most affordable scenario has the largest probability of
    staying affordable, the lowest-risk one the smallest default
    probability (renting counting as 1), and the best equity builder the
    largest mean equity, which is never negative because renting offers
    0. *)
Theorem recommendations_are_optimal
    (bitgen : Z -> nat -> cell)
    (income_growth insurance_increase affordability_threshold : Q)
    (household : Household) (num_simulations time_horizon_years : nat)
    (g : rng) :
  (0 < num_simulations)%nat ->
  let simulator :=
    {| income_growth := income_growth;
       insurance_increase := insurance_increase;
       affordability_threshold := affordability_threshold;
       appreciation_rate := None;
       interest_rate := None |} in
  exists (c : list (string * ResultRecord)) (rec : App.Recommendations),
    fst (compare_scenarios simulator household num_simulations
           time_horizon_years (Rng (bitgen 42%Z) 0)) = Ok c
    /\ fst (App.compare_all bitgen income_growth insurance_increase
              affordability_threshold household num_simulations
              time_horizon_years g) = Ok (Some rec)
    /\ App.recommend c = Some rec
    /\ In (App.best_afford rec) c
    /\ In (App.safest rec) c
    /\ In (App.best_equity rec) c
    /\ Forall (fun x => App.probability_affordable (snd x)
                        <= App.probability_affordable
                             (snd (App.best_afford rec))) c
    /\ Forall (fun x => App.probability_default_or 1 (snd (App.safest rec))
                        <= App.probability_default_or 1 (snd x)) c
    /\ Forall (fun x => App.equity_mean (snd x)
                        <= App.equity_mean (snd (App.best_equity rec))) c
    /\ 0 <= App.equity_mean (snd (App.best_equity rec)).
Proof.
  intros _ simulator. unfold App.compare_all. rewrite bind_run.
  change (fst (init bitgen 42 income_growth insurance_increase
                 affordability_threshold None None g)) with simulator.
  change (snd (init bitgen 42 income_growth insurance_increase
                 affordability_threshold None None g))
    with (Rng (bitgen 42%Z) 0).
  rewrite bind_run, compare_scenarios_run. cbv zeta. cbn [fst snd ret].
  eexists. eexists. split; [reflexivity|].
  unfold App.recommend, App.py_max_key, App.py_min_key.
  split; [reflexivity|]. split; [reflexivity|].
  cbn [App.best_afford App.safest App.best_equity].
  match goal with
  | |- In (App.max_from ?k1 ?x ?l) _ /\ In (App.min_from ?k2 _ _) _
       /\ In (App.max_from ?k3 _ _) _ /\ _ =>
      destruct (AppFacts.max_from_spec k1 x l) as [I1 F1];
      destruct (AppFacts.min_from_spec k2 x l) as [I2 F2];
      destruct (AppFacts.max_from_spec k3 x l) as [I3 F3]
  end.
  repeat (split; [assumption|]).
  apply Forall_cons_iff in F3 as [F3 _]. cbv beta in F3.
  eapply Qle_trans; [|exact F3].
  cbn [snd App.equity_mean]. rewrite simulate_renting_run.
  unfold Renting.aggregate. cbn [Renting.r_equity_built mean]. lra.
Qed.

Lemma recommendations_are_optimal_witness :
  exists rec : App.Recommendations,
    fst (App.compare_all harmonic_bitgen 0.04 0.08 0.50 sample_household
           1000 10 flat_rng) = Ok (Some rec)
    /\ 0 <= App.equity_mean (snd (App.best_equity rec)).
Proof.
  assert (H1 : (0 < 1000)%nat) by lia.
  destruct (recommendations_are_optimal harmonic_bitgen 0.04 0.08 0.50
              sample_household 1000 10 flat_rng H1)
    as (c & rec & _ & A & _ & _ & _ & _ & _ & _ & _ & B).
  exists rec. split; [exact A | exact B].
Defined.

(** X19: 'Keep Renting' is named as the lowest-risk scenario exactly when
    all three buying scenarios default in every trial; the page then prints
    a default risk of 0 for it, although it was selected with a risk of 1.
    Otherwise the lowest-risk scenario is a buying scenario and the printed
    risk is below 1. *)
Theorem renting_as_lowest_risk
    (self : MonteCarloHousingSimulator) (household : Household)
    (num_simulations time_horizon_years : nat) (g : rng) :
  (0 < num_simulations)%nat ->
  exists (r : Renting.result) (b1 b2 b3 : Buying.result)
         (rec : App.Recommendations),
    fst (compare_scenarios self household num_simulations time_horizon_years
           g)
    = Ok [ ("Keep Renting", RentingRecord r);
           ("Buy Starter Home", BuyingRecord b1);
           ("Buy Standard Home", BuyingRecord b2);
           ("Buy Premium Home", BuyingRecord b3) ]
    /\ App.recommend
         [ ("Keep Renting", RentingRecord r);
           ("Buy Starter Home", BuyingRecord b1);
           ("Buy Standard Home", BuyingRecord b2);
           ("Buy Premium Home", BuyingRecord b3) ] = Some rec
    /\ (fst (App.safest rec) = "Keep Renting"
        <-> Buying.r_probability_default b1 == 1
            /\ Buying.r_probability_default b2 == 1
            /\ Buying.r_probability_default b3 == 1)
    /\ (fst (App.safest rec) = "Keep Renting" ->
        App.displayed_default_risk rec = 0)
    /\ (fst (App.safest rec) <> "Keep Renting" ->
        App.displayed_default_risk rec < 1).
Proof.
  intros HN. rewrite compare_scenarios_run. cbv zeta. cbn [fst].
  set (t1 := fst (replicate_rand num_simulations
                    (Buying.run_trial self household buy_starter_home _) _)).
  set (t2 := fst (replicate_rand num_simulations
                    (Buying.run_trial self household buy_standard_home _) _)).
  set (t3 := fst (replicate_rand num_simulations
                    (Buying.run_trial self household buy_premium_home _) _)).
  destruct (buying_default_bounds household "Buy Starter Home"
              num_simulations time_horizon_years t1 HN)
    as [_ U1]; [apply replicate_rand_length|].
  destruct (buying_default_bounds household "Buy Standard Home"
              num_simulations time_horizon_years t2 HN)
    as [_ U2]; [apply replicate_rand_length|].
  destruct (buying_default_bounds household "Buy Premium Home"
              num_simulations time_horizon_years t3 HN)
    as [_ U3]; [apply replicate_rand_length|].
  set (b1 := Buying.aggregate household "Buy Starter Home" _ _ t1) in *.
  set (b2 := Buying.aggregate household "Buy Standard Home" _ _ t2) in *.
  set (b3 := Buying.aggregate household "Buy Premium Home" _ _ t3) in *.
  eexists. exists b1, b2, b3. eexists.
  split; [reflexivity|]. split; [reflexivity|].
  cbn [App.safest App.displayed_default_risk].
  set (key := fun x : string * ResultRecord =>
                App.probability_default_or 1 (snd x)).
  set (x0 := ("Keep Renting", RentingRecord _)).
  set (l := [("Buy Starter Home", BuyingRecord b1);
             ("Buy Standard Home", BuyingRecord b2);
             ("Buy Premium Home", BuyingRecord b3)]).
  destruct (AppFacts.min_from_spec key x0 l) as [I F].
  assert (Hiff : fst (App.min_from key x0 l) = "Keep Renting"
                 <-> App.min_from key x0 l = x0).
  { split; [|intros ->; reflexivity].
    intros E. destruct I as [I | [I | [I | [I | []]]]];
      rewrite <- I in E |- *; first [reflexivity | discriminate E]. }
  assert (Hall : App.min_from key x0 l = x0
                 <-> Buying.r_probability_default b1 == 1
                     /\ Buying.r_probability_default b2 == 1
                     /\ Buying.r_probability_default b3 == 1).
  { split.
    - intros E. rewrite E in F.
      apply Forall_cons_iff in F as [_ F].
      apply Forall_cons_iff in F as [F1 F].
      apply Forall_cons_iff in F as [F2 F].
      apply Forall_cons_iff in F as [F3 _].
      unfold key, x0 in F1, F2, F3.
      cbn [snd App.probability_default_or] in F1, F2, F3.
      repeat split; lra.
    - intros (E1 & E2 & E3). apply AppFacts.min_from_first.
      unfold key, x0, l.
      repeat constructor; cbn [snd App.probability_default_or]; lra. }
  split; [rewrite Hiff; exact Hall|]. split.
  - intros E. apply Hiff in E. rewrite E. reflexivity.
  - intros Hne.
    assert (Hne' : App.min_from key x0 l <> x0)
      by (intros E; apply Hne; apply Hiff; exact E).
    destruct (AppFacts.min_from_moved key x0 l Hne') as (y & Hy & Ly).
    assert (K : key (App.min_from key x0 l) < 1).
    { rewrite List.Forall_forall in F.
      pose proof (F y (or_intror Hy)) as Fy.
      change (key x0) with 1 in Ly. lra. }
    destruct I as [I | I]; [congruence|].
    destruct I as [I | [I | [I | []]]]; rewrite <- I in K |- *; exact K.
Qed.

Lemma renting_as_lowest_risk_witness :
  exists (c : list (string * ResultRecord)) (rec : App.Recommendations),
    fst (compare_scenarios default_simulator sample_household 1000 10
           flat_rng) = Ok c
    /\ App.recommend c = Some rec
    /\ (fst (App.safest rec) = "Keep Renting" ->
        App.displayed_default_risk rec = 0).
Proof.
  assert (H1 : (0 < 1000)%nat) by lia.
  destruct (renting_as_lowest_risk default_simulator sample_household
              1000 10 flat_rng H1)
    as (r & b1 & b2 & b3 & rec & A & B & _ & C & _).
  eexists. exists rec. split; [exact A | split; [exact B | exact C]].
Defined.

(** ** What each setting can change *)

Section Settings.

Variables s1 s2 : MonteCarloHousingSimulator.
Hypothesis Hgrowth : income_growth s1 = income_growth s2.

Lemma renting_trial_reads (household : Household) (years : nat) (g : rng) :
  Renting.run_trial s1 household years g
  = Renting.run_trial s2 household years g.
Proof.
  unfold Renting.run_trial. generalize
    {| Renting.rent := current_monthly_rent household;
       Renting.total_cost := 0;
       Renting.months_affordable := 0;
       Renting.income := annual_income household |}.
  revert g. induction years as [|k IH]; intros g t; [reflexivity|].
  rewrite !RentingFacts.rent_year_loop_step.
  unfold Renting.next_income. rewrite Hgrowth.
  destruct (ratio_le _ 0.35); [apply IH | reflexivity].
Qed.

Lemma timeline_rent_years_reads (k : nat) (rent income cumulative : Q)
    (g : rng) :
  Timeline.rent_years s1 k rent income cumulative g
  = Timeline.rent_years s2 k rent income cumulative g.
Proof.
  revert rent income cumulative g.
  induction k as [|k IH]; intros rent income cumulative g; [reflexivity|].
  rewrite !PaidFacts.rent_years_step. cbv zeta.
  unfold Buying.shocked_income. rewrite Hgrowth, IH. reflexivity.
Qed.

Hypothesis Hmode :
  np_clip (insurance_increase s1) 0.03 0.12
  = np_clip (insurance_increase s2) 0.03 0.12.

Lemma timeline_buy_years_reads (params : HousingScenarioParameters)
    (k : nat) (rate mortgage insurance value balance income cumulative : Q)
    (g : rng) :
  Timeline.buy_years s1 params k rate mortgage insurance value balance
    income cumulative g
  = Timeline.buy_years s2 params k rate mortgage insurance value balance
      income cumulative g.
Proof.
  revert insurance value balance income cumulative g.
  induction k as [|k IH];
    intros insurance value balance income cumulative g; [reflexivity|].
  rewrite !PaidFacts.buy_years_step. cbv zeta.
  unfold Buying.shocked_income, Buying.shocked_insurance.
  rewrite Hgrowth, Hmode, IH. reflexivity.
Qed.

Lemma timeline_trial_reads (household : Household) (scenario_name : string)
    (params : HousingScenarioParameters) (years : nat) (g : rng) :
  Timeline.run_trial s1 household scenario_name params years g
  = Timeline.run_trial s2 household scenario_name params years g.
Proof.
  unfold Timeline.run_trial. destruct (String.eqb _ _).
  - unfold Timeline.rent_trial. rewrite !bind_run, timeline_rent_years_reads.
    reflexivity.
  - rewrite !TimelineFacts.buy_trial_run.
    unfold Timeline.later_years. cbv zeta.
    rewrite timeline_buy_years_reads. reflexivity.
Qed.

Hypothesis Hthreshold :
  affordability_threshold s1 = affordability_threshold s2.

Lemma buying_month_loop_reads (n : nat) (r : ratio) (l : Buying.locals)
    (g : rng) :
  Buying.month_loop s1 n r l g = Buying.month_loop s2 n r l g.
Proof.
  revert l g. induction n as [|n IH]; intros l g; [reflexivity|].
  cbn [Buying.month_loop]. rewrite Hthreshold.
  destruct (ratio_le r (affordability_threshold s2)); [apply IH|].
  rewrite !bind_run, random_run. cbn [fst snd].
  destruct (Qltb _ 0.3); [reflexivity | apply IH].
Qed.

Lemma buying_year_loop_reads (params : HousingScenarioParameters) (k : nat)
    (l : Buying.locals) (g : rng) :
  Buying.year_loop s1 params k l g = Buying.year_loop s2 params k l g.
Proof.
  revert l g. induction k as [|k IH]; intros l g; [reflexivity|].
  rewrite !BuyingFacts.buy_year_loop_step. cbv zeta.
  rewrite !BuyingFacts.year_shocks_run. cbv zeta. cbn [fst snd].
  rewrite Hgrowth, Hmode, buying_month_loop_reads.
  destruct (Buying.defaulted _); [reflexivity | apply IH].
Qed.

Lemma buying_trial_reads (household : Household)
    (params : HousingScenarioParameters) (years : nat) (g : rng) :
  Buying.run_trial s1 household params years g
  = Buying.run_trial s2 household params years g.
Proof.
  rewrite !TrialFacts.run_trial_run. cbv zeta.
  rewrite buying_year_loop_reads. reflexivity.
Qed.

End Settings.

(** X20: the settings that each method reads.  Renting results depend on
    the simulator only through [income_growth]; timeline results through
    [income_growth] and the insurance setting clipped to [0.03, 0.12], never
    through the affordability threshold; buying results through these two
    and the affordability threshold.  An insurance setting outside
    [0.03, 0.12] acts like the nearest end of the range. *)
Theorem settings_read_by_each_method
    (s1 s2 : MonteCarloHousingSimulator) (household : Household)
    (name : string) (num_simulations time_horizon_years : nat) (g : rng) :
  income_growth s1 = income_growth s2 ->
  simulate_renting s1 household num_simulations time_horizon_years g
  = simulate_renting s2 household num_simulations time_horizon_years g
  /\ (np_clip (insurance_increase s1) 0.03 0.12
      = np_clip (insurance_increase s2) 0.03 0.12 ->
      simulate_timeline s1 household name num_simulations
        time_horizon_years g
      = simulate_timeline s2 household name num_simulations
          time_horizon_years g
      /\ (affordability_threshold s1 = affordability_threshold s2 ->
          simulate_buying s1 household name num_simulations
            time_horizon_years g
          = simulate_buying s2 household name num_simulations
              time_horizon_years g)).
Proof.
  intros Hg. split; [|intros Hm; split; [|intros Ht]].
  - unfold simulate_renting. rewrite !bind_run.
    rewrite (replicate_rand_ext _ _ _
               (renting_trial_reads s1 s2 Hg household time_horizon_years)).
    reflexivity.
  - unfold simulate_timeline. destruct (scenarios !! name); [|reflexivity].
    rewrite !bind_run.
    rewrite (replicate_rand_ext _ _ _
               (timeline_trial_reads s1 s2 Hg Hm household name h
                  time_horizon_years)).
    reflexivity.
  - unfold simulate_buying. destruct (scenarios !! name); [|reflexivity].
    rewrite !bind_run.
    rewrite (replicate_rand_ext _ _ _
               (buying_trial_reads s1 s2 Hg Hm Ht household h
                  time_horizon_years)).
    reflexivity.
Qed.

Lemma settings_read_by_each_method_witness :
  simulate_renting capped_simulator sample_household 100 10 flat_rng
  = simulate_renting overshooting_simulator sample_household 100 10 flat_rng
  /\ simulate_timeline capped_simulator sample_household "Buy Starter Home"
       100 10 flat_rng
     = simulate_timeline overshooting_simulator sample_household
         "Buy Starter Home" 100 10 flat_rng.
Proof.
  assert (H1 : income_growth capped_simulator
               = income_growth overshooting_simulator) by reflexivity.
  assert (H2 : np_clip (insurance_increase capped_simulator) 0.03 0.12
               = np_clip (insurance_increase overshooting_simulator)
                   0.03 0.12)
    by (vm_compute; reflexivity).
  destruct (settings_read_by_each_method capped_simulator
              overshooting_simulator sample_household "Buy Starter Home"
              100 10 flat_rng H1) as [A B].
  split; [exact A | exact (proj1 (B H2))].
Defined.

(** ** Defaults and negative equity *)

Lemma count_implies {A} (p q : A -> bool) (l : list A) :
  Forall (fun x => p x = true -> q x = true) l ->
  (count_true (map p l) <= count_true (map q l))%nat.
Proof.
  induction 1 as [|x l Hx _ IH]; [cbn; lia|].
  cbn [map]. rewrite !count_true_cons.
  destruct (p x); [rewrite (Hx eq_refl)|destruct (q x)]; cbn [Nat.add]; lia.
Qed.

Lemma fraction_le (a b n : nat) :
  (0 < n)%nat -> (a <= b)%nat -> Qnat a / Qnat n <= Qnat b / Qnat n.
Proof.
  intros Hn H. pose proof (Qnat_pos n Hn) as Hp.
  pose proof (Qnat_le _ _ H) as L.
  apply Qmult_le_compat_r; [exact L|].
  apply Qinv_le_0_compat. lra.
Qed.

Module DefaultEquity.
Import Buying.

(** A trial that ends in default reports a loss when the household had
    savings to lose. *)
Lemma default_is_a_loss (self : MonteCarloHousingSimulator)
    (household : Household) (name : string)
    (params : HousingScenarioParameters) (years : nat) (g : rng) :
  scenarios !! name = Some params -> name <> "Keep Renting" ->
  tape_ok g -> appreciation_ok params g -> 0 < savings household ->
  default_occurred (fst (run_trial self household params years g)) = true ->
  final_equity (fst (run_trial self household params years g)) < 0.
Proof.
  intros Hlook Hne Ht Ha Hs.
  pose proof (catalog_params_ok _ _ Hlook) as Hp.
  pose proof (PaidPositive.closing_costs_positive name params household g
                Hlook Hne (Ht _)) as Hc.
  rewrite TrialFacts.run_trial_run.
  destruct (fails_entry household (drawn_entry params household g)).
  - cbn [fst failed_entry_cells final_equity default_occurred]. intros _.
    destruct (Qle_bool _ _); lra.
  - cbv zeta. cbn [fst settle final_equity default_occurred]. intros D.
    rewrite D.
    destruct (CostFacts.start_locals_ok household params g Hp (Ht _))
      as (C & _ & T & _).
    destruct (CostFacts.entry_ok params household g Hp (Ht _))
      as (_ & E2 & _ & _).
    destruct (CostFacts.year_loop_ok self params years
                (start_locals household params g) (advance 2 g) Hp
                (tape_ok_advance 2 g Ht) Ha C) as [_ Y].
    rewrite T in Y. lra.
Qed.

End DefaultEquity.

(** X21: for a buying scenario, positive savings, variates in range and
    no appreciation draw below -100 %, every trial that defaults reports a
    negative equity, so the reported probability of default is at most the
    reported probability of negative equity. *)
Theorem default_probability_below_negative_equity
    (self : MonteCarloHousingSimulator) (household : Household)
    (name : string) (params : HousingScenarioParameters)
    (num_simulations time_horizon_years : nat) (g : rng) :
  (0 < num_simulations)%nat ->
  scenarios !! name = Some params ->
  name <> "Keep Renting" ->
  tape_ok g ->
  appreciation_ok params g ->
  0 < savings household ->
  exists b : Buying.result,
    fst (simulate_buying self household name num_simulations
           time_horizon_years g) = Ok b
    /\ Buying.r_probability_default b
       <= Buying.r_probability_negative_equity b.
Proof.
  intros HN Hlook Hne Ht Ha Hs.
  eexists. split; [apply simulate_buying_run; exact Hlook|].
  unfold Buying.aggregate.
  cbn [Buying.r_probability_default Buying.r_probability_negative_equity].
  rewrite map_map.
  apply fraction_le; [exact HN|].
  apply (count_implies Buying.default_occurred
           (fun c => Qltb (Buying.final_equity c) 0)).
  apply replicate_rand_Forall_tape.
  - intros g'.
    destruct (DrawFacts.buying_trial_draws self household params
                time_horizon_years g') as (d & _ & ->).
    reflexivity.
  - intros g' E D. apply Qltb_true.
    apply (DefaultEquity.default_is_a_loss self household name);
      try assumption.
    + intros n. rewrite E. apply Ht.
    + intros n. rewrite E. apply Ha.
Qed.

Lemma default_probability_below_negative_equity_witness :
  exists b : Buying.result,
    fst (simulate_buying default_simulator sample_household
           "Buy Starter Home" 100 10 flat_rng) = Ok b
    /\ Buying.r_probability_default b
       <= Buying.r_probability_negative_equity b.
Proof.
  assert (H1 : (0 < 100)%nat) by lia.
  assert (H2 : scenarios !! "Buy Starter Home" = Some buy_starter_home)
    by (vm_compute; reflexivity).
  assert (H3 : "Buy Starter Home" <> "Keep Renting") by discriminate.
  assert (H4 : appreciation_ok buy_starter_home flat_rng)
    by (intros n; vm_compute; discriminate).
  assert (H5 : 0 < savings sample_household) by (vm_compute; reflexivity).
  exact (default_probability_below_negative_equity default_simulator
           sample_household "Buy Starter Home" buy_starter_home 100 10
           flat_rng H1 H2 H3 flat_tape_ok H4 H5).
Defined.

(** ** The median is the 50th percentile *)

Module MedianFacts.
Import SortFacts PercentileFacts.

Lemma Qfloor_unique (x : Q) (z : Z) :
  inject_Z z <= x -> x < inject_Z z + 1 -> Qfloor x = z.
Proof.
  intros H1 H2.
  pose proof (Qfloor_le x) as F1. pose proof (Qlt_floor x) as F2.
  rewrite inject_Z_plus in F2. change (inject_Z 1) with 1 in F2.
  assert (A : inject_Z (Qfloor x) < inject_Z (z + 1))
    by (rewrite inject_Z_plus; change (inject_Z 1) with 1; lra).
  assert (B : inject_Z z < inject_Z (Qfloor x + 1))
    by (rewrite inject_Z_plus; change (inject_Z 1) with 1; lra).
  rewrite <- Zlt_Qlt in A, B. lia.
Qed.

Lemma np_median_is_percentile_50 (l : list Q) :
  np_median l == np_percentile l 50.
Proof.
  unfold np_median, np_percentile. cbv zeta.
  set (n := length l). set (s := np_sort l).
  destruct (Nat.even n) eqn:E.
  - apply Nat.even_spec in E. destruct E as [k Hk].
    destruct k as [|k].
    + assert (Hl : l = []) by (destruct l; [reflexivity | cbn in *; lia]).
      subst s n. rewrite Hl. vm_compute. reflexivity.
    + assert (Hidx : 50 / 100 * (Qnat n - 1) == inject_Z (Z.of_nat k) + (1#2)).
      { rewrite Hk. unfold Qnat.
        replace (Z.of_nat (2 * S k)) with (2 * Z.of_nat k + 2)%Z by lia.
        rewrite inject_Z_plus, inject_Z_mult.
        change (inject_Z 2) with 2. field. }
      assert (Hfl : Qfloor (50 / 100 * (Qnat n - 1)) = Z.of_nat k)
        by (apply Qfloor_unique; lra).
      rewrite Hfl, Nat2Z.id.
      replace (n / 2)%nat with (S k)
        by (rewrite Hk, Nat.mul_comm, Nat.div_mul; lia).
      replace (S k - 1)%nat with k by lia.
      replace (Nat.min (k + 1) (n - 1)) with (S k) by lia.
      rewrite Hidx. unfold Qnat. field.
  - assert (O : Nat.odd n = true)
      by (rewrite <- Nat.negb_even, E; reflexivity).
    apply Nat.odd_spec in O. destruct O as [k Hk].
    assert (Hidx : 50 / 100 * (Qnat n - 1) == inject_Z (Z.of_nat k)).
    { rewrite Hk. unfold Qnat.
      replace (Z.of_nat (2 * k + 1)) with (2 * Z.of_nat k + 1)%Z by lia.
      rewrite inject_Z_plus, inject_Z_mult.
      change (inject_Z 2) with 2. change (inject_Z 1) with 1. field. }
    assert (Hfl : Qfloor (50 / 100 * (Qnat n - 1)) = Z.of_nat k)
      by (apply Qfloor_unique; lra).
    rewrite Hfl, Nat2Z.id.
    replace (n / 2)%nat with k.
    2:{ rewrite Hk. apply (Nat.div_unique (2 * k + 1) 2 k 1); lia. }
    rewrite Hidx. unfold Qnat. ring.
Qed.

End MedianFacts.

Lemma summarize_ordered (l : list Q) :
  l <> [] ->
  percentile_5 (summarize l) <= median (summarize l)
  /\ median (summarize l) <= percentile_95 (summarize l).
Proof.
  intros Hne. unfold summarize. cbn [percentile_5 median percentile_95].
  rewrite MedianFacts.np_median_is_percentile_50.
  split; apply PercentileFacts.percentile_monotone; try exact Hne; lra.
Qed.

(** X22: with at least one trial the median of every cost summary lies
    between its 5th and 95th percentiles (the mean need not), and the
    'expected' band of the projector, a 50th percentile, is the median of
    the year's samples. *)
Theorem medians_lie_between_the_percentiles
    (self : MonteCarloHousingSimulator) (household : Household)
    (name : string) (params : HousingScenarioParameters)
    (num_simulations time_horizon_years : nat) (g : rng) :
  (0 < num_simulations)%nat ->
  scenarios !! name = Some params ->
  (let r := fst (simulate_renting self household num_simulations
                   time_horizon_years g) in
   percentile_5 (Renting.r_final_monthly_cost r)
   <= median (Renting.r_final_monthly_cost r)
   /\ median (Renting.r_final_monthly_cost r)
      <= percentile_95 (Renting.r_final_monthly_cost r)
   /\ percentile_5 (Renting.r_total_cost_paid r)
      <= median (Renting.r_total_cost_paid r)
   /\ median (Renting.r_total_cost_paid r)
      <= percentile_95 (Renting.r_total_cost_paid r))
  /\ (exists b : Buying.result,
         fst (simulate_buying self household name num_simulations
                time_horizon_years g) = Ok b
         /\ percentile_5 (Buying.r_total_cost_paid b)
            <= median (Buying.r_total_cost_paid b)
         /\ median (Buying.r_total_cost_paid b)
            <= percentile_95 (Buying.r_total_cost_paid b)
         /\ percentile_5 (Buying.r_final_monthly_cost b)
            <= median (Buying.r_final_monthly_cost b)
         /\ median (Buying.r_final_monthly_cost b)
            <= percentile_95 (Buying.r_final_monthly_cost b))
  /\ (exists t : Timeline.result,
         fst (simulate_timeline self household name num_simulations
                time_horizon_years g) = Ok t
         /\ Forall2 Qeq (Timeline.expected (Timeline.t_equity t))
              (map (fun y =>
                      np_median
                        (Timeline.column Timeline.equity
                           (fst (replicate_rand num_simulations
                                   (Timeline.run_trial self household name
                                      params time_horizon_years) g)) y))
                   (Timeline.t_years t))).
Proof.
  intros HN Hlook. split; [|split].
  - cbv zeta. rewrite simulate_renting_run. unfold Renting.aggregate.
    cbn [Renting.r_final_monthly_cost Renting.r_total_cost_paid].
    set (trials := fst (replicate_rand _ _ _)).
    assert (L : length trials = num_simulations)
      by apply replicate_rand_length.
    assert (N1 : map Renting.rent trials <> [])
      by (intros E; apply (f_equal length) in E; rewrite length_map in E;
          cbn in E; lia).
    assert (N2 : map Renting.total_cost trials <> [])
      by (intros E; apply (f_equal length) in E; rewrite length_map in E;
          cbn in E; lia).
    destruct (summarize_ordered _ N1). destruct (summarize_ordered _ N2).
    repeat split; assumption.
  - eexists. split; [apply simulate_buying_run; exact Hlook|].
    set (trials := fst (replicate_rand _ _ _)).
    assert (L : length trials = num_simulations)
      by apply replicate_rand_length.
    assert (N1 : map Buying.total_paid trials <> [])
      by (intros E; apply (f_equal length) in E; rewrite length_map in E;
          cbn in E; lia).
    destruct (summarize_ordered _ N1) as [A B].
    rewrite monthly_cost_summary.
    unfold Buying.aggregate. cbn [Buying.r_total_cost_paid].
    split; [exact A|]. split; [exact B|].
    unfold Buying.survivor_summary.
    destruct (Buying.survivors trials) as [|c cs] eqn:S.
    + cbn. split; lra.
    + apply summarize_ordered. discriminate.
  - eexists.
    split; [rewrite (simulate_timeline_run _ _ _ params) by exact Hlook;
            reflexivity|].
    unfold Timeline.aggregate.
    cbn [Timeline.t_equity Timeline.t_years Timeline.expected].
    apply ColumnFacts.Forall2_map_same. intros y. symmetry.
    apply MedianFacts.np_median_is_percentile_50.
Qed.

Lemma medians_lie_between_the_percentiles_witness :
  percentile_5
    (Renting.r_total_cost_paid
       (fst (simulate_renting default_simulator sample_household 3 2
               flat_rng)))
  <= median
       (Renting.r_total_cost_paid
          (fst (simulate_renting default_simulator sample_household 3 2
                  flat_rng))).
Proof.
  assert (H1 : (0 < 3)%nat) by lia.
  assert (H2 : scenarios !! "Buy Starter Home" = Some buy_starter_home)
    by (vm_compute; reflexivity).
  destruct (medians_lie_between_the_percentiles default_simulator
              sample_household "Buy Starter Home" buy_starter_home 3 2
              flat_rng H1 H2) as [(_ & _ & A & _) _].
  exact A.
Defined.

(** ** The batch of the application *)

Module BatchFacts.
Import App.

Lemma simulate_household_key (self : MonteCarloHousingSimulator)
    (household : Household) (name : string) (n years : nat) (g : rng) :
  In name (map fst scenario_catalog) ->
  exists r : ResultRecord,
    fst (simulate_household self household name n years g) = Ok r
    /\ result_key r = (household_id household, name).
Proof.
  intros Hin.
  destruct (String.eqb_spec name "Keep Renting") as [-> | Hne].
  - rewrite simulate_household_renting. eexists. split; [reflexivity|].
    cbn [result_key]. rewrite simulate_renting_run. reflexivity.
  - destruct (scenarios_lookup_known _ Hin) as [params Hlook].
    rewrite (simulate_household_buying self household name params)
      by assumption.
    eexists. split; reflexivity.
Qed.

Lemma simulate_names_keys (self : MonteCarloHousingSimulator)
    (household : Household) (names : list string) (n years : nat) (g : rng) :
  Forall (fun name => In name (map fst scenario_catalog)) names ->
  exists results : list ResultRecord,
    fst (simulate_names self household names n years g) = Ok results
    /\ map result_key results
       = map (fun name => (household_id household, name)) names.
Proof.
  intros HF. revert g. induction HF as [|name names Hin _ IH]; intros g.
  - exists []. split; reflexivity.
  - cbn [simulate_names]. rewrite bind_run.
    destruct (simulate_household_key self household name n years g Hin)
      as (r & E & K).
    destruct (simulate_household self household name n years g) as [x g1].
    cbn [fst snd] in E |- *. subst x.
    rewrite bind_run.
    destruct (IH g1) as (rs & E' & K').
    destruct (simulate_names self household names n years g1) as [y g2].
    cbn [fst snd] in E' |- *. subst y.
    exists (r :: rs). split; [reflexivity|].
    cbn [map]. rewrite K, K'. reflexivity.
Qed.

Lemma run_simulations_keys (self : MonteCarloHousingSimulator)
    (sample : list Household) (scenario : string) (names : list string)
    (n years : nat) (g : rng) :
  (if String.eqb scenario "All Scenarios" then all_scenarios else [scenario])
  = names ->
  Forall (fun name => In name (map fst scenario_catalog)) names ->
  exists results_list : list ResultRecord,
    fst (run_simulations self sample scenario n years g) = Ok results_list
    /\ map result_key results_list
       = flat_map (fun household =>
                     map (fun name => (household_id household, name)) names)
           sample.
Proof.
  intros Hnames HF. revert g.
  induction sample as [|household sample IH]; intros g.
  - exists []. split; reflexivity.
  - cbn [run_simulations]. rewrite Hnames, bind_run.
    destruct (simulate_names_keys self household names n years g HF)
      as (rs & E & K).
    destruct (simulate_names self household names n years g) as [x g1].
    cbn [fst snd] in E |- *. subst x.
    rewrite bind_run.
    destruct (IH g1) as (more & E' & K').
    destruct (run_simulations self sample scenario n years g1) as [y g2].
    cbn [fst snd] in E' |- *. subst y.
    exists (rs ++ more). split; [reflexivity|].
    cbn [flat_map]. rewrite map_app, K, K'. reflexivity.
Qed.

End BatchFacts.

(** X23: the batch of the application.  With 'All Scenarios' it never
    raises and appends, household by household, one result per catalog key
    in catalog order: four results per sampled household, each carrying the
    id of its household and the name of its scenario.  With a catalog key
    it appends one result per household; any other name raises [KeyError]
    at the first household without drawing a variate. *)
Theorem batch_results_layout
    (self : MonteCarloHousingSimulator) (sample : list Household)
    (scenario : string) (num_simulations time_horizon_years : nat) (g : rng) :
  (scenario = "All Scenarios" ->
   exists results_list : list ResultRecord,
     fst (App.run_simulations self sample scenario num_simulations
            time_horizon_years g) = Ok results_list
     /\ length results_list = (4 * length sample)%nat
     /\ map App.result_key results_list
        = flat_map (fun household =>
                      map (fun name => (household_id household, name))
                        (map fst scenario_catalog))
            sample)
  /\ (In scenario (map fst scenario_catalog) ->
      exists results_list : list ResultRecord,
        fst (App.run_simulations self sample scenario num_simulations
               time_horizon_years g) = Ok results_list
        /\ map App.result_key results_list
           = map (fun household => (household_id household, scenario)) sample)
  /\ (scenario <> "All Scenarios" ->
      ~ In scenario (map fst scenario_catalog) ->
      sample <> [] ->
      App.run_simulations self sample scenario num_simulations
        time_horizon_years g
      = (KeyError scenario, g)).
Proof.
  split; [|split].
  - intros ->.
    destruct (BatchFacts.run_simulations_keys self sample "All Scenarios"
                App.all_scenarios num_simulations time_horizon_years g)
      as (rs & E & K);
      [reflexivity
      | unfold App.all_scenarios;
        repeat (constructor; [cbn; auto 10|]); constructor |].
    exists rs. split; [exact E|]. split; [|exact K].
    apply (f_equal length) in K. rewrite length_map in K. rewrite K.
    clear. induction sample as [|h sample IH]; [reflexivity|].
    cbn [flat_map length]. rewrite length_app, IH. cbn [App.all_scenarios map length].
    lia.
  - intros Hin.
    assert (Hne : String.eqb scenario "All Scenarios" = false).
    { apply String.eqb_neq. intros ->. cbn in Hin.
      intuition discriminate. }
    destruct (BatchFacts.run_simulations_keys self sample scenario
                [scenario] num_simulations time_horizon_years g)
      as (rs & E & K);
      [rewrite Hne; reflexivity | constructor; [exact Hin | constructor] |].
    exists rs. split; [exact E|]. rewrite K.
    clear. induction sample as [|h sample IH]; [reflexivity|].
    cbn [flat_map]. rewrite IH. reflexivity.
  - intros Hne Hnot Hs. destruct sample as [|household sample]; [congruence|].
    cbn [App.run_simulations].
    apply String.eqb_neq in Hne. rewrite Hne.
    cbn [App.simulate_names]. rewrite !bind_run.
    assert (E : simulate_household self household scenario num_simulations
                  time_horizon_years g = (KeyError scenario, g)).
    { unfold simulate_household.
      destruct (String.eqb_spec scenario "Keep Renting") as [-> | _].
      - exfalso. apply Hnot. cbn. tauto.
      - rewrite bind_run. unfold simulate_buying.
        rewrite (scenarios_lookup_unknown _ Hnot). reflexivity. }
    rewrite E. reflexivity.
Qed.

Lemma batch_results_layout_witness :
  exists results_list : list ResultRecord,
    fst (App.run_simulations default_simulator
           [sample_household; comfortable_household] "All Scenarios" 1000 10
           flat_rng) = Ok results_list
    /\ length results_list = (4 * 2)%nat.
Proof.
  destruct (batch_results_layout default_simulator
              [sample_household; comfortable_household] "All Scenarios"
              1000 10 flat_rng) as [A _].
  destruct (A eq_refl) as (rs & E & L & _).
  exists rs. split; [exact E | exact L].
Defined.

(** ** The renting bands of the projector *)

Module RentRowFacts.
Import Timeline PaidFacts.

Lemma rent_years_cost_sorted (self : MonteCarloHousingSimulator) (k : nat)
    (rent income cumulative : Q) (g : rng) :
  tape_ok g -> 0 <= rent ->
  Forall (fun x => rent <= x)
    (map cost (fst (rent_years self k rent income cumulative g)))
  /\ Sorted Qle (map cost (fst (rent_years self k rent income cumulative g))).
Proof.
  intros Ht. revert rent income cumulative g Ht.
  induction k as [|k IH]; intros rent income cumulative g Ht Hr.
  - cbn. split; constructor.
  - rewrite rent_years_step. cbv zeta. cbn [fst map cost].
    assert (B : 0.03 <= 0.05 /\ 0.05 <= 0.10) by (split; lra).
    destruct B as [B1 B2].
    destruct (triangular_bounds 0.03 0.05 0.10 g B1 B2 (Ht _)) as [T1 _].
    set (t := fst (Sampler.triangular 0.03 0.05 0.10 g)) in *.
    assert (Hr' : 0 <= rent * t) by (apply Qmult_le_0_compat; lra).
    destruct (IH (rent * (1 + t))
                (Buying.shocked_income self income (advance 1 g))
                (cumulative + rent * (1 + t) * 12) (advance 2 g)
                (tape_ok_advance 2 g Ht)) as [F S]; [lra|].
    split.
    + constructor; [lra|]. eapply Forall_weaken; [|exact F]. lra.
    + constructor; [exact S | apply HdRel_of_Forall; exact F].
Qed.

Lemma rent_trial_cost_sorted (self : MonteCarloHousingSimulator)
    (household : Household) (years : nat) (g : rng) :
  tape_ok g -> 0 <= current_monthly_rent household ->
  Sorted Qle (map cost (fst (rent_trial self household years g)))
  /\ Forall (fun p => equity p = 0) (fst (rent_trial self household years g)).
Proof.
  intros Ht Hr. unfold rent_trial. rewrite bind_run. cbn [fst ret map cost].
  destruct (rent_years_cost_sorted self years (current_monthly_rent household)
              (annual_income household) 0 g Ht Hr) as [F S].
  destruct (rent_years_sorted self years (current_monthly_rent household)
              (annual_income household) 0 g Ht Hr) as (_ & _ & E).
  split.
  - constructor; [exact S | apply HdRel_of_Forall; exact F].
  - constructor; [reflexivity | exact E].
Qed.

End RentRowFacts.

Lemma column_of_zeros (rows : list (list Timeline.point)) (y : nat) :
  Forall (fun row => Forall (fun p => Timeline.equity p = 0) row) rows ->
  Forall (fun x => 0 <= x /\ x <= 0) (Timeline.column Timeline.equity rows y).
Proof.
  intros HF. unfold Timeline.column. apply Forall_map.
  eapply Forall_impl; [exact HF|]. intros row Hrow. cbv beta.
  destruct (row !! y) as [p|] eqn:E; [|split; lra].
  rewrite (Forall_lookup_1 _ _ _ _ Hrow E). split; lra.
Qed.

Lemma percentile_of_zeros (l : list Q) (q : Q) :
  l <> [] -> 0 <= q -> q <= 100 ->
  Forall (fun x => 0 <= x /\ x <= 0) l -> np_percentile l q == 0.
Proof.
  intros Hne H0 H1 HF.
  destruct (StatFacts.np_percentile_bounds 0 0 l q Hne H0 H1 HF). lra.
Qed.

(** X24: for 'Keep Renting', with a non-negative rent and variates in
    range, each monthly-cost band of the projector never decreases from one
    year to the next, and all three equity bands are 0 at every year. *)
Theorem renting_timeline_bands
    (self : MonteCarloHousingSimulator) (household : Household)
    (num_simulations time_horizon_years : nat) (g : rng) :
  (0 < num_simulations)%nat ->
  tape_ok g ->
  0 <= current_monthly_rent household ->
  exists t : Timeline.result,
    fst (simulate_timeline self household "Keep Renting" num_simulations
           time_horizon_years g) = Ok t
    /\ Sorted Qle (Timeline.optimistic (Timeline.t_monthly_costs t))
    /\ Sorted Qle (Timeline.expected (Timeline.t_monthly_costs t))
    /\ Sorted Qle (Timeline.pessimistic (Timeline.t_monthly_costs t))
    /\ Forall (fun x => x == 0) (Timeline.pessimistic (Timeline.t_equity t))
    /\ Forall (fun x => x == 0) (Timeline.expected (Timeline.t_equity t))
    /\ Forall (fun x => x == 0) (Timeline.optimistic (Timeline.t_equity t)).
Proof.
  intros HN Ht Hr. eexists.
  split; [rewrite (simulate_timeline_run _ _ _ keep_renting)
            by (vm_compute; reflexivity); reflexivity|].
  unfold Timeline.aggregate.
  cbn [Timeline.t_monthly_costs Timeline.t_equity Timeline.pessimistic
       Timeline.expected Timeline.optimistic].
  set (rows := fst (replicate_rand _ _ _)).
  assert (HF : Forall (fun row =>
                         (Sorted Qle (map Timeline.cost row)
                          /\ length row = (time_horizon_years + 1)%nat)
                         /\ Forall (fun p => Timeline.equity p = 0) row)
                 rows).
  { apply replicate_rand_Forall_tape.
    - intros g'. apply RowFacts.run_trial_tape.
    - intros g' E.
      assert (Ht' : tape_ok g') by (intros n; rewrite E; apply Ht).
      destruct (RentRowFacts.rent_trial_cost_sorted self household
                  time_horizon_years g' Ht' Hr) as [S Z].
      split; [split; [exact S|] | exact Z].
      apply (RowFacts.run_trial_shape self household "Keep Renting"). }
  assert (HS : Forall (fun row => Sorted Qle (map Timeline.cost row)
                                  /\ length row
                                     = (time_horizon_years + 1)%nat) rows)
    by (eapply Forall_impl; [exact HF|]; intros row [A _]; exact A).
  assert (HZ : Forall (fun row => Forall (fun p => Timeline.equity p = 0) row)
                 rows)
    by (eapply Forall_impl; [exact HF|]; intros row [_ A]; exact A).
  assert (Hne : forall y, Timeline.column Timeline.equity rows y <> []).
  { intros y E. apply (f_equal length) in E.
    rewrite ColumnFacts.column_length in E. unfold rows in E.
    rewrite replicate_rand_length in E. cbn in E. lia. }
  split; [|split; [|split]];
    try (apply ColumnFacts.Sorted_map_seq; intros y _ Hy;
         apply PercentileFacts.percentile_pointwise;
         [apply (ColumnFacts.column_pointwise _ _ time_horizon_years);
          [exact HS | lia] | lra | lra]).
  repeat split; apply Forall_map; apply Forall_forall; intros y _; cbv beta;
    (apply percentile_of_zeros;
     [apply Hne | lra | lra | apply column_of_zeros; exact HZ]).
Qed.

Lemma renting_timeline_bands_witness :
  exists t : Timeline.result,
    fst (simulate_timeline default_simulator sample_household "Keep Renting"
           100 10 flat_rng) = Ok t
    /\ Sorted Qle (Timeline.expected (Timeline.t_monthly_costs t)).
Proof.
  assert (H1 : (0 < 100)%nat) by lia.
  assert (H2 : 0 <= current_monthly_rent sample_household)
    by (vm_compute; discriminate).
  destruct (renting_timeline_bands default_simulator sample_household 100 10
              flat_rng H1 flat_tape_ok H2) as (t & E & _ & A & _).
  exists t. split; [exact E | exact A].
Defined.

(** ** Credit score and mortgage rate *)

Lemma np_clip_monotone (x y lo hi : Q) :
  x <= y -> np_clip x lo hi <= np_clip y lo hi.
Proof.
  intros H. unfold np_clip.
  destruct (py_max_cases x lo) as [[A1 ->] | [A1 ->]];
    destruct (py_max_cases y lo) as [[A2 ->] | [A2 ->]];
    destruct (py_min_cases lo hi) as [[A3 E3] | [A3 E3]];
    destruct (py_min_cases x hi) as [[A4 E4] | [A4 E4]];
    destruct (py_min_cases y hi) as [[A5 E5] | [A5 E5]];
    rewrite ?E3, ?E4, ?E5; lra.
Qed.

(** X25: on the same generator a better credit score never raises the
    drawn mortgage rate, and it lowers it by at most 0.0001 per point. *)
Theorem better_credit_never_raises_the_rate
    (h1 h2 : Household) (params : HousingScenarioParameters) (g : rng) :
  credit_score h1 <= credit_score h2 ->
  Buying.drawn_rate params h2 g <= Buying.drawn_rate params h1 g
  /\ Buying.drawn_rate params h1 g - Buying.drawn_rate params h2 g
     <= (credit_score h2 - credit_score h1) * 0.0001.
Proof.
  intros Hc. unfold Buying.drawn_rate.
  rewrite !draw_interest_rate_run. cbn [fst].
  set (z := interest_rate_std params * gauss _).
  set (m := interest_rate_mean params).
  split.
  - apply np_clip_monotone. lra.
  - set (x1 := m + (750 - credit_score h1) * 0.0001 + z).
    set (x2 := m + (750 - credit_score h2) * 0.0001 + z).
    assert (D : x1 - x2 == (credit_score h2 - credit_score h1) * 0.0001)
      by (unfold x1, x2; ring).
    rewrite <- D. assert (L : x2 <= x1) by (unfold x1, x2; lra).
    clearbody x1 x2. clear - L. unfold np_clip.
    destruct (py_max_cases x1 0.03) as [[A1 ->] | [A1 ->]];
      destruct (py_max_cases x2 0.03) as [[A2 ->] | [A2 ->]];
      destruct (py_min_cases 0.03 0.10) as [[A3 E3] | [A3 E3]];
      destruct (py_min_cases x1 0.10) as [[A4 E4] | [A4 E4]];
      destruct (py_min_cases x2 0.10) as [[A5 E5] | [A5 E5]];
      rewrite ?E3, ?E4, ?E5; lra.
Qed.

Lemma better_credit_never_raises_the_rate_witness :
  Buying.drawn_rate buy_starter_home comfortable_household flat_rng
  <= Buying.drawn_rate buy_starter_home sample_household flat_rng.
Proof.
  assert (H1 : credit_score sample_household
               <= credit_score comfortable_household)
    by (vm_compute; discriminate).
  exact (proj1 (better_credit_never_raises_the_rate sample_household
                  comfortable_household buy_starter_home flat_rng H1)).
Defined.

(** ** Raising the affordability threshold *)

Lemma ratio_le_monotone (r : ratio) (c1 c2 : Q) :
  c1 <= c2 -> ratio_le r c1 = true -> ratio_le r c2 = true.
Proof.
  intros Hc. destruct r as [q| | |]; cbn [ratio_le]; try congruence.
  intros H. apply Qle_bool_iff in H. apply Qle_bool_iff. lra.
Qed.

Section Threshold.

Variables s1 s2 : MonteCarloHousingSimulator.
Hypothesis Hgrowth : income_growth s1 = income_growth s2.
Hypothesis Hmode :
  np_clip (insurance_increase s1) 0.03 0.12
  = np_clip (insurance_increase s2) 0.03 0.12.
Hypothesis Hthreshold :
  affordability_threshold s1 <= affordability_threshold s2.

Lemma year_shocks_same (params : HousingScenarioParameters)
    (l : Buying.locals) (g : rng) :
  Buying.year_shocks s2 params l g = Buying.year_shocks s1 params l g.
Proof.
  rewrite !BuyingFacts.year_shocks_run. cbv zeta.
  rewrite Hgrowth, Hmode. reflexivity.
Qed.

(** A year that pays its twelve months under the lower threshold is the
    same year under the higher one. *)
Lemma paid_year_same (params : HousingScenarioParameters)
    (l : Buying.locals) (g : rng) :
  Buying.months_affordable (fst (Buying.year_body s1 params l g))
  = (Buying.months_affordable l + 12)%nat ->
  Buying.year_body s2 params l g = Buying.year_body s1 params l g.
Proof.
  unfold Buying.year_body. rewrite year_shocks_same.
  set (r := fst (fst (Buying.year_shocks s1 params l g))).
  set (l1 := snd (fst (Buying.year_shocks s1 params l g))).
  assert (M : Buying.months_affordable l1 = Buying.months_affordable l)
    by reflexivity.
  destruct (BuyingFacts.month_loop_cases s1 12 r l1 (advance 4 g))
    as [_ [[A R] | [_ [R | R]]]].
  - intros _. rewrite R.
    destruct (BuyingFacts.month_loop_cases s2 12 r l1 (advance 4 g))
      as [_ [[_ R2] | [F _]]]; [exact R2|].
    rewrite (ratio_le_monotone r _ _ Hthreshold A) in F. discriminate F.
  - rewrite R, M. lia.
  - rewrite R. cbn [Buying.mark_default Buying.months_affordable].
    rewrite M. lia.
Qed.

Lemma paid_years_same (params : HousingScenarioParameters) (k : nat)
    (l : Buying.locals) (g : rng) :
  Buying.months_affordable (fst (Buying.year_loop s1 params k l g))
  = (Buying.months_affordable l + 12 * k)%nat ->
  Buying.year_loop s2 params k l g = Buying.year_loop s1 params k l g.
Proof.
  revert l g. induction k as [|k IH]; intros l g; [reflexivity|].
  rewrite !YearFacts.year_loop_body.
  destruct (MonthFacts.year_body_outcome s1 params l g) as [[M D] | M].
  - rewrite (paid_year_same params l g M).
    destruct (Buying.defaulted (fst (Buying.year_body s1 params l g)));
      [reflexivity|].
    intros H. apply IH. rewrite H, M. lia.
  - destruct (Buying.defaulted (fst (Buying.year_body s1 params l g))) eqn:E.
    + rewrite M. lia.
    + destruct (MonthFacts.year_loop_default_months s1 params k
                  (fst (Buying.year_body s1 params l g))
                  (snd (Buying.year_body s1 params l g)) E) as [B _].
      rewrite M in B. lia.
Qed.

End Threshold.

(** X26: raising the affordability threshold never harms a trial that
    was fully affordable.  When a buying trial pays all [H * 12] months
    under one threshold, the trial on the same generator under a higher
    threshold (same income growth, same clipped insurance setting) has the
    same outcome and leaves the same generator. *)
Theorem affordable_trial_survives_a_higher_threshold
    (s1 s2 : MonteCarloHousingSimulator) (household : Household)
    (params : HousingScenarioParameters) (years : nat) (g : rng) :
  income_growth s1 = income_growth s2 ->
  np_clip (insurance_increase s1) 0.03 0.12
  = np_clip (insurance_increase s2) 0.03 0.12 ->
  affordability_threshold s1 <= affordability_threshold s2 ->
  Buying.months_solvent (fst (Buying.run_trial s1 household params years g))
  = (years * 12)%nat ->
  Buying.run_trial s2 household params years g
  = Buying.run_trial s1 household params years g.
Proof.
  intros Hg Hm Ht. rewrite !TrialFacts.run_trial_run.
  destruct (Buying.fails_entry household _); [reflexivity|].
  cbv zeta. cbn [fst Buying.settle Buying.months_solvent]. intros M.
  rewrite (paid_years_same s1 s2 Hg Hm Ht params years
             (Buying.start_locals household params g) (advance 2 g));
    [reflexivity|].
  rewrite M. cbn [Buying.start_locals Buying.initial_locals
                  Buying.months_affordable]. lia.
Qed.

(** The first year of the tycoon household is affordable under the strict
    threshold: the payment is at most the loan with one month of interest,
    far below 43 % of the monthly income. *)
Lemma tycoon_first_year :
  Buying.months_solvent
    (fst (Buying.run_trial strict_simulator tycoon_household buy_starter_home
            1 flat_rng))
  = (1 * 12)%nat.
Proof.
  rewrite TrialFacts.run_trial_run.
  assert (F : Buying.fails_entry tycoon_household
                (Buying.drawn_entry buy_starter_home tycoon_household
                   flat_rng) = false) by by_computation.
  rewrite F. cbv zeta. cbn [fst Buying.settle Buying.months_solvent].
  set (e := Buying.drawn_entry buy_starter_home tycoon_household flat_rng).
  set (l0 := Buying.start_locals tycoon_household buy_starter_home flat_rng).
  set (g2 := advance 2 flat_rng).
  destruct (start_locals_fields tycoon_household buy_starter_home flat_rng)
    as (_ & L2 & L3 & L4 & _ & L6).
  fold l0 e in L2, L3, L4, L6.
  assert (HL : 0 <= Buying.home_price e - Buying.down_payment e)
    by le_by_computation.
  destruct (start_mortgage_bounds tycoon_household buy_starter_home flat_rng
              HL) as [M0 M1].
  fold l0 e in M0, M1.
  assert (M2 : (Buying.home_price e - Buying.down_payment e)
               * (1 + Buying.drawn_rate buy_starter_home tycoon_household
                        flat_rng / 12) <= 240000) by le_by_computation.
  destruct (YearFacts.shocks_fields strict_simulator buy_starter_home l0 g2)
    as (_ & _ & _ & _ & A5 & _ & A7 & A8 & A9).
  set (l1 := snd (fst (Buying.year_shocks strict_simulator buy_starter_home
                         l0 g2))) in *.
  rewrite L3, L2 in A8. rewrite L4 in A5. rewrite L6 in A7.
  set (inc1 := Buying.shocked_income strict_simulator _ g2) in *.
  set (X1 := Buying.shocked_extras strict_simulator buy_starter_home
               _ _ g2) in *.
  assert (HX1 : X1 <= 10000) by le_by_computation.
  assert (Hinc1 : inc1 == 104000000) by by_computation.
  assert (R1 : ratio_le
                 (fst (fst (Buying.year_shocks strict_simulator
                              buy_starter_home l0 g2)))
                 (affordability_threshold strict_simulator) = true).
  { rewrite A9, A5, ratio_le_pos.
    - apply Qle_bool_iff. cbn [affordability_threshold strict_simulator].
      rewrite A8, Qdiv12. lra.
    - rewrite Qdiv12. lra. }
  rewrite YearFacts.year_loop_body.
  rewrite (YearFacts.year_paid strict_simulator buy_starter_home l0 g2 R1).
  fold l1. cbn [fst snd].
  destruct (BuyingFacts.pay_months_fields 12 l1)
    as (_ & _ & _ & _ & _ & _ & P7 & P8 & _).
  rewrite P7, A7. cbn [Buying.year_loop ret fst]. rewrite P8. reflexivity.
Qed.

Lemma affordable_trial_survives_a_higher_threshold_witness :
  Buying.run_trial default_simulator tycoon_household buy_starter_home 1
    flat_rng
  = Buying.run_trial strict_simulator tycoon_household buy_starter_home 1
      flat_rng.
Proof.
  assert (H1 : income_growth strict_simulator
               = income_growth default_simulator) by reflexivity.
  assert (H2 : np_clip (insurance_increase strict_simulator) 0.03 0.12
               = np_clip (insurance_increase default_simulator) 0.03 0.12)
    by reflexivity.
  assert (H3 : affordability_threshold strict_simulator
               <= affordability_threshold default_simulator)
    by (vm_compute; discriminate).
  exact (affordable_trial_survives_a_higher_threshold strict_simulator
           default_simulator tycoon_household buy_starter_home 1 flat_rng
           H1 H2 H3 tycoon_first_year).
Defined.

(** ** A longer horizon extends the trial *)

Module HorizonFacts.

(** The year loop, unrolled at its last year. *)
Lemma buying_year_loop_last (self : MonteCarloHousingSimulator)
    (params : HousingScenarioParameters) (k : nat) (l : Buying.locals)
    (g : rng) :
  Buying.defaulted l = false ->
  Buying.year_loop self params (S k) l g
  = if Buying.defaulted (fst (Buying.year_loop self params k l g))
    then Buying.year_loop self params k l g
    else Buying.year_body self params
           (fst (Buying.year_loop self params k l g))
           (snd (Buying.year_loop self params k l g)).
Proof.
  revert l g. induction k as [|k IH]; intros l g Hd.
  - rewrite YearFacts.year_loop_body. cbn [Buying.year_loop ret fst snd].
    rewrite Hd.
    destruct (Buying.year_body self params l g) as [l' g'].
    cbn [fst snd]. destruct (Buying.defaulted l'); reflexivity.
  - rewrite YearFacts.year_loop_body.
    rewrite (YearFacts.year_loop_body self params k l g).
    destruct (Buying.defaulted (fst (Buying.year_body self params l g)))
      eqn:E.
    + rewrite E. reflexivity.
    + apply IH. exact E.
Qed.

Lemma renting_year_loop_last (self : MonteCarloHousingSimulator) (k : nat)
    (t : Renting.trial) (g : rng) :
  Renting.year_loop self (S k) t g
  = if Nat.eqb (Renting.months_affordable
                  (fst (Renting.year_loop self k t g)))
         (Renting.months_affordable t + 12 * k)
    then Renting.year_loop self 1 (fst (Renting.year_loop self k t g))
           (snd (Renting.year_loop self k t g))
    else Renting.year_loop self k t g.
Proof.
  revert t g. induction k as [|k IH]; intros t g.
  - cbn [Renting.year_loop ret fst snd Nat.mul].
    rewrite Nat.add_0_r, Nat.eqb_refl. reflexivity.
  - rewrite RentingFacts.rent_year_loop_step.
    rewrite (RentingFacts.rent_year_loop_step self k t g).
    destruct (ratio_le _ 0.35).
    + match goal with |- context [Renting.year_loop self (S k) ?t1 ?g1] =>
        rewrite (IH t1 g1) end.
      cbn [Renting.months_affordable].
      replace (Renting.months_affordable t + 12 + 12 * k)%nat
        with (Renting.months_affordable t + 12 * S k)%nat by lia.
      reflexivity.
    + cbn [fst snd Renting.months_affordable].
      destruct (Nat.eqb_spec (Renting.months_affordable t + 0)
                  (Renting.months_affordable t + 12 * S k)) as [C | _];
        [lia | reflexivity].
Qed.

End HorizonFacts.

(** X27: a longer horizon extends the trial.  On the same generator the
    trial at horizon [H + 1] repeats the trial at horizon [H] and adds at
    most one year: a buying trial that defaulted, or a renting trial that
    stopped before [H * 12] months, is unchanged, and the solvent months
    grow by 0 or 12. *)
Theorem longer_horizon_extends_the_trial
    (self : MonteCarloHousingSimulator) (household : Household)
    (params : HousingScenarioParameters) (years : nat) (g : rng) :
  let c := fst (Buying.run_trial self household params years g) in
  let c' := fst (Buying.run_trial self household params (S years) g) in
  let t := fst (Renting.run_trial self household years g) in
  let t' := fst (Renting.run_trial self household (S years) g) in
  (Buying.default_occurred c = true ->
   Buying.run_trial self household params (S years) g
   = Buying.run_trial self household params years g)
  /\ (Buying.months_solvent c <= Buying.months_solvent c'
      <= Buying.months_solvent c + 12)%nat
  /\ ((Renting.months_affordable t < years * 12)%nat ->
      Renting.run_trial self household (S years) g
      = Renting.run_trial self household years g)
  /\ (Renting.months_affordable t <= Renting.months_affordable t'
      <= Renting.months_affordable t + 12)%nat.
Proof.
  cbv zeta. split; [|split; [|split]].
  - rewrite !TrialFacts.run_trial_run.
    destruct (Buying.fails_entry household _); [reflexivity|].
    cbv zeta. cbn [fst Buying.settle Buying.default_occurred]. intros D.
    rewrite HorizonFacts.buying_year_loop_last by reflexivity.
    rewrite D. reflexivity.
  - rewrite !TrialFacts.run_trial_run.
    destruct (Buying.fails_entry household _);
      [cbn [fst Buying.failed_entry_cells Buying.months_solvent]; lia|].
    cbv zeta. cbn [fst Buying.settle Buying.months_solvent].
    rewrite HorizonFacts.buying_year_loop_last by reflexivity.
    set (r := Buying.year_loop self params years _ _).
    destruct (Buying.defaulted (fst r)); [lia|].
    destruct (MonthFacts.year_body_outcome self params (fst r) (snd r))
      as [[M _] | M]; rewrite M; lia.
  - unfold Renting.run_trial. intros M.
    rewrite HorizonFacts.renting_year_loop_last.
    set (r := Renting.year_loop self years _ g) in *.
    cbn [Renting.months_affordable Nat.add].
    destruct (Nat.eqb_spec (Renting.months_affordable (fst r)) (12 * years))
      as [C | _]; [lia | reflexivity].
  - unfold Renting.run_trial.
    rewrite HorizonFacts.renting_year_loop_last.
    set (r := Renting.year_loop self years _ g) in *.
    destruct (Nat.eqb _ _); [|lia].
    destruct (RentingFacts.rent_year_loop_months self 1 (fst r) (snd r))
      as (_ & j & Hj & M).
    rewrite M. lia.
Qed.

Lemma longer_horizon_extends_the_trial_witness :
  Buying.run_trial default_simulator sample_household buy_starter_home 11
    flat_rng
  = Buying.run_trial default_simulator sample_household buy_starter_home 10
      flat_rng.
Proof.
  assert (H1 : Buying.default_occurred
                 (fst (Buying.run_trial default_simulator sample_household
                         buy_starter_home 10 flat_rng)) = true)
    by (vm_compute; reflexivity).
  exact (proj1 (longer_horizon_extends_the_trial default_simulator
                  sample_household buy_starter_home 10 flat_rng) H1).
Defined.
